(** * Slot reservation and contention control of the patient appointment
    system

    A shallow embedding of the services of [src/services]: the cache
    service and its lock table, the availability service (slot catalogue,
    search, holds), the appointment service (book, reschedule, cancel,
    check-in, complete) and the waitlist service, followed by the
    properties of the specification that concern them.

    Conventions of the embedding.
    - Every service method is a computation in the monad [M S] of state
      [S] and Python exceptions; an exception leaves the state as it was
      at the [raise], and [try ... finally] is [try_finally].
    - A dictionary whose iteration order is observable ([slots]) is an
      association list in insertion order; the other dictionaries are
      [gmap]s.
    - [datetime.utcnow()] is an argument [now] of the method: all the
      readings of the clock taken during one call are represented by it.
    - [uuid.uuid4()] is an argument too: the identifier the call draws.
    - Dates, times and datetimes are naive (no time zone).  A date is
      its ordinal, a time its four fields, a datetime a date and a time;
      [timedelta] arithmetic raises [OverflowError] outside the years 1
      to 9999, as the library does.
    - An [Optional[str]] field is an [option string]; the tests
      [if x:] of the code are its truthiness, [truthy]. *)

From Stdlib Require Import ZArith Sorted Permutation.
From stdpp Require Import gmap strings list fin_maps pretty.

Local Open Scope Z_scope.

(** ** Python exceptions and the state-and-exception monad *)

Inductive exn :=
  | ValueError (msg : string)
  | OverflowError.

Inductive result (A : Type) :=
  | Ok (a : A)
  | Raise (e : exn).
Arguments Ok {A} a.
Arguments Raise {A} e.

Definition M (S A : Type) : Type := S → result A * S.

Definition ret {S A} (a : A) : M S A := λ s, (Ok a, s).
Definition bind {S A B} (m : M S A) (f : A → M S B) : M S B := λ s,
  match m s with
  | (Ok a, s') => f a s'
  | (Raise e, s') => (Raise e, s')
  end.

Notation "'let*' x := m 'in' k" := (bind m (λ x, k))
  (at level 10, x name, m at level 100, k at level 200,
   format "'[v' 'let*'  x  :=  m  'in' '/' k ']'").
Notation "m >> k" := (bind m (λ _, k))
  (at level 100, k at level 200, right associativity,
   format "'[v' m  >> '/' k ']'").

Definition raise {S A} (e : exn) : M S A := λ s, (Raise e, s).
Definition gets {S A} (f : S → A) : M S A := λ s, (Ok (f s), s).
Definition modify {S} (f : S → S) : M S unit := λ s, (Ok tt, f s).

(** [try: body finally: handler].  The handler runs on every exit of the
    body; the outcome of the body is kept unless the handler raises. *)
Definition try_finally {S A} (body : M S A) (handler : M S unit) : M S A :=
  λ s, let '(r, s1) := body s in
       match handler s1 with
       | (Ok _, s2) => (r, s2)
       | (Raise e, s2) => (Raise e, s2)
       end.

(** A method of a component object run on the field that holds it. *)
Definition on_field {S T A} (proj : S → T) (upd : T → S → S) (m : M T A) : M S A :=
  λ s, let '(r, t) := m (proj s) in (r, upd t s).

(** A library call that either returns or raises, run inside a method. *)
Definition call {S A} (r : result A) : M S A := λ s, (r, s).

(** [for x in l: body], with a body that may raise. *)
Fixpoint for_each {S A} (l : list A) (body : A → M S unit) : M S unit :=
  match l with
  | [] => ret tt
  | x :: rest => body x >> for_each rest body
  end.

(** Truthiness of an [Optional[str]]: [None] and the empty string are
    false. *)
Definition truthy (o : option string) : bool :=
  match o with
  | Some s => negb (bool_decide (s = ""))
  | None => false
  end.

(** ** The [datetime] library, as far as the services use it *)

Module Dt.

(** A date is its proleptic Gregorian ordinal ([date.toordinal()]):
    0001-01-01 is day 1 and 9999-12-31 is day 3652059. *)
Definition date := Z.

Record time := mk_time {
  hour : Z;
  minute : Z;
  second : Z;
  microsecond : Z
}.

Record datetime := mk_datetime {
  date_of : date;       (* datetime.date() *)
  time_of : time        (* datetime.time() *)
}.

(** A [timedelta] is a signed number of microseconds. *)
Definition timedelta := Z.

#[global] Instance time_eq_dec : EqDecision time.
Proof. solve_decision. Defined.
#[global] Instance datetime_eq_dec : EqDecision datetime.
Proof. solve_decision. Defined.

Definition MAXORDINAL : Z := 3652059.
Definition US_PER_SECOND : Z := 1000000.
Definition US_PER_MINUTE : Z := 60 * US_PER_SECOND.
Definition US_PER_HOUR : Z := 60 * US_PER_MINUTE.
Definition US_PER_DAY : Z := 24 * US_PER_HOUR.
Definition MAX_DELTA_DAYS : Z := 999999999.

Definition valid_date (d : date) : Prop := 1 ≤ d ≤ MAXORDINAL.

Definition valid_time (t : time) : Prop :=
  0 ≤ hour t < 24 ∧ 0 ≤ minute t < 60 ∧ 0 ≤ second t < 60
  ∧ 0 ≤ microsecond t < 1000000.

Definition valid_datetime (dt : datetime) : Prop :=
  valid_date (date_of dt) ∧ valid_time (time_of dt).

(** [datetime.combine(date, time)] *)
Definition combine (d : date) (t : time) : datetime := mk_datetime d t.

(** Comparison of times and of datetimes is that of their fields, most
    significant first. *)
Definition time_compare (a b : time) : comparison :=
  match hour a ?= hour b with
  | Eq => match minute a ?= minute b with
          | Eq => match second a ?= second b with
                  | Eq => microsecond a ?= microsecond b
                  | c => c
                  end
          | c => c
          end
  | c => c
  end.

Definition datetime_compare (a b : datetime) : comparison :=
  match date_of a ?= date_of b with
  | Eq => time_compare (time_of a) (time_of b)
  | c => c
  end.

(** [a > b] on datetimes *)
Definition gt (a b : datetime) : bool :=
  match datetime_compare a b with Gt => true | _ => false end.

Definition time_to_us (t : time) : Z :=
  hour t * US_PER_HOUR + minute t * US_PER_MINUTE
  + second t * US_PER_SECOND + microsecond t.

Definition time_of_us (us : Z) : time :=
  mk_time (us / US_PER_HOUR) (us / US_PER_MINUTE mod 60)
          (us / US_PER_SECOND mod 60) (us mod US_PER_SECOND).

Definition to_us (dt : datetime) : Z :=
  date_of dt * US_PER_DAY + time_to_us (time_of dt).

Definition of_us (us : Z) : datetime :=
  mk_datetime (us / US_PER_DAY) (time_of_us (us mod US_PER_DAY)).

(** [timedelta(seconds=n)], [timedelta(minutes=n)]: the constructor
    raises [OverflowError] when the number of days of the normalised
    value exceeds 999999999 in magnitude. *)
Definition mk_timedelta (us : Z) : result timedelta :=
  if (- MAX_DELTA_DAYS <=? us / US_PER_DAY) && (us / US_PER_DAY <=? MAX_DELTA_DAYS)
  then Ok us else Raise OverflowError.

Definition seconds (n : Z) : result timedelta := mk_timedelta (n * US_PER_SECOND).
Definition minutes (n : Z) : result timedelta := mk_timedelta (n * US_PER_MINUTE).

(** [dt + delta]: raises [OverflowError] when the sum leaves the years
    1 to 9999. *)
Definition add (dt : datetime) (delta : timedelta) : result datetime :=
  let r := of_us (to_us dt + delta) in
  if (1 <=? date_of r) && (date_of r <=? MAXORDINAL)
  then Ok r else Raise OverflowError.

(** [dt + timedelta(seconds=n)] and [dt + timedelta(minutes=n)]: the
    timedelta is built first, then added. *)
Definition add_seconds (dt : datetime) (n : Z) : result datetime :=
  match seconds n with Ok d => add dt d | Raise e => Raise e end.
Definition add_minutes (dt : datetime) (n : Z) : result datetime :=
  match minutes n with Ok d => add dt d | Raise e => Raise e end.

(** *** [str(date)] and [str(time)], used in the key of the slot lock *)

Definition DAYS_BEFORE_MONTH : list Z :=
  [-1; 0; 31; 59; 90; 120; 151; 181; 212; 243; 273; 304; 334].
Definition DAYS_IN_MONTH : list Z :=
  [-1; 31; 28; 31; 30; 31; 30; 31; 31; 30; 31; 30; 31].

Definition b2z (b : bool) : Z := if b then 1 else 0.

(** [_ord2ymd] of the library: ordinal to (year, month, day). *)
Definition ord2ymd (ordinal : date) : Z * Z * Z :=
  let n := ordinal - 1 in
  let n400 := n / 146097 in
  let n := n mod 146097 in
  let year := n400 * 400 + 1 in
  let n100 := n / 36524 in
  let n := n mod 36524 in
  let n4 := n / 1461 in
  let n := n mod 1461 in
  let n1 := n / 365 in
  let n := n mod 365 in
  let year := year + n100 * 100 + n4 * 4 + n1 in
  if (n1 =? 4) || (n100 =? 4) then (year - 1, 12, 31)
  else
    let leapyear := (n1 =? 3) && (negb (n4 =? 24) || (n100 =? 3)) in
    let month := Z.shiftr (n + 50) 5 in
    let preceding :=
      nth (Z.to_nat month) DAYS_BEFORE_MONTH 0
      + b2z ((2 <? month) && leapyear) in
    if n <? preceding then
      let month := month - 1 in
      let preceding :=
        preceding - (nth (Z.to_nat month) DAYS_IN_MONTH 0
                     + b2z ((month =? 2) && leapyear)) in
      (year, month, n - preceding + 1)
    else (year, month, n - preceding + 1).

(** ["%0<width>d"] for a non-negative number *)
Definition zfill (width : nat) (n : Z) : string :=
  let s := pretty n in
  String.concat "" (replicate (width - String.length s) "0") +:+ s.

Definition str_date (d : date) : string :=
  let '(y, m, dd) := ord2ymd d in
  zfill 4 y +:+ "-" +:+ zfill 2 m +:+ "-" +:+ zfill 2 dd.

Definition str_time (t : time) : string :=
  let s := zfill 2 (hour t) +:+ ":" +:+ zfill 2 (minute t)
           +:+ ":" +:+ zfill 2 (second t) in
  if microsecond t =? 0 then s else s +:+ "." +:+ zfill 6 (microsecond t).

(** *** Dates of the calendar: [date(year, month, day)], [date + delta],
    [calendar.monthrange] *)

(** [timedelta(days=n)] *)
Definition days (n : Z) : result timedelta := mk_timedelta (n * US_PER_DAY).

(** [d + delta] on a date: only the days of [delta] count; raises
    [OverflowError] outside the years 1 to 9999. *)
Definition date_add (d : date) (delta : timedelta) : result date :=
  let o := d + delta / US_PER_DAY in
  if (1 <=? o) && (o <=? MAXORDINAL) then Ok o else Raise OverflowError.

Definition date_add_days (d : date) (n : Z) : result date :=
  match days n with Ok delta => date_add d delta | Raise e => Raise e end.

Definition is_leap (year : Z) : bool :=
  (year mod 4 =? 0) && (negb (year mod 100 =? 0) || (year mod 400 =? 0)).

Definition days_before_year (year : Z) : Z :=
  let y := year - 1 in y * 365 + y / 4 - y / 100 + y / 400.

Definition days_in_month (year month : Z) : Z :=
  if (month =? 2) && is_leap year then 29
  else nth (Z.to_nat month) DAYS_IN_MONTH 0.

Definition days_before_month (year month : Z) : Z :=
  nth (Z.to_nat month) DAYS_BEFORE_MONTH 0 + b2z ((2 <? month) && is_leap year).

(** [_ymd2ord] of the library: (year, month, day) to ordinal. *)
Definition ymd2ord (year month day : Z) : date :=
  days_before_year year + days_before_month year month + day.

(** The arguments of the constructor are converted to C [int]s, of 32
    bits: an argument that does not fit raises [OverflowError]. *)
Definition INT_MIN : Z := - 2 ^ 31.
Definition INT_MAX : Z := 2 ^ 31 - 1.

Definition fits_int (n : Z) : bool := (INT_MIN <=? n) && (n <=? INT_MAX).

(** The constructor [date(year, month, day)], with the conversion of its
    arguments and its range checks. *)
Definition mk_date (year month day : Z) : result date :=
  if negb (fits_int year && fits_int month && fits_int day)
  then Raise OverflowError
  else if negb ((1 <=? year) && (year <=? 9999))
  then Raise (ValueError ("year " +:+ pretty year +:+ " is out of range"))
  else if negb ((1 <=? month) && (month <=? 12))
  then Raise (ValueError "month must be in 1..12")
  else if negb ((1 <=? day) && (day <=? days_in_month year month))
  then Raise (ValueError "day is out of range for month")
  else Ok (ymd2ord year month day).

(** The number of days that [calendar.monthrange(year, month)] returns;
    a month outside 1..12 raises [IllegalMonthError], a [ValueError]. *)
Definition monthrange_days (year month : Z) : result Z :=
  if negb ((1 <=? month) && (month <=? 12))
  then Raise (ValueError ("bad month number " +:+ pretty month
                          +:+ "; must be 1-12"))
  else Ok (days_in_month year month).

(** [date.weekday()]: Monday is 0 and Sunday is 6. *)
Definition weekday (d : date) : Z := (d + 6) mod 7.

End Dt.

(** ** [cache_service.py]: the lock table *)

Module CacheService.

Record LockRecord := mk_lock {
  acquired_at : Dt.datetime;
  expires_at : Dt.datetime
}.

Record t := mk {
  locks : gmap string LockRecord
}.

Definition set_locks (f : gmap string LockRecord → gmap string LockRecord)
    (c : t) : t :=
  mk (f (locks c)).

(** The assignment [self.locks[key] = {...}]: the dictionary display is
    evaluated, and may raise, before the entry is stored. *)
Definition install (key : string) (ttl : Z) (now : Dt.datetime) : M t bool :=
  let* expires := call (Dt.add_seconds now ttl) in
  modify (set_locks (insert key (mk_lock now expires))) >>
  ret true.

Definition acquire_lock (key : string) (ttl : Z) (now : Dt.datetime) : M t bool :=
  let* held := gets (λ c : t, locks c !! key) in
  match held with
  | Some lock =>
      if Dt.gt (expires_at lock) now then ret false
      else
        (* Lock expired *)
        modify (set_locks (delete key)) >>
        install key ttl now
  | None => install key ttl now
  end.

Definition release_lock (key : string) : M t unit :=
  let* present := gets (λ c : t, bool_decide (is_Some (locks c !! key))) in
  if present then modify (set_locks (delete key)) else ret tt.

Definition extend_lock (key : string) (ttl : Z) (now : Dt.datetime) : M t bool :=
  let* held := gets (λ c : t, locks c !! key) in
  match held with
  | Some lock =>
      let* expires := call (Dt.add_seconds now ttl) in
      modify (set_locks (insert key (mk_lock (acquired_at lock) expires))) >>
      ret true
  | None => ret false
  end.

(** *** The cache dictionary

    [get], [set] and [delete] use [self.cache] only, and the lock
    methods [self.locks] only: the three are computations on the cache
    dictionary, whose values are of any type [V]. *)

Module Entry.
Record t (V : Type) := mk {
  value : V;
  expires_at : Dt.datetime
}.
Arguments mk {V} value expires_at.
Arguments value {V} _.
Arguments expires_at {V} _.
End Entry.

(** An entry, a non-empty dictionary, is true; the value is returned as
    it is stored. *)
Definition get {V} (key : string) (now : Dt.datetime)
    : M (gmap string (Entry.t V)) (option V) :=
  let* entry := gets (λ cache : gmap string (Entry.t V), cache !! key) in
  match entry with
  | Some entry =>
      if Dt.gt (Entry.expires_at entry) now then ret (Some (Entry.value entry))
      else modify (delete key) >> ret None
  | None => ret None
  end.

Definition set {V} (key : string) (value : V) (ttl : Z) (now : Dt.datetime)
    : M (gmap string (Entry.t V)) unit :=
  let* expires := call (Dt.add_seconds now ttl) in
  modify (insert key (Entry.mk value expires)).

(** [delete] of the service (the name stands for the map operation
    here). *)
Definition delete_key {V} (key : string) : M (gmap string (Entry.t V)) unit :=
  let* present :=
    gets (λ cache : gmap string (Entry.t V), bool_decide (is_Some (cache !! key))) in
  if present then modify (delete key) else ret tt.

End CacheService.

(** ** Ordered dictionaries, slicing and the stable sort *)

(** A [dict] whose order matters: keys in insertion order, no key twice. *)
Definition odict (V : Type) := list (string * V).

Fixpoint dict_get {V} (key : string) (d : odict V) : option V :=
  match d with
  | [] => None
  | (k, v) :: d' => if bool_decide (k = key) then Some v else dict_get key d'
  end.

(** Mutation of the object stored under [key]. *)
Fixpoint dict_update {V} (f : V → V) (key : string) (d : odict V) : odict V :=
  match d with
  | [] => []
  | (k, v) :: d' =>
      if bool_decide (k = key) then (k, f v) :: d'
      else (k, v) :: dict_update f key d'
  end.

(** [d[key] = v] for a key that [d] may or may not have: the value is
    replaced in place, a new key goes to the end. *)
Fixpoint dict_set {V} (key : string) (v : V) (d : odict V) : odict V :=
  match d with
  | [] => [(key, v)]
  | (k, w) :: d' =>
      if bool_decide (k = key) then (k, v) :: d'
      else (k, w) :: dict_set key v d'
  end.

Definition dict_values {V} (d : odict V) : list V := d.*2.

(** [l[:stop]]: a negative [stop] counts from the end. *)
Definition slice_to {A} (l : list A) (stop : Z) : list A :=
  if 0 <=? stop then take (Z.to_nat stop) l
  else take (Z.to_nat (Z.of_nat (length l) + stop)) l.

(** [list.sort] is a stable sort that compares with [<] only.  The stable
    sort by straight insertion: an element goes in front of the first
    element that is not smaller than it. *)
Section StableSort.
Context {A : Type} (lt : A → A → bool).

Fixpoint insert_sorted (x : A) (l : list A) : list A :=
  match l with
  | [] => [x]
  | y :: l' => if lt y x then y :: insert_sorted x l' else x :: y :: l'
  end.

Fixpoint stable_sort (l : list A) : list A :=
  match l with
  | [] => []
  | x :: l' => insert_sorted x (stable_sort l')
  end.

(** [x] may stand before [y] in a sorted list: [y] is not smaller. *)
Definition not_after (x y : A) : Prop := lt y x = false.
End StableSort.

(** ** [models/availability.py] *)

Module TimeSlot.
Record t := mk {
  id : string;
  provider_id : string;
  provider_name : string;
  location_id : string;
  location_name : string;
  date : Dt.date;
  start_time : Dt.time;
  end_time : Dt.time;
  duration_minutes : Z;
  appointment_types : list string;
  available : bool;
  held_by : option string;
  held_until : option Dt.datetime
}.

Definition set_available (b : bool) (s : t) : t :=
  mk (id s) (provider_id s) (provider_name s) (location_id s)
     (location_name s) (date s) (start_time s) (end_time s)
     (duration_minutes s) (appointment_types s) b (held_by s)
     (held_until s).

Definition set_held (by_ : option string) (until : option Dt.datetime)
    (s : t) : t :=
  mk (id s) (provider_id s) (provider_name s) (location_id s)
     (location_name s) (date s) (start_time s) (end_time s)
     (duration_minutes s) (appointment_types s) (available s) by_ until.
End TimeSlot.

Module AvailabilitySearch.
Record t := mk {
  specialty : option string;
  location_id : option string;
  provider_id : option string;
  start_date : Dt.date;
  end_date : Dt.date;
  time_of_day : option string;
  appointment_type : option string;
  limit : Z
}.
End AvailabilitySearch.

Module SlotHold.
Record t := mk {
  slot_id : string;
  patient_id : string;
  held_at : Dt.datetime;
  expires_at : Dt.datetime;
  status : string
}.
End SlotHold.

Module CalendarDay.
Record t := mk {
  date : Dt.date;
  available_slots : Z;
  has_availability : bool
}.
End CalendarDay.

(** ** [availability_service.py] *)

Module AvailabilityService.

(** The service also owns a [CacheService] of its own, which none of
    its methods uses. *)
Record t := mk {
  slots : odict TimeSlot.t;
  holds : gmap string SlotHold.t
}.

Definition set_slots (f : odict TimeSlot.t → odict TimeSlot.t) (a : t) : t :=
  mk (f (slots a)) (holds a).
Definition set_holds (f : gmap string SlotHold.t → gmap string SlotHold.t)
    (a : t) : t :=
  mk (slots a) (f (holds a)).

(** [search.f and v != search.f] for an optional string filter *)
Definition differs (filter : option string) (v : string) : bool :=
  match filter with
  | Some f => negb (bool_decide (f = "")) && negb (bool_decide (v = f))
  | None => false
  end.

(** The tests of the loop body of [search_slots]: [true] when one of
    them reaches [continue]. *)
Definition skipped (search : AvailabilitySearch.t) (slot : TimeSlot.t) : bool :=
  if negb (TimeSlot.available slot) then true
  else if TimeSlot.date slot <? AvailabilitySearch.start_date search then true
  else if AvailabilitySearch.end_date search <? TimeSlot.date slot then true
  else if differs (AvailabilitySearch.provider_id search)
                  (TimeSlot.provider_id slot) then true
  else if differs (AvailabilitySearch.location_id search)
                  (TimeSlot.location_id slot) then true
  else if match AvailabilitySearch.appointment_type search with
          | Some ty => negb (bool_decide (ty = ""))
                       && negb (bool_decide (ty ∈ TimeSlot.appointment_types slot))
          | None => false
          end then true
  else
    match AvailabilitySearch.time_of_day search with
    | Some tod =>
        if bool_decide (tod = "") then false
        else
          let hour := Dt.hour (TimeSlot.start_time slot) in
          if bool_decide (tod = "morning") && (12 <=? hour) then true
          else if bool_decide (tod = "afternoon")
                  && ((hour <? 12) || (17 <=? hour)) then true
          else if bool_decide (tod = "evening") && (hour <? 17) then true
          else false
    | None => false
    end.

(** [for slot in self.slots.values(): ... results.append(slot)] *)
Fixpoint search_loop (search : AvailabilitySearch.t)
    (values : list TimeSlot.t) (results : list TimeSlot.t) : list TimeSlot.t :=
  match values with
  | [] => results
  | slot :: rest =>
      if skipped search slot then search_loop search rest results
      else search_loop search rest (results ++ [slot])
  end.

(** [(a.date, a.start_time) < (b.date, b.start_time)]: tuples compare
    at their first differing component. *)
Definition key_lt (a b : TimeSlot.t) : bool :=
  if bool_decide (TimeSlot.date a = TimeSlot.date b) then
    match Dt.time_compare (TimeSlot.start_time a) (TimeSlot.start_time b) with
    | Lt => true
    | _ => false
    end
  else TimeSlot.date a <? TimeSlot.date b.

Definition search_slots (search : AvailabilitySearch.t) : M t (list TimeSlot.t) :=
  let* results := gets (λ a : t, search_loop search (dict_values (slots a)) []) in
  let results := stable_sort key_lt results in
  ret (slice_to results (AvailabilitySearch.limit search)).

Definition get_slot (slot_id : string) : M t (option TimeSlot.t) :=
  gets (λ a : t, dict_get slot_id (slots a)).

(** The test shared by the three loops over the catalogue. *)
Definition at_key (provider_id : string) (date : Dt.date) (time : Dt.time)
    (slot : TimeSlot.t) : bool :=
  bool_decide (TimeSlot.provider_id slot = provider_id)
  && bool_decide (TimeSlot.date slot = date)
  && bool_decide (TimeSlot.start_time slot = time).

Fixpoint first_available (provider_id : string) (date : Dt.date)
    (time : Dt.time) (d : odict TimeSlot.t) : bool :=
  match d with
  | [] => false
  | (k, slot) :: d' =>
      if at_key provider_id date time slot then TimeSlot.available slot
      else first_available provider_id date time d'
  end.

Definition is_slot_available (provider_id : string) (date : Dt.date)
    (time : Dt.time) : M t bool :=
  gets (λ a : t, first_available provider_id date time (slots a)).

(** [slot.available = b; break] at the first slot of the key *)
Fixpoint mark_first (b : bool) (provider_id : string) (date : Dt.date)
    (time : Dt.time) (d : odict TimeSlot.t) : odict TimeSlot.t :=
  match d with
  | [] => []
  | (k, slot) :: d' =>
      if at_key provider_id date time slot
      then (k, TimeSlot.set_available b slot) :: d'
      else (k, slot) :: mark_first b provider_id date time d'
  end.

Definition mark_slot_booked (provider_id : string) (date : Dt.date)
    (time : Dt.time) : M t unit :=
  modify (set_slots (mark_first false provider_id date time)).

Definition mark_slot_available (provider_id : string) (date : Dt.date)
    (time : Dt.time) : M t unit :=
  modify (set_slots (mark_first true provider_id date time)).

Definition hold_slot (slot_id patient_id : string) (duration_minutes : Z)
    (hold_id : string) (now : Dt.datetime) : M t SlotHold.t :=
  let* slot := gets (λ a : t, dict_get slot_id (slots a)) in
  match slot with
  | Some slot =>
      if negb (TimeSlot.available slot)
      then raise (ValueError "Slot not available")
      else
        let* expires := call (Dt.add_minutes now duration_minutes) in
        let hold := SlotHold.mk slot_id patient_id now expires "active" in
        modify (set_holds (insert hold_id hold)) >>
        modify (set_slots (dict_update
                  (TimeSlot.set_held (Some patient_id) (Some expires))
                  slot_id)) >>
        ret hold
  | None => raise (ValueError "Slot not available")
  end.

Definition release_hold (slot_id patient_id : string) : M t unit :=
  let* slot := gets (λ a : t, dict_get slot_id (slots a)) in
  match slot with
  | Some slot =>
      if bool_decide (TimeSlot.held_by slot = Some patient_id)
      then modify (set_slots (dict_update (TimeSlot.set_held None None) slot_id))
      else ret tt
  | None => ret tt
  end.

(** [date.today()] is the argument [today]. *)
Definition get_next_available (provider_id specialty location_id
    appointment_type : option string) (today : Dt.date)
    : M t (option TimeSlot.t) :=
  let* end_date := call (Dt.date_add_days today 30) in
  let search :=
    AvailabilitySearch.mk None location_id provider_id today end_date None
      appointment_type 1 in
  let* results := search_slots search in
  ret (head results).

(** The comprehension of [get_calendar]: the slots of the provider on the
    day that are available. *)
Definition day_slots (provider_id : string) (day_date : Dt.date)
    (values : list TimeSlot.t) : list TimeSlot.t :=
  List.filter
    (λ s, bool_decide (TimeSlot.provider_id s = provider_id)
          && bool_decide (TimeSlot.date s = day_date)
          && TimeSlot.available s)
    values.

(** [for day in range(1, num_days + 1): ... calendar_days.append(...)] *)
Fixpoint calendar_loop (provider_id : string) (year month : Z)
    (days : list Z) (calendar_days : list CalendarDay.t)
    : M t (list CalendarDay.t) :=
  match days with
  | [] => ret calendar_days
  | day :: rest =>
      let* day_date := call (Dt.mk_date year month day) in
      let* day_slots :=
        gets (λ a : t, day_slots provider_id day_date (dict_values (slots a))) in
      let n := Z.of_nat (length day_slots) in
      calendar_loop provider_id year month rest
        (calendar_days ++ [CalendarDay.mk day_date n (0 <? n)])
  end.

Definition get_calendar (provider_id : string) (month year : Z)
    : M t (list CalendarDay.t) :=
  let* num_days := call (Dt.monthrange_days year month) in
  calendar_loop provider_id year month (seqZ 1 num_days) [].

(** *** The constructor and [_generate_sample_slots]

    The identifiers come from [uuid.uuid4()]: [slot_ids n] is the
    identifier made from the n-th UUID that is drawn, and the state of
    the loop carries the number of UUIDs drawn so far.  [today] is the
    value of [date.today()], read at every iteration and taken to be the
    same throughout. *)

Definition sample_providers : list (string * string * string * string) :=
  [("prov-001", "Dr. Sarah Johnson", "loc-001", "Downtown Clinic");
   ("prov-002", "Dr. Michael Chen", "loc-002", "Eastside Medical")].

Definition sample_hours : list Z := [9; 10; 11; 14; 15; 16].

(** [f"slot-{uuid.uuid4().hex[:8]}"] *)
Definition uuid_slot_id (slot_ids : nat → string) : M (t * nat) string :=
  λ s, (Ok (slot_ids s.2), (s.1, S s.2)).

Definition sample_slot (provider : string * string * string * string)
    (slot_date : Dt.date) (hour : Z) (slot_id : string) : TimeSlot.t :=
  let '(provider_id, provider_name, location_id, location_name) := provider in
  TimeSlot.mk slot_id provider_id provider_name location_id location_name
    slot_date (Dt.mk_time hour 0 0 0) (Dt.mk_time hour 30 0 0) 30
    ["new_patient"; "follow_up"] true None None.

Definition generate_sample_slots (today : Dt.date) (slot_ids : nat → string)
    : M (t * nat) unit :=
  for_each sample_providers (λ provider,
    for_each (seqZ 0 14) (λ day_offset,
      let* slot_date := call (Dt.date_add_days today day_offset) in
      if Dt.weekday slot_date <? 5 then  (* Weekdays only *)
        for_each sample_hours (λ hour,
          let* slot_id := uuid_slot_id slot_ids in
          modify (λ s : t * nat,
            (set_slots
               (dict_set slot_id (sample_slot provider slot_date hour slot_id))
               s.1, s.2)))
      else ret tt)).

(** [AvailabilityService()]: the two dictionaries start empty and the
    sample slots are generated; an exception leaves no service. *)
Definition init (today : Dt.date) (slot_ids : nat → string) : result t :=
  match generate_sample_slots today slot_ids (mk [] ∅, 0%nat) with
  | (Ok _, s) => Ok s.1
  | (Raise e, _) => Raise e
  end.

End AvailabilityService.

(** ** [models/appointment.py] *)

Inductive AppointmentStatus :=
  | SCHEDULED | CONFIRMED | CHECKED_IN | IN_PROGRESS | COMPLETED
  | CANCELLED | NO_SHOW.

Inductive AppointmentType :=
  | NEW_PATIENT | FOLLOW_UP | CONSULTATION | URGENT | TELEHEALTH
  | ANNUAL_CHECKUP.

#[global] Instance AppointmentStatus_eq_dec : EqDecision AppointmentStatus.
Proof. solve_decision. Defined.

Module AppointmentCreate.
Record t := mk {
  patient_id : string;
  provider_id : string;
  location_id : string;
  scheduled_date : Dt.date;
  scheduled_time : Dt.time;
  appointment_type : AppointmentType;
  duration_minutes : Z;
  reason : option string;
  notes : option string;
  telehealth : bool
}.
End AppointmentCreate.

Module AppointmentUpdate.
Record t := mk {
  scheduled_date : option Dt.date;
  scheduled_time : option Dt.time;
  reason : option string;
  notes : option string
}.
End AppointmentUpdate.

Module Appointment.
Record t := mk {
  id : string;
  patient_id : string;
  provider_id : string;
  location_id : string;
  scheduled_time : Dt.datetime;
  end_time : Dt.datetime;
  appointment_type : AppointmentType;
  status : AppointmentStatus;
  reason : option string;
  notes : option string;
  telehealth : bool;
  telehealth_link : option string;
  checked_in_at : option Dt.datetime;
  completed_at : option Dt.datetime;
  cancelled_at : option Dt.datetime;
  cancellation_reason : option string;
  created_at : Dt.datetime;
  updated_at : Dt.datetime
}.

Definition set_scheduled_time (v : Dt.datetime) (a : t) : t :=
  mk (id a) (patient_id a) (provider_id a) (location_id a) v (end_time a)
     (appointment_type a) (status a) (reason a) (notes a) (telehealth a)
     (telehealth_link a) (checked_in_at a) (completed_at a) (cancelled_at a)
     (cancellation_reason a) (created_at a) (updated_at a).
Definition set_status (v : AppointmentStatus) (a : t) : t :=
  mk (id a) (patient_id a) (provider_id a) (location_id a)
     (scheduled_time a) (end_time a) (appointment_type a) v (reason a)
     (notes a) (telehealth a) (telehealth_link a) (checked_in_at a)
     (completed_at a) (cancelled_at a) (cancellation_reason a)
     (created_at a) (updated_at a).
Definition set_reason (v : option string) (a : t) : t :=
  mk (id a) (patient_id a) (provider_id a) (location_id a)
     (scheduled_time a) (end_time a) (appointment_type a) (status a) v
     (notes a) (telehealth a) (telehealth_link a) (checked_in_at a)
     (completed_at a) (cancelled_at a) (cancellation_reason a)
     (created_at a) (updated_at a).
Definition set_notes (v : option string) (a : t) : t :=
  mk (id a) (patient_id a) (provider_id a) (location_id a)
     (scheduled_time a) (end_time a) (appointment_type a) (status a)
     (reason a) v (telehealth a) (telehealth_link a) (checked_in_at a)
     (completed_at a) (cancelled_at a) (cancellation_reason a)
     (created_at a) (updated_at a).
Definition set_checked_in_at (v : option Dt.datetime) (a : t) : t :=
  mk (id a) (patient_id a) (provider_id a) (location_id a)
     (scheduled_time a) (end_time a) (appointment_type a) (status a)
     (reason a) (notes a) (telehealth a) (telehealth_link a) v
     (completed_at a) (cancelled_at a) (cancellation_reason a)
     (created_at a) (updated_at a).
Definition set_completed_at (v : option Dt.datetime) (a : t) : t :=
  mk (id a) (patient_id a) (provider_id a) (location_id a)
     (scheduled_time a) (end_time a) (appointment_type a) (status a)
     (reason a) (notes a) (telehealth a) (telehealth_link a)
     (checked_in_at a) v (cancelled_at a) (cancellation_reason a)
     (created_at a) (updated_at a).
Definition set_cancelled_at (v : option Dt.datetime) (a : t) : t :=
  mk (id a) (patient_id a) (provider_id a) (location_id a)
     (scheduled_time a) (end_time a) (appointment_type a) (status a)
     (reason a) (notes a) (telehealth a) (telehealth_link a)
     (checked_in_at a) (completed_at a) v (cancellation_reason a)
     (created_at a) (updated_at a).
Definition set_cancellation_reason (v : option string) (a : t) : t :=
  mk (id a) (patient_id a) (provider_id a) (location_id a)
     (scheduled_time a) (end_time a) (appointment_type a) (status a)
     (reason a) (notes a) (telehealth a) (telehealth_link a)
     (checked_in_at a) (completed_at a) (cancelled_at a) v
     (created_at a) (updated_at a).
Definition set_updated_at (v : Dt.datetime) (a : t) : t :=
  mk (id a) (patient_id a) (provider_id a) (location_id a)
     (scheduled_time a) (end_time a) (appointment_type a) (status a)
     (reason a) (notes a) (telehealth a) (telehealth_link a)
     (checked_in_at a) (completed_at a) (cancelled_at a)
     (cancellation_reason a) (created_at a) v.
End Appointment.

(** ** [appointment_service.py] *)

Module AppointmentService.

Record t := mk {
  availability_service : AvailabilityService.t;
  cache : CacheService.t;
  appointments : gmap string Appointment.t
}.

Definition set_availability_service (v : AvailabilityService.t) (s : t) : t :=
  mk v (cache s) (appointments s).
Definition set_cache (v : CacheService.t) (s : t) : t :=
  mk (availability_service s) v (appointments s).
Definition set_appointments
    (f : gmap string Appointment.t → gmap string Appointment.t) (s : t) : t :=
  mk (availability_service s) (cache s) (f (appointments s)).

(** [self.availability_service.m(...)] and [self.cache.m(...)] *)
Definition availability {A} (m : M AvailabilityService.t A) : M t A :=
  on_field availability_service set_availability_service m.
Definition the_cache {A} (m : M CacheService.t A) : M t A :=
  on_field cache set_cache m.

(** An attribute assignment on the appointment object stored under
    [appointment_id]; the result is the object after the assignment. *)
Definition assign (appointment_id : string) (f : Appointment.t → Appointment.t)
    (appointment : Appointment.t) : M t Appointment.t :=
  modify (set_appointments (insert appointment_id (f appointment))) >>
  ret (f appointment).

(** [f"lock:slot:{provider_id}:{scheduled_date}:{scheduled_time}"] *)
Definition lock_key (request : AppointmentCreate.t) : string :=
  "lock:slot:" +:+ AppointmentCreate.provider_id request
  +:+ ":" +:+ Dt.str_date (AppointmentCreate.scheduled_date request)
  +:+ ":" +:+ Dt.str_time (AppointmentCreate.scheduled_time request).

Definition create_appointment (request : AppointmentCreate.t)
    (appointment_id : string) (now : Dt.datetime) : M t Appointment.t :=
  let lock_key := lock_key request in
  (* Acquire lock *)
  let* lock_acquired := the_cache (CacheService.acquire_lock lock_key 30 now) in
  if negb lock_acquired
  then raise (ValueError "Slot is currently being booked by another user")
  else
    try_finally
      ((* Verify availability *)
       let* is_available :=
         availability (AvailabilityService.is_slot_available
           (AppointmentCreate.provider_id request)
           (AppointmentCreate.scheduled_date request)
           (AppointmentCreate.scheduled_time request)) in
       if negb is_available
       then raise (ValueError "Selected slot is no longer available")
       else
         (* Create appointment *)
         let scheduled_datetime :=
           Dt.combine (AppointmentCreate.scheduled_date request)
                      (AppointmentCreate.scheduled_time request) in
         let* end_time :=
           call (Dt.add_minutes scheduled_datetime
                   (AppointmentCreate.duration_minutes request)) in
         let appointment :=
           Appointment.mk appointment_id
             (AppointmentCreate.patient_id request)
             (AppointmentCreate.provider_id request)
             (AppointmentCreate.location_id request)
             scheduled_datetime end_time
             (AppointmentCreate.appointment_type request)
             SCHEDULED
             (AppointmentCreate.reason request)
             (AppointmentCreate.notes request)
             (AppointmentCreate.telehealth request)
             None None None None None now now in
         (* Save appointment *)
         modify (set_appointments (insert appointment_id appointment)) >>
         (* Update availability cache *)
         availability (AvailabilityService.mark_slot_booked
           (AppointmentCreate.provider_id request)
           (AppointmentCreate.scheduled_date request)
           (AppointmentCreate.scheduled_time request)) >>
         ret appointment)
      ((* Release lock *)
       the_cache (CacheService.release_lock lock_key)).

Definition get_appointment (appointment_id : string)
    : M t (option Appointment.t) :=
  gets (λ s : t, appointments s !! appointment_id).

Definition update_appointment (appointment_id : string)
    (update : AppointmentUpdate.t) (now : Dt.datetime) : M t Appointment.t :=
  let* found := gets (λ s : t, appointments s !! appointment_id) in
  match found with
  | None => raise (ValueError "Appointment not found")
  | Some appointment =>
      if bool_decide (Appointment.status appointment = CANCELLED)
      then raise (ValueError "Cannot update cancelled appointment")
      else
        let* appointment :=
          if bool_decide (is_Some (AppointmentUpdate.scheduled_date update))
             || bool_decide (is_Some (AppointmentUpdate.scheduled_time update))
          then
            (* Rescheduling - need to check availability *)
            let new_date :=
              default (Dt.date_of (Appointment.scheduled_time appointment))
                      (AppointmentUpdate.scheduled_date update) in
            let new_time :=
              default (Dt.time_of (Appointment.scheduled_time appointment))
                      (AppointmentUpdate.scheduled_time update) in
            let* is_available :=
              availability (AvailabilityService.is_slot_available
                (Appointment.provider_id appointment) new_date new_time) in
            if negb is_available
            then raise (ValueError "New slot is not available")
            else
              (* Release old slot *)
              availability (AvailabilityService.mark_slot_available
                (Appointment.provider_id appointment)
                (Dt.date_of (Appointment.scheduled_time appointment))
                (Dt.time_of (Appointment.scheduled_time appointment))) >>
              (* Update time *)
              let* appointment :=
                assign appointment_id
                  (Appointment.set_scheduled_time (Dt.combine new_date new_time))
                  appointment in
              (* Book new slot *)
              availability (AvailabilityService.mark_slot_booked
                (Appointment.provider_id appointment) new_date new_time) >>
              ret appointment
          else ret appointment in
        let* appointment :=
          if truthy (AppointmentUpdate.reason update)
          then assign appointment_id
                 (Appointment.set_reason (AppointmentUpdate.reason update))
                 appointment
          else ret appointment in
        let* appointment :=
          if truthy (AppointmentUpdate.notes update)
          then assign appointment_id
                 (Appointment.set_notes (AppointmentUpdate.notes update))
                 appointment
          else ret appointment in
        assign appointment_id (Appointment.set_updated_at now) appointment
  end.

Definition cancel_appointment (appointment_id : string)
    (reason : option string) (now : Dt.datetime) : M t unit :=
  let* found := gets (λ s : t, appointments s !! appointment_id) in
  match found with
  | None => raise (ValueError "Appointment not found")
  | Some appointment =>
      if bool_decide (Appointment.status appointment = CANCELLED)
      then raise (ValueError "Appointment already cancelled")
      else
        let* appointment :=
          assign appointment_id (Appointment.set_status CANCELLED) appointment in
        let* appointment :=
          assign appointment_id (Appointment.set_cancellation_reason reason)
            appointment in
        let* appointment :=
          assign appointment_id (Appointment.set_cancelled_at (Some now))
            appointment in
        let* appointment :=
          assign appointment_id (Appointment.set_updated_at now) appointment in
        (* Release slot *)
        availability (AvailabilityService.mark_slot_available
          (Appointment.provider_id appointment)
          (Dt.date_of (Appointment.scheduled_time appointment))
          (Dt.time_of (Appointment.scheduled_time appointment)))
  end.

Definition check_in (appointment_id : string) (now : Dt.datetime) : M t unit :=
  let* found := gets (λ s : t, appointments s !! appointment_id) in
  match found with
  | None => raise (ValueError "Appointment not found")
  | Some appointment =>
      let* appointment :=
        assign appointment_id (Appointment.set_status CHECKED_IN) appointment in
      let* appointment :=
        assign appointment_id (Appointment.set_checked_in_at (Some now))
          appointment in
      assign appointment_id (Appointment.set_updated_at now) appointment >>
      ret tt
  end.

Definition complete (appointment_id : string) (notes : option string)
    (now : Dt.datetime) : M t unit :=
  let* found := gets (λ s : t, appointments s !! appointment_id) in
  match found with
  | None => raise (ValueError "Appointment not found")
  | Some appointment =>
      let* appointment :=
        assign appointment_id (Appointment.set_status COMPLETED) appointment in
      let* appointment :=
        assign appointment_id (Appointment.set_completed_at (Some now))
          appointment in
      let* appointment :=
        if truthy notes
        then assign appointment_id (Appointment.set_notes notes) appointment
        else ret appointment in
      assign appointment_id (Appointment.set_updated_at now) appointment >>
      ret tt
  end.

End AppointmentService.

(** ** [provider_service.py]: the availability of a provider *)

Module ProviderService.

(** The dictionary that [get_availability] returns. *)
Record Availability := mk_availability {
  provider_id : string;
  start_date : string;
  end_date : string;
  availability : odict (list TimeSlot.t)
}.

(** The service also holds the tables of providers and locations, which
    [get_availability] does not read. *)
Record t := mk {
  availability_service : AvailabilityService.t
}.

(** [# Group by date]: the loop over the slots found. *)
Fixpoint group_loop (slots : list TimeSlot.t)
    (by_date : odict (list TimeSlot.t)) : odict (list TimeSlot.t) :=
  match slots with
  | [] => by_date
  | slot :: rest =>
      let date_str := Dt.str_date (TimeSlot.date slot) in
      let by_date :=
        if bool_decide (is_Some (dict_get date_str by_date)) then by_date
        else dict_set date_str [] by_date in
      group_loop rest (dict_update (λ l, l ++ [slot]) date_str by_date)
  end.

Definition get_availability (provider_id : string)
    (start_date end_date : Dt.date) (appointment_type : option string)
    : M t Availability :=
  let search :=
    AvailabilitySearch.mk None None (Some provider_id) start_date end_date
      None appointment_type 100 in
  let* slots :=
    on_field availability_service (λ a _, mk a)
      (AvailabilityService.search_slots search) in
  let by_date := group_loop slots [] in
  ret (mk_availability provider_id (Dt.str_date start_date)
         (Dt.str_date end_date) by_date).

End ProviderService.

(** ** [models/waitlist.py] *)

Module WaitlistRequest.
Record t := mk {
  patient_id : string;
  provider_id : string;
  location_id : option string;
  preferred_dates : list Dt.date;
  preferred_time_of_day : option string;
  appointment_type : string;
  urgency : string;
  notes : option string
}.
End WaitlistRequest.

Module WaitlistEntry.
Record t := mk {
  id : string;
  patient_id : string;
  provider_id : string;
  location_id : option string;
  preferred_dates : list Dt.date;
  preferred_time_of_day : option string;
  appointment_type : string;
  urgency : string;
  status : string;
  position : Z;
  created_at : Dt.datetime;
  notified_at : option Dt.datetime;
  booked_appointment_id : option string
}.

Definition set_status (v : string) (e : t) : t :=
  mk (id e) (patient_id e) (provider_id e) (location_id e)
     (preferred_dates e) (preferred_time_of_day e) (appointment_type e)
     (urgency e) v (position e) (created_at e) (notified_at e)
     (booked_appointment_id e).
Definition set_notified_at (v : option Dt.datetime) (e : t) : t :=
  mk (id e) (patient_id e) (provider_id e) (location_id e)
     (preferred_dates e) (preferred_time_of_day e) (appointment_type e)
     (urgency e) (status e) (position e) (created_at e) v
     (booked_appointment_id e).
End WaitlistEntry.

(** ** [waitlist_service.py] *)

Module WaitlistService.

Record t := mk {
  entries : gmap string WaitlistEntry.t
}.

Definition set_entries
    (f : gmap string WaitlistEntry.t → gmap string WaitlistEntry.t) (w : t) : t :=
  mk (f (entries w)).

(** [e.provider_id == provider_id and e.status == "waiting"] *)
Definition waiting_for (provider_id : string) (e : WaitlistEntry.t) : bool :=
  bool_decide (WaitlistEntry.provider_id e = provider_id)
  && bool_decide (WaitlistEntry.status e = "waiting").

(** The entries of [self.entries.values()] kept by the comprehension of
    [add_to_waitlist]. *)
Definition existing (provider_id : string) (w : t) : list WaitlistEntry.t :=
  filter (λ e, waiting_for provider_id e = true) (map_to_list (entries w)).*2.

Definition add_to_waitlist (request : WaitlistRequest.t) (entry_id : string)
    (now : Dt.datetime) : M t WaitlistEntry.t :=
  (* Calculate position *)
  let* existing := gets (existing (WaitlistRequest.provider_id request)) in
  let position := Z.of_nat (length existing) + 1 in
  let entry :=
    WaitlistEntry.mk entry_id
      (WaitlistRequest.patient_id request)
      (WaitlistRequest.provider_id request)
      (WaitlistRequest.location_id request)
      (WaitlistRequest.preferred_dates request)
      (WaitlistRequest.preferred_time_of_day request)
      (WaitlistRequest.appointment_type request)
      (WaitlistRequest.urgency request)
      "waiting" position now None None in
  modify (set_entries (insert entry_id entry)) >>
  ret entry.

Definition get_entry (entry_id : string) : M t (option WaitlistEntry.t) :=
  gets (λ w : t, entries w !! entry_id).

Definition remove_from_waitlist (entry_id : string) : M t unit :=
  let* found := gets (λ w : t, entries w !! entry_id) in
  match found with
  | None => raise (ValueError "Waitlist entry not found")
  | Some entry =>
      modify (set_entries
                (insert entry_id (WaitlistEntry.set_status "removed" entry)))
  end.

(** The dictionary returned by [notify_patient], as the triple of its
    values; [notified_at] is the timestamp and the method returns its
    [isoformat()]. *)
Definition notify_patient (entry_id : string) (now : Dt.datetime)
    : M t (string * string * string) :=
  let* found := gets (λ w : t, entries w !! entry_id) in
  match found with
  | None => raise (ValueError "Waitlist entry not found")
  | Some entry =>
      let entry := WaitlistEntry.set_status "notified" entry in
      let entry := WaitlistEntry.set_notified_at (Some now) entry in
      modify (set_entries (insert entry_id entry)) >>
      ret (entry_id, "notified",
           Dt.str_date (Dt.date_of now) +:+ "T" +:+ Dt.str_time (Dt.time_of now))
  end.

End WaitlistService.

(** ** The error kinds of the specification

    The services raise [ValueError] with a message; the request boundary
    reports the message.  The specification names the failures by kind. *)

Inductive ErrorKind :=
  | SlotContended | SlotUnavailable | NotFound | InvalidState.

Definition error_kind (e : exn) : option ErrorKind :=
  match e with
  | ValueError msg =>
      if bool_decide (msg = "Slot is currently being booked by another user")
      then Some SlotContended
      else if bool_decide (msg = "Selected slot is no longer available")
              || bool_decide (msg = "New slot is not available")
              || bool_decide (msg = "Slot not available")
      then Some SlotUnavailable
      else if bool_decide (msg = "Appointment not found")
              || bool_decide (msg = "Waitlist entry not found")
      then Some NotFound
      else if bool_decide (msg = "Cannot update cancelled appointment")
              || bool_decide (msg = "Appointment already cancelled")
      then Some InvalidState
      else None
  | OverflowError => None
  end.

(** The call ended with a failure of kind [k]. *)
Definition fails_with {A} (r : result A) (k : ErrorKind) : Prop :=
  match r with
  | Raise e => error_kind e = Some k
  | Ok _ => False
  end.

(** ** Notions of the specification *)

(** *** Locks and failures *)

(** [acquire] may take [key] at [now]: no record exists for the key, or
    the [expires_at] of the record has passed. *)
Definition reclaimable (c : CacheService.t) (key : string) (now : Dt.datetime)
    : bool :=
  match CacheService.locks c !! key with
  | None => true
  | Some lock => negb (Dt.gt (CacheService.expires_at lock) now)
  end.

(** The library call returns. *)
Definition returns {A} (r : result A) : Prop :=
  match r with Ok _ => True | Raise _ => False end.

Definition contended : exn :=
  ValueError "Slot is currently being booked by another user".
Definition no_longer_available : exn :=
  ValueError "Selected slot is no longer available".

Definition not_found : exn := ValueError "Appointment not found".
Definition new_slot_not_available : exn := ValueError "New slot is not available".

(** *** Booking, cancelling, checking in *)

(** The appointment record that [create_appointment] builds. *)
Definition new_appointment (request : AppointmentCreate.t)
    (appointment_id : string) (end_time now : Dt.datetime) : Appointment.t :=
  Appointment.mk appointment_id
    (AppointmentCreate.patient_id request)
    (AppointmentCreate.provider_id request)
    (AppointmentCreate.location_id request)
    (Dt.combine (AppointmentCreate.scheduled_date request)
                (AppointmentCreate.scheduled_time request))
    end_time
    (AppointmentCreate.appointment_type request)
    SCHEDULED
    (AppointmentCreate.reason request)
    (AppointmentCreate.notes request)
    (AppointmentCreate.telehealth request)
    None None None None None now now.

(** The appointment after the assignments of [cancel_appointment]. *)
Definition cancelled (reason : option string) (now : Dt.datetime)
    (a : Appointment.t) : Appointment.t :=
  Appointment.set_updated_at now
    (Appointment.set_cancelled_at (Some now)
       (Appointment.set_cancellation_reason reason
          (Appointment.set_status CANCELLED a))).

(** The appointment after the assignments of [check_in] and of
    [complete]. *)
Definition checked_in (now : Dt.datetime) (a : Appointment.t) : Appointment.t :=
  Appointment.set_updated_at now
    (Appointment.set_checked_in_at (Some now)
       (Appointment.set_status CHECKED_IN a)).

Definition completed (notes : option string) (now : Dt.datetime)
    (a : Appointment.t) : Appointment.t :=
  let a := Appointment.set_completed_at (Some now)
             (Appointment.set_status COMPLETED a) in
  let a := if truthy notes then Appointment.set_notes notes a else a in
  Appointment.set_updated_at now a.

(** The clock reading [now] leaves room for the 30 seconds of the slot
    lock, and the interval of the request ends within the calendar. *)
Definition lock_expiry_exists (now : Dt.datetime) : Prop :=
  returns (Dt.add_seconds now 30).
Definition interval_exists (request : AppointmentCreate.t) : Prop :=
  returns (Dt.add_minutes
             (Dt.combine (AppointmentCreate.scheduled_date request)
                         (AppointmentCreate.scheduled_time request))
             (AppointmentCreate.duration_minutes request)).

(** Two requests for the same natural key (provider, date, time). *)
Definition same_slot (r1 r2 : AppointmentCreate.t) : Prop :=
  AppointmentCreate.provider_id r2 = AppointmentCreate.provider_id r1
  ∧ AppointmentCreate.scheduled_date r2 = AppointmentCreate.scheduled_date r1
  ∧ AppointmentCreate.scheduled_time r2 = AppointmentCreate.scheduled_time r1.

(** *** Rescheduling *)

(** The request carries a new date or a new time. *)
Definition reschedules (update : AppointmentUpdate.t) : bool :=
  bool_decide (is_Some (AppointmentUpdate.scheduled_date update))
  || bool_decide (is_Some (AppointmentUpdate.scheduled_time update)).

(** The destination of a reschedule: the fields of the request, each
    defaulting to that of the appointment. *)
Definition new_date (update : AppointmentUpdate.t) (a : Appointment.t) : Dt.date :=
  default (Dt.date_of (Appointment.scheduled_time a))
          (AppointmentUpdate.scheduled_date update).
Definition new_time (update : AppointmentUpdate.t) (a : Appointment.t) : Dt.time :=
  default (Dt.time_of (Appointment.scheduled_time a))
          (AppointmentUpdate.scheduled_time update).

(** The assignments of [update_appointment] that follow the reschedule. *)
Definition edited (update : AppointmentUpdate.t) (now : Dt.datetime)
    (a : Appointment.t) : Appointment.t :=
  let a := if truthy (AppointmentUpdate.reason update)
           then Appointment.set_reason (AppointmentUpdate.reason update) a
           else a in
  let a := if truthy (AppointmentUpdate.notes update)
           then Appointment.set_notes (AppointmentUpdate.notes update) a
           else a in
  Appointment.set_updated_at now a.

(** [a'] is [a] up to [reason], [notes] and [updated_at]. *)
Definition same_but_reason_notes_updated_at (a a' : Appointment.t) : Prop :=
  Appointment.id a' = Appointment.id a
  ∧ Appointment.patient_id a' = Appointment.patient_id a
  ∧ Appointment.provider_id a' = Appointment.provider_id a
  ∧ Appointment.location_id a' = Appointment.location_id a
  ∧ Appointment.scheduled_time a' = Appointment.scheduled_time a
  ∧ Appointment.end_time a' = Appointment.end_time a
  ∧ Appointment.appointment_type a' = Appointment.appointment_type a
  ∧ Appointment.status a' = Appointment.status a
  ∧ Appointment.telehealth a' = Appointment.telehealth a
  ∧ Appointment.telehealth_link a' = Appointment.telehealth_link a
  ∧ Appointment.checked_in_at a' = Appointment.checked_in_at a
  ∧ Appointment.completed_at a' = Appointment.completed_at a
  ∧ Appointment.cancelled_at a' = Appointment.cancelled_at a
  ∧ Appointment.cancellation_reason a' = Appointment.cancellation_reason a
  ∧ Appointment.created_at a' = Appointment.created_at a.

(** *** Sequential executions of the appointment service

    A fresh [AppointmentService] has a catalogue of slots, no hold, no
    lock and no appointment.  A step is one complete call of a method of
    the service or of its availability service. *)

Definition initial (s : AppointmentService.t) : Prop :=
  AppointmentService.cache s = CacheService.mk ∅
  ∧ AppointmentService.appointments s = ∅
  ∧ AvailabilityService.holds (AppointmentService.availability_service s) = ∅.

Inductive step (s : AppointmentService.t) : AppointmentService.t → Prop :=
  | step_create request appointment_id now :
      step s (AppointmentService.create_appointment request appointment_id now s).2
  | step_update appointment_id update now :
      step s (AppointmentService.update_appointment appointment_id update now s).2
  | step_cancel appointment_id reason now :
      step s (AppointmentService.cancel_appointment appointment_id reason now s).2
  | step_check_in appointment_id now :
      step s (AppointmentService.check_in appointment_id now s).2
  | step_complete appointment_id notes now :
      step s (AppointmentService.complete appointment_id notes now s).2
  | step_hold slot_id patient_id duration_minutes hold_id now :
      step s (AppointmentService.availability
                (AvailabilityService.hold_slot slot_id patient_id
                   duration_minutes hold_id now) s).2
  | step_release_hold slot_id patient_id :
      step s (AppointmentService.availability
                (AvailabilityService.release_hold slot_id patient_id) s).2.

Definition reachable (s : AppointmentService.t) : Prop :=
  ∃ s0, initial s0 ∧ rtc step s0 s.

(** *** Holds *)

(** The records of [holds] for a slot whose status is ["active"]. *)
Definition active_holds (slot_id : string) (a : AvailabilityService.t)
    : list (string * SlotHold.t) :=
  filter (λ kv, SlotHold.slot_id kv.2 = slot_id ∧ SlotHold.status kv.2 = "active")
         (map_to_list (AvailabilityService.holds a)).

(** *** The search contract

    A slot matches a request when it is available and passes every
    supplied filter.  [supplied] says which optional filters count as
    supplied: [present] keeps a filter that is neither [None] nor the
    empty string, [id] keeps every filter that is not [None]. *)

Definition present (o : option string) : option string :=
  if truthy o then o else None.

(** morning: start hour < 12; afternoon: 12 ≤ hour < 17; evening:
    hour ≥ 17; any other word names no bucket and constrains nothing. *)
Definition in_bucket (time_of_day : string) (hour : Z) : bool :=
  if bool_decide (time_of_day = "morning") then hour <? 12
  else if bool_decide (time_of_day = "afternoon")
  then (12 <=? hour) && (hour <? 17)
  else if bool_decide (time_of_day = "evening") then 17 <=? hour
  else true.

Definition passes (filter : option string) (ok : string → bool) : bool :=
  match filter with
  | Some f => ok f
  | None => true
  end.

Definition matches_with (supplied : option string → option string)
    (search : AvailabilitySearch.t) (slot : TimeSlot.t) : bool :=
  TimeSlot.available slot
  && (AvailabilitySearch.start_date search <=? TimeSlot.date slot)
  && (TimeSlot.date slot <=? AvailabilitySearch.end_date search)
  && passes (supplied (AvailabilitySearch.provider_id search))
       (λ f, bool_decide (TimeSlot.provider_id slot = f))
  && passes (supplied (AvailabilitySearch.location_id search))
       (λ f, bool_decide (TimeSlot.location_id slot = f))
  && passes (supplied (AvailabilitySearch.appointment_type search))
       (λ f, bool_decide (f ∈ TimeSlot.appointment_types slot))
  && passes (supplied (AvailabilitySearch.time_of_day search))
       (λ f, in_bucket f (Dt.hour (TimeSlot.start_time slot))).

Definition matches := matches_with present.
Definition matches_as_stated := matches_with id.

(** The slots that match, sorted ascending by (date, start time), cut to
    the first [limit]. *)
Definition search_contract
    (matches : AvailabilitySearch.t → TimeSlot.t → bool)
    (search : AvailabilitySearch.t) (a : AvailabilityService.t) : list TimeSlot.t :=
  take (Z.to_nat (AvailabilitySearch.limit search))
    (stable_sort AvailabilityService.key_lt
       (List.filter (matches search)
          (dict_values (AvailabilityService.slots a)))).

(** The sort key of a slot, and the order of two slots by key. *)
Definition sort_key (slot : TimeSlot.t) : Dt.date * Dt.time :=
  (TimeSlot.date slot, TimeSlot.start_time slot).

Definition key_le : TimeSlot.t → TimeSlot.t → Prop :=
  not_after AvailabilityService.key_lt.

(** *** Sequential executions of the waitlist service

    A step is one complete call of [add_to_waitlist] (join),
    [remove_from_waitlist] (leave) or [notify_patient] (notify).  The
    identifier that a join draws from [uuid.uuid4()] is one that no
    entry has yet. *)

Inductive waitlist_step (w : WaitlistService.t) : WaitlistService.t → Prop :=
  | step_join request entry_id now :
      WaitlistService.entries w !! entry_id = None →
      waitlist_step w (WaitlistService.add_to_waitlist request entry_id now w).2
  | step_leave entry_id :
      waitlist_step w (WaitlistService.remove_from_waitlist entry_id w).2
  | step_notify entry_id now :
      waitlist_step w (WaitlistService.notify_patient entry_id now w).2.

(** The entry [entry_id] is stored in [w] with position [position]. *)
Definition has_position (w : WaitlistService.t) (entry_id : string)
    (position : Z) : Prop :=
  WaitlistEntry.position <$> WaitlistService.entries w !! entry_id
  = Some position.

(** *** The scenario of the specification

    Two slots of provider [prov-1] on 2025-03-10 (day 739320), at 10:00
    and at 11:00, and the requests of a patient for one of them. *)

Definition slot_at (slot_id : string) (hour : Z) : TimeSlot.t :=
  TimeSlot.mk slot_id "prov-1" "Dr. Sarah Johnson" "loc-001"
    "Downtown Clinic" 739320 (Dt.mk_time hour 0 0 0) (Dt.mk_time hour 30 0 0)
    30 ["new_patient"; "follow_up"] true None None.

Definition fresh_service : AppointmentService.t :=
  AppointmentService.mk
    (AvailabilityService.mk
       [("slot-0001", slot_at "slot-0001" 10);
        ("slot-0002", slot_at "slot-0002" 11)] ∅)
    (CacheService.mk ∅) ∅.

Definition request_at (hour : Z) (patient_id : string) : AppointmentCreate.t :=
  AppointmentCreate.mk patient_id "prov-1" "loc-001" 739320
    (Dt.mk_time hour 0 0 0) FOLLOW_UP 30 None None false.

(** A clock reading on 2025-03-01. *)
Definition clock (h m s : Z) : Dt.datetime :=
  Dt.mk_datetime 739311 (Dt.mk_time h m s 0).

(** [R1] has booked the slot of 10:00 as [apt-1]. *)
Definition booked_service : AppointmentService.t :=
  (AppointmentService.create_appointment (request_at 10 "R1") "apt-1"
     (clock 9 0 0) fresh_service).2.

(** [R2] has then booked the slot of 11:00 as [apt-2]. *)
Definition both_booked_service : AppointmentService.t :=
  (AppointmentService.create_appointment (request_at 11 "R2") "apt-2"
     (clock 9 1 0) booked_service).2.

(** [R1] has then cancelled [apt-1]. *)
Definition cancelled_service : AppointmentService.t :=
  (AppointmentService.cancel_appointment "apt-1" (Some "Patient request")
     (clock 9 5 0) booked_service).2.

(** Holder [H1] holds the slot of 10:00 for ten minutes from 09:00, under
    the hold identifier [hold-1]. *)
Definition hold_by_H1 : result SlotHold.t * AppointmentService.t :=
  AppointmentService.availability
    (AvailabilityService.hold_slot "slot-0001" "H1" 10 "hold-1" (clock 9 0 0))
    fresh_service.

(** [R1] has booked the slot of 10:00 as [apt-1]; holder [H1] then holds
    the slot of 11:00 for ten minutes from 09:01. *)
Definition held_destination_service : AppointmentService.t :=
  (AppointmentService.availability
     (AvailabilityService.hold_slot "slot-0002" "H1" 10 "hold-1" (clock 9 1 0))
     booked_service).2.

(** Searches of the scenario: every slot of March 2025, with a limit or
    a provider filter. *)
Definition search_march (provider_id : option string) (limit : Z)
    : AvailabilitySearch.t :=
  AvailabilitySearch.mk None None provider_id 739311 739341 None None limit.

(** Joins of the scenario. *)
Definition join_request (patient_id provider_id : string) : WaitlistRequest.t :=
  WaitlistRequest.mk patient_id provider_id None [] None "follow_up" "normal"
    None.

Definition empty_waitlist : WaitlistService.t := WaitlistService.mk ∅.

(** [A] then [B] join the waitlist of [prov-1]. *)
Definition waitlist_A : WaitlistService.t :=
  (WaitlistService.add_to_waitlist (join_request "A" "prov-1") "wl-a"
     (clock 9 0 0) empty_waitlist).2.
Definition waitlist_AB : WaitlistService.t :=
  (WaitlistService.add_to_waitlist (join_request "B" "prov-1") "wl-b"
     (clock 9 1 0) waitlist_A).2.

(** *** Further notions: the catalogue *)

(** The catalogue has a slot of the natural key. *)
Definition has_slot (provider_id : string) (date : Dt.date) (time : Dt.time)
    (d : odict TimeSlot.t) : bool :=
  existsb (λ kv, AvailabilityService.at_key provider_id date time kv.2) d.

(** What a slot is apart from its flags: the slot with [available],
    [held_by] and [held_until] as at creation. *)
Definition identity_of (slot : TimeSlot.t) : TimeSlot.t :=
  TimeSlot.set_held None None (TimeSlot.set_available true slot).

Definition catalogue_identity (d : odict TimeSlot.t) : odict TimeSlot.t :=
  (λ kv, (kv.1, identity_of kv.2)) <$> d.

(** The natural key of a request, and of an appointment. *)
Definition request_key (request : AppointmentCreate.t)
    : string * Dt.date * Dt.time :=
  (AppointmentCreate.provider_id request,
   AppointmentCreate.scheduled_date request,
   AppointmentCreate.scheduled_time request).

Definition appointment_key (a : Appointment.t) : string * Dt.date * Dt.time :=
  (Appointment.provider_id a,
   Dt.date_of (Appointment.scheduled_time a),
   Dt.time_of (Appointment.scheduled_time a)).

(** [is_slot_available] of a key, on the catalogue of a service. *)
Definition available_at (key : string * Dt.date * Dt.time)
    (s : AppointmentService.t) : bool :=
  AvailabilityService.first_available key.1.1 key.1.2 key.2
    (AvailabilityService.slots (AppointmentService.availability_service s)).

Definition already_cancelled : exn := ValueError "Appointment already cancelled".

(** The reservation [apt-1] of [R1] for the slot of 10:00, as booked at
    09:00, and the request to move a reservation to 11:00. *)
Definition apt_1 : Appointment.t :=
  new_appointment (request_at 10 "R1") "apt-1" (Dt.mk_datetime 739320 (Dt.mk_time 10 30 0 0))
    (clock 9 0 0).

Definition to_11h : AppointmentUpdate.t :=
  AppointmentUpdate.mk None (Some (Dt.mk_time 11 0 0 0)) None None.

(** *** Further notions: searching *)

(** The natural key of a slot. *)
Definition slot_key (slot : TimeSlot.t) : string * Dt.date * Dt.time :=
  (TimeSlot.provider_id slot, TimeSlot.date slot, TimeSlot.start_time slot).

(** The search that [get_next_available] builds. *)
Definition next_search (provider_id location_id appointment_type : option string)
    (today end_date : Dt.date) : AvailabilitySearch.t :=
  AvailabilitySearch.mk None location_id provider_id today end_date None
    appointment_type 1.

(** The search for every slot of a provider on one day. *)
Definition day_search (provider_id : string) (day : Dt.date) (limit : Z)
    : AvailabilitySearch.t :=
  AvailabilitySearch.mk None None (Some provider_id) day day None None limit.

(** The entry of [get_calendar] for a day of the month. *)
Definition calendar_day (provider_id : string) (year month : Z)
    (values : list TimeSlot.t) (day : Z) : CalendarDay.t :=
  let day_date := Dt.ymd2ord year month day in
  let n := Z.of_nat (length (AvailabilityService.day_slots provider_id day_date
                               values)) in
  CalendarDay.mk day_date n (0 <? n).

(** *** Further notions: the waitlist *)

(** The number of entries that are waiting for a provider: what
    [add_to_waitlist] counts. *)
Definition waiting_count (provider_id : string) (w : WaitlistService.t) : Z :=
  Z.of_nat (length (WaitlistService.existing provider_id w)).

(** Joins for providers other than [provider_id], each with an
    identifier that no entry has yet. *)
Inductive join_for_another (provider_id : string) (w : WaitlistService.t)
    : WaitlistService.t → Prop :=
  | join_another request entry_id now :
      WaitlistRequest.provider_id request ≠ provider_id →
      WaitlistService.entries w !! entry_id = None →
      join_for_another provider_id w
        (WaitlistService.add_to_waitlist request entry_id now w).2.

Definition entry_not_found : exn := ValueError "Waitlist entry not found".

(** *** Further notions: the availability of a provider *)

(** The slots of a list whose date prints as [date_str]. *)
Definition slots_of_day (date_str : string) (slots : list TimeSlot.t)
    : list TimeSlot.t :=
  filter (λ slot, Dt.str_date (TimeSlot.date slot) = date_str) slots.

(** The request that [get_availability] builds. *)
Definition provider_search (provider_id : string) (start_date end_date : Dt.date)
    (appointment_type : option string) : AvailabilitySearch.t :=
  AvailabilitySearch.mk None None (Some provider_id) start_date end_date
    None appointment_type 100.

(** *** Further notions: the sample catalogue *)

(** What the loops of [_generate_sample_slots] insert, in order: one
    item per provider, weekday of the fortnight and hour. *)
Definition day_plan (provider : string * string * string * string)
    (today day_offset : Z) : list (string * string * string * string * Dt.date * Z) :=
  if Dt.weekday (today + day_offset) <? 5
  then (λ hour, (provider, today + day_offset, hour))
         <$> AvailabilityService.sample_hours
  else [].

Definition provider_plan (today : Dt.date) (day_offsets : list Z)
    (provider : string * string * string * string)
    : list (string * string * string * string * Dt.date * Z) :=
  concat (day_plan provider today <$> day_offsets).

Definition sample_plan (today : Dt.date)
    : list (string * string * string * string * Dt.date * Z) :=
  concat (provider_plan today (seqZ 0 14) <$> AvailabilityService.sample_providers).

(** One insertion of the innermost loop. *)
Definition insert_item (slot_ids : nat → string)
    (s : AvailabilityService.t * nat)
    (item : string * string * string * string * Dt.date * Z)
    : AvailabilityService.t * nat :=
  (AvailabilityService.set_slots
     (dict_set (slot_ids s.2)
        (AvailabilityService.sample_slot item.1.1 item.1.2 item.2 (slot_ids s.2)))
     s.1, S s.2).

(** The items of a plan as slots, the n-th under the n-th identifier. *)
Fixpoint tagged (slot_ids : nat → string) (n : nat)
    (plan : list (string * string * string * string * Dt.date * Z))
    : odict TimeSlot.t :=
  match plan with
  | [] => []
  | item :: rest =>
      (slot_ids n,
       AvailabilityService.sample_slot item.1.1 item.1.2 item.2 (slot_ids n))
      :: tagged slot_ids (S n) rest
  end.

(** The natural key of an item, and the same with the day as an offset
    from [today]. *)
Definition item_key (item : string * string * string * string * Dt.date * Z)
    : string * Dt.date * Dt.time :=
  (item.1.1.1.1.1, item.1.2, Dt.mk_time item.2 0 0 0).

Definition shift_key (today : Dt.date) (k : string * Z * Z)
    : string * Dt.date * Dt.time :=
  (k.1.1, today + k.1.2, Dt.mk_time k.2 0 0 0).

Definition day_offsets_plan (r : Z) (provider_id : string) (day_offset : Z)
    : list (string * Z * Z) :=
  if Dt.weekday (r + day_offset) <? 5
  then (λ hour, (provider_id, day_offset, hour))
         <$> AvailabilityService.sample_hours
  else [].

Definition offsets_plan (r : Z) : list (string * Z * Z) :=
  concat ((λ provider : string * string * string * string,
             concat (day_offsets_plan r provider.1.1.1 <$> seqZ 0 14))
            <$> AvailabilityService.sample_providers).

(** * Properties *)

(** ** Datetime arithmetic *)

Section DatetimeFacts.
Import Dt.

Ltac unfold_units :=
  unfold US_PER_DAY, US_PER_HOUR, US_PER_MINUTE, US_PER_SECOND,
    MAX_DELTA_DAYS, MAXORDINAL in *.

Lemma time_of_us_valid us :
  0 ≤ us < US_PER_DAY → valid_time (time_of_us us).
Proof.
  unfold valid_time, time_of_us; cbn [hour minute second microsecond].
  unfold_units. intros Hus.
  repeat split; Z.div_mod_to_equations; lia.
Qed.

Lemma time_to_us_of_us us :
  0 ≤ us < US_PER_DAY → time_to_us (time_of_us us) = us.
Proof.
  unfold time_to_us, time_of_us; cbn [hour minute second microsecond].
  unfold_units. intros Hus. Z.div_mod_to_equations. lia.
Qed.

Lemma time_to_us_bounds t :
  valid_time t → 0 ≤ time_to_us t < US_PER_DAY.
Proof.
  unfold valid_time, time_to_us. unfold_units. lia.
Qed.

Lemma to_us_of_us us : to_us (of_us us) = us.
Proof.
  unfold to_us, of_us; cbn [date_of time_of].
  rewrite time_to_us_of_us.
  - unfold_units. Z.div_mod_to_equations. lia.
  - apply Z.mod_pos_bound. reflexivity.
Qed.

Lemma time_compare_to_us a b :
  valid_time a → valid_time b →
  time_compare a b = (time_to_us a ?= time_to_us b).
Proof.
  unfold valid_time, time_compare, time_to_us. unfold_units.
  intros Ha Hb. symmetry.
  repeat (let c := fresh in
          match goal with
          | |- context [match ?x ?= ?y with _ => _ end] =>
              destruct (Z.compare_spec x y)
          end);
    first [ apply Z.compare_eq_iff | apply Z.compare_lt_iff
          | apply Z.compare_gt_iff | idtac ]; try lia.
  destruct (Z.compare_spec (microsecond a) (microsecond b));
    first [ apply Z.compare_eq_iff | apply Z.compare_lt_iff
          | apply Z.compare_gt_iff ]; lia.
Qed.

(** On valid datetimes the comparison by fields is the comparison of
    the positions on the time line. *)
Lemma gt_to_us a b :
  valid_time (time_of a) → valid_time (time_of b) →
  gt a b = (to_us b <? to_us a).
Proof.
  intros Ha Hb. unfold gt, datetime_compare, to_us.
  rewrite time_compare_to_us by assumption.
  pose proof (time_to_us_bounds _ Ha). pose proof (time_to_us_bounds _ Hb).
  unfold_units.
  destruct (Z.compare_spec (date_of a) (date_of b));
    [destruct (Z.compare_spec (time_to_us (time_of a)) (time_to_us (time_of b)))|..];
    symmetry; first [apply Z.ltb_lt | apply Z.ltb_ge]; lia.
Qed.

Lemma add_Ok dt delta r :
  add dt delta = Ok r →
  valid_datetime r ∧ to_us r = to_us dt + delta.
Proof.
  unfold add. case_match eqn:Hrange; [|discriminate].
  intros [= <-]. apply andb_true_iff in Hrange as [H1 H2].
  split; [split|].
  - unfold valid_date. lia.
  - apply time_of_us_valid, Z.mod_pos_bound. reflexivity.
  - apply to_us_of_us.
Qed.

Lemma add_seconds_Ok dt n r :
  add_seconds dt n = Ok r →
  valid_datetime r ∧ to_us r = to_us dt + n * US_PER_SECOND.
Proof.
  unfold add_seconds, seconds, mk_timedelta.
  destruct (_ && _); [|discriminate]. apply add_Ok.
Qed.

Lemma add_Raise dt delta e : add dt delta = Raise e → e = OverflowError.
Proof. unfold add. destruct (_ && _); congruence. Qed.

Lemma add_minutes_Raise dt n e :
  add_minutes dt n = Raise e → e = OverflowError.
Proof.
  unfold add_minutes, minutes, mk_timedelta.
  destruct (_ && _); [apply add_Raise|congruence].
Qed.

End DatetimeFacts.

Ltac run :=
  unfold bind, ret, raise, gets, modify, call, try_finally, on_field in *;
  cbn [fst snd] in *.

(** ** The lock manager *)

Section LockManager.
Import CacheService.

Lemma install_Ok key ttl now expires c :
  Dt.add_seconds now ttl = Ok expires →
  install key ttl now c
  = (Ok true, set_locks (insert key (mk_lock now expires)) c).
Proof. intros H. unfold install. run. rewrite H. reflexivity. Qed.

Lemma acquire_lock_reclaimable key ttl now expires c :
  Dt.add_seconds now ttl = Ok expires →
  acquire_lock key ttl now c
  = if reclaimable c key now
    then (Ok true, set_locks (insert key (mk_lock now expires)) c)
    else (Ok false, c).
Proof.
  intros H. unfold acquire_lock, reclaimable. run.
  destruct (locks c !! key) as [lock|] eqn:Hkey.
  - destruct (Dt.gt (expires_at lock) now); cbn [negb]; [reflexivity|].
    rewrite (install_Ok _ _ _ _ _ H). destruct c as [l]. unfold set_locks.
    cbn [locks]. by rewrite insert_delete_eq.
  - apply install_Ok, H.
Qed.

Lemma acquire_lock_held key ttl now lock c :
  locks c !! key = Some lock →
  Dt.gt (expires_at lock) now = true →
  acquire_lock key ttl now c = (Ok false, c).
Proof.
  intros Hkey Hgt. unfold acquire_lock. run. by rewrite Hkey, Hgt.
Qed.

Lemma release_lock_delete key c :
  release_lock key c = (Ok tt, set_locks (delete key) c).
Proof.
  unfold release_lock. run. case_bool_decide as Hin; [reflexivity|].
  destruct c as [l]. unfold set_locks. cbn [locks] in *.
  rewrite delete_id; [reflexivity|].
  destruct (l !! key) eqn:E; [|done]. exfalso. eauto.
Qed.

(** C2. [acquire_lock(key, ttl)] returns [True] and installs the record
    with [expires_at = now + ttl] exactly when no record exists for the
    key or the record's [expires_at] has passed; otherwise it returns
    [False] and the lock table is unchanged.  After a successful
    acquire, an acquire of the same key before the time to live has
    elapsed returns [False], and an acquire once it has elapsed returns
    [True]. *)
Theorem acquire_lock_semantics key ttl now expires c :
  Dt.add_seconds now ttl = Ok expires →
  let held := set_locks (insert key (mk_lock now expires)) c in
  acquire_lock key ttl now c
  = (if reclaimable c key now then (Ok true, held) else (Ok false, c))
  ∧ (∀ now2 ttl2,
       Dt.valid_time (Dt.time_of now2) →
       Dt.to_us now2 < Dt.to_us now + ttl * Dt.US_PER_SECOND →
       acquire_lock key ttl2 now2 held = (Ok false, held))
  ∧ (∀ now3 ttl3 expires3,
       Dt.valid_time (Dt.time_of now3) →
       Dt.to_us now + ttl * Dt.US_PER_SECOND ≤ Dt.to_us now3 →
       Dt.add_seconds now3 ttl3 = Ok expires3 →
       acquire_lock key ttl3 now3 held
       = (Ok true, set_locks (insert key (mk_lock now3 expires3)) held)).
Proof.
  intros Hexp held.
  destruct (add_seconds_Ok _ _ _ Hexp) as [[_ Hvalid] Hus].
  split; [by apply acquire_lock_reclaimable|split].
  - intros now2 ttl2 Hnow2 Hbefore.
    apply (acquire_lock_held _ _ _ (mk_lock now expires)).
    + unfold held, set_locks. cbn [locks]. apply lookup_insert_eq.
    + cbn [expires_at]. rewrite gt_to_us by assumption.
      apply Z.ltb_lt. lia.
  - intros now3 ttl3 expires3 Hnow3 Hafter Hexp3.
    rewrite (acquire_lock_reclaimable _ _ _ _ _ Hexp3).
    unfold reclaimable, held, set_locks. cbn [locks].
    rewrite lookup_insert_eq. cbn [expires_at].
    rewrite gt_to_us by assumption.
    replace (Dt.to_us now3 <? Dt.to_us expires) with false; [reflexivity|].
    symmetry. apply Z.ltb_ge. lia.
Qed.

Lemma acquire_lock_semantics_witness :
  let key := "lock:slot:prov-1:2025-03-10:10:00:00" in
  let now := clock 10 0 0 in
  let expires := clock 10 0 30 in
  let later := clock 10 0 31 in
  let held := mk {[ key := mk_lock now expires ]} in
  Dt.add_seconds now 30 = Ok expires
  ∧ acquire_lock key 30 now (mk ∅) = (Ok true, held)
  ∧ acquire_lock key 30 now held = (Ok false, held)
  ∧ acquire_lock key 30 later held
    = (Ok true, mk {[ key := mk_lock later (clock 10 1 1) ]}).
Proof.
  intros key now expires later held.
  assert (H : Dt.add_seconds now 30 = Ok expires) by (vm_compute; reflexivity).
  destruct (acquire_lock_semantics key 30 now expires (mk ∅) H)
    as (Hfirst & Hsecond & Hthird).
  split; [exact H|]. split; [exact Hfirst|]. split.
  - apply (Hsecond now 30).
    + unfold Dt.valid_time. cbn. lia.
    + vm_compute. reflexivity.
  - apply (Hthird later 30 (clock 10 1 1)).
    + unfold Dt.valid_time. cbn. lia.
    + vm_compute. discriminate.
    + vm_compute. reflexivity.
Defined.

End LockManager.

(** ** Booking *)

Section Booking.
Import AppointmentService.

(** The exits of [create_appointment], one by one. *)
Lemma create_appointment_cases request appointment_id now s :
  create_appointment request appointment_id now s
  = match CacheService.acquire_lock (lock_key request) 30 now (cache s) with
    | (Raise e, c) => (Raise e, set_cache c s)
    | (Ok false, c) => (Raise contended, set_cache c s)
    | (Ok true, c) =>
        let c' := CacheService.set_locks (delete (lock_key request)) c in
        if AvailabilityService.first_available
             (AppointmentCreate.provider_id request)
             (AppointmentCreate.scheduled_date request)
             (AppointmentCreate.scheduled_time request)
             (AvailabilityService.slots (availability_service s))
        then
          match Dt.add_minutes
                  (Dt.combine (AppointmentCreate.scheduled_date request)
                              (AppointmentCreate.scheduled_time request))
                  (AppointmentCreate.duration_minutes request) with
          | Ok end_time =>
              let appointment :=
                new_appointment request appointment_id end_time now in
              (Ok appointment,
               mk (AvailabilityService.set_slots
                     (AvailabilityService.mark_first false
                        (AppointmentCreate.provider_id request)
                        (AppointmentCreate.scheduled_date request)
                        (AppointmentCreate.scheduled_time request))
                     (availability_service s))
                  c'
                  (<[appointment_id := appointment]> (appointments s)))
          | Raise e => (Raise e, set_cache c' s)
          end
        else (Raise no_longer_available, set_cache c' s)
    end.
Proof.
  unfold create_appointment, the_cache, availability.
  unfold AvailabilityService.is_slot_available,
    AvailabilityService.mark_slot_booked.
  run.
  destruct (CacheService.acquire_lock _ _ _ _) as [[[|]|e] c];
    cbn [negb]; try reflexivity.
  destruct s as [av ca ap]; cbn [availability_service cache appointments
    set_cache set_availability_service set_appointments].
  destruct (AvailabilityService.first_available _ _ _ _); cbn [negb].
  - destruct (Dt.add_minutes _ _) as [end_time|e];
      cbn [availability_service cache appointments];
      rewrite release_lock_delete; reflexivity.
  - cbn [cache]. rewrite release_lock_delete. reflexivity.
Qed.

(** C3. A call of [create_appointment] that acquires the slot lock
    releases it, whatever its outcome; and when it fails because the
    slot is missing or not available, the appointments and the
    availability service are as before the call. *)
Theorem create_appointment_releases_lock request appointment_id now s c :
  CacheService.acquire_lock (lock_key request) 30 now (cache s) = (Ok true, c) →
  let '(r, s') := create_appointment request appointment_id now s in
  CacheService.locks (cache s') !! lock_key request = None
  ∧ CacheService.locks (cache s')
    = delete (lock_key request) (CacheService.locks (cache s))
  ∧ (fails_with r SlotUnavailable →
     appointments s' = appointments s
     ∧ availability_service s' = availability_service s).
Proof.
  intros Hacq. rewrite create_appointment_cases, Hacq. cbn zeta.
  assert (Hlocks : CacheService.locks
                     (CacheService.set_locks (delete (lock_key request)) c)
                   = delete (lock_key request) (CacheService.locks (cache s))).
  { unfold CacheService.acquire_lock, CacheService.install in Hacq. run.
    destruct (CacheService.locks (cache s) !! lock_key request) as [lock|] eqn:Hkey.
    - destruct (Dt.gt _ _); [discriminate|].
      destruct (Dt.add_seconds now 30); [|discriminate].
      injection Hacq as <-. cbn [CacheService.locks CacheService.set_locks].
      by rewrite delete_insert_eq, delete_delete_eq.
    - destruct (Dt.add_seconds now 30); [|discriminate].
      injection Hacq as <-. cbn [CacheService.locks CacheService.set_locks].
      by rewrite delete_insert_eq. }
  destruct (AvailabilityService.first_available _ _ _ _).
  - destruct (Dt.add_minutes _ _) as [end_time|e] eqn:Hend;
      cbn [cache set_cache fails_with];
      (split; [rewrite Hlocks; apply lookup_delete_eq|split; [exact Hlocks|]]);
      [intros []|].
    apply add_minutes_Raise in Hend as ->. discriminate.
  - cbn [cache set_cache appointments availability_service].
    split; [rewrite Hlocks; apply lookup_delete_eq|split; [exact Hlocks|]].
    intros _. split; reflexivity.
Qed.

(** *** The lock table between calls *)

Ltac run_method :=
  unfold update_appointment, cancel_appointment, check_in, complete,
    assign, availability, the_cache,
    AvailabilityService.is_slot_available,
    AvailabilityService.mark_slot_available,
    AvailabilityService.mark_slot_booked,
    AvailabilityService.hold_slot, AvailabilityService.release_hold;
  run.

Lemma update_appointment_cache appointment_id update now s :
  cache (update_appointment appointment_id update now s).2 = cache s.
Proof. run_method. repeat case_match; simplify_eq/=; reflexivity. Qed.

Lemma cancel_appointment_cache appointment_id reason now s :
  cache (cancel_appointment appointment_id reason now s).2 = cache s.
Proof. run_method. repeat case_match; simplify_eq/=; reflexivity. Qed.

Lemma check_in_cache appointment_id now s :
  cache (check_in appointment_id now s).2 = cache s.
Proof. run_method. repeat case_match; simplify_eq/=; reflexivity. Qed.

Lemma complete_cache appointment_id notes now s :
  cache (complete appointment_id notes now s).2 = cache s.
Proof. run_method. repeat case_match; simplify_eq/=; reflexivity. Qed.

Lemma availability_cache {A} (m : M AvailabilityService.t A) s :
  cache (availability m s).2 = cache s.
Proof. unfold availability. run. destruct (m _). reflexivity. Qed.

Lemma acquire_lock_no_lock key ttl now c r c' :
  CacheService.locks c = ∅ →
  CacheService.acquire_lock key ttl now c = (r, c') →
  CacheService.locks (CacheService.set_locks (delete key) c') = ∅.
Proof.
  intros Hc. unfold CacheService.acquire_lock, CacheService.install. run.
  rewrite Hc, lookup_empty.
  destruct (Dt.add_seconds now ttl); intros [= <- <-];
    cbn [CacheService.locks CacheService.set_locks]; rewrite Hc.
  - by rewrite delete_insert_eq, delete_empty.
  - apply delete_empty.
Qed.

Lemma create_appointment_no_lock request appointment_id now s :
  CacheService.locks (cache s) = ∅ →
  CacheService.locks (cache (create_appointment request appointment_id now s).2) = ∅.
Proof.
  intros Hs. rewrite create_appointment_cases.
  destruct (CacheService.acquire_lock _ _ _ _) as [r c] eqn:Hacq.
  pose proof (acquire_lock_no_lock _ _ _ _ _ _ Hs Hacq) as Hc.
  assert (Hc' : CacheService.locks c = ∅ ∨ r = Ok true).
  { revert Hacq. unfold CacheService.acquire_lock, CacheService.install. run.
    rewrite Hs, lookup_empty.
    destruct (Dt.add_seconds now 30); intros [= <- <-]; auto. }
  destruct r as [[|]|e]; cbn zeta.
  - repeat case_match; exact Hc.
  - destruct Hc' as [Hc'|]; [exact Hc'|discriminate].
  - destruct Hc' as [Hc'|]; [exact Hc'|discriminate].
Qed.

Lemma step_no_lock s s' :
  step s s' →
  CacheService.locks (cache s) = ∅ → CacheService.locks (cache s') = ∅.
Proof.
  intros Hstep Hs. destruct Hstep.
  - by apply create_appointment_no_lock.
  - by rewrite update_appointment_cache.
  - by rewrite cancel_appointment_cache.
  - by rewrite check_in_cache.
  - by rewrite complete_cache.
  - by rewrite availability_cache.
  - by rewrite availability_cache.
Qed.

(** Between two calls no lock is held: every call that takes a lock
    releases it. *)
Lemma reachable_no_lock s :
  reachable s → CacheService.locks (cache s) = ∅.
Proof.
  intros (s0 & (Hcache & _) & Hsteps).
  assert (H0 : CacheService.locks (cache s0) = ∅) by by rewrite Hcache.
  clear Hcache. induction Hsteps as [s|s s' s'' Hstep _ IH]; [exact H0|].
  apply IH. by apply (step_no_lock s).
Qed.

(** *** Marking the first slot of a key *)

Lemma at_key_set_available b provider_id date time slot :
  AvailabilityService.at_key provider_id date time
    (TimeSlot.set_available b slot)
  = AvailabilityService.at_key provider_id date time slot.
Proof. reflexivity. Qed.

Lemma first_available_mark_first provider_id date time d :
  AvailabilityService.first_available provider_id date time d = true →
  AvailabilityService.first_available provider_id date time
    (AvailabilityService.mark_first false provider_id date time d) = false.
Proof.
  induction d as [|[k slot] d IH]; cbn; [discriminate|].
  destruct (AvailabilityService.at_key _ _ _ slot) eqn:Hkey; cbn.
  - by rewrite at_key_set_available, Hkey.
  - by rewrite Hkey.
Qed.

Lemma mark_first_restore provider_id date time d :
  AvailabilityService.first_available provider_id date time d = true →
  AvailabilityService.mark_first true provider_id date time
    (AvailabilityService.mark_first false provider_id date time d) = d.
Proof.
  induction d as [|[k slot] d IH]; cbn; [discriminate|].
  destruct (AvailabilityService.at_key _ _ _ slot) eqn:Hkey; cbn.
  - rewrite at_key_set_available, Hkey. intros Hav.
    destruct slot. cbn in Hav. subst. reflexivity.
  - rewrite Hkey. intros Hav. by rewrite IH.
Qed.

Lemma lock_key_same_slot r1 r2 : same_slot r1 r2 → lock_key r2 = lock_key r1.
Proof. intros (Hp & Hd & Ht). unfold lock_key. by rewrite Hp, Hd, Ht. Qed.

(** *** Booking when no lock is held *)

Lemma acquire_lock_free key ttl now expires c :
  CacheService.locks c = ∅ →
  Dt.add_seconds now ttl = Ok expires →
  CacheService.acquire_lock key ttl now c
  = (Ok true, CacheService.mk {[ key := CacheService.mk_lock now expires ]}).
Proof.
  intros Hc Hexp. rewrite (acquire_lock_reclaimable _ _ _ _ _ Hexp).
  unfold reclaimable. rewrite Hc, lookup_empty.
  destruct c as [l]. cbn in Hc. subst. reflexivity.
Qed.

Lemma returns_Ok {A} (r : result A) : returns r → ∃ a, r = Ok a.
Proof. destruct r; [eauto|intros []]. Qed.

Lemma create_appointment_available request appointment_id now s :
  CacheService.locks (cache s) = ∅ →
  lock_expiry_exists now →
  interval_exists request →
  AvailabilityService.first_available
    (AppointmentCreate.provider_id request)
    (AppointmentCreate.scheduled_date request)
    (AppointmentCreate.scheduled_time request)
    (AvailabilityService.slots (availability_service s)) = true →
  ∃ end_time,
    Dt.add_minutes
      (Dt.combine (AppointmentCreate.scheduled_date request)
                  (AppointmentCreate.scheduled_time request))
      (AppointmentCreate.duration_minutes request) = Ok end_time
    ∧ create_appointment request appointment_id now s
      = (Ok (new_appointment request appointment_id end_time now),
         mk (AvailabilityService.set_slots
               (AvailabilityService.mark_first false
                  (AppointmentCreate.provider_id request)
                  (AppointmentCreate.scheduled_date request)
                  (AppointmentCreate.scheduled_time request))
               (availability_service s))
            (cache s)
            (<[appointment_id
               := new_appointment request appointment_id end_time now]>
               (appointments s))).
Proof.
  intros Hlocks [expires Hexp]%returns_Ok [end_time Hend]%returns_Ok Hav.
  exists end_time. split; [exact Hend|].
  rewrite create_appointment_cases.
  rewrite (acquire_lock_free _ _ _ _ _ Hlocks Hexp), Hav, Hend. cbn zeta.
  f_equal. f_equal. destruct (cache s) as [l]. cbn in Hlocks. subst.
  unfold CacheService.set_locks. cbn. by rewrite delete_singleton_eq.
Qed.

Lemma create_appointment_unavailable request appointment_id now s :
  CacheService.locks (cache s) = ∅ →
  lock_expiry_exists now →
  AvailabilityService.first_available
    (AppointmentCreate.provider_id request)
    (AppointmentCreate.scheduled_date request)
    (AppointmentCreate.scheduled_time request)
    (AvailabilityService.slots (availability_service s)) = false →
  create_appointment request appointment_id now s
  = (Raise no_longer_available, s).
Proof.
  intros Hlocks [expires Hexp]%returns_Ok Hav.
  rewrite create_appointment_cases.
  rewrite (acquire_lock_free _ _ _ _ _ Hlocks Hexp), Hav. cbn zeta.
  f_equal. destruct s as [av [l] ap]. cbn in Hlocks. subst.
  unfold set_cache, CacheService.set_locks. cbn.
  by rewrite delete_singleton_eq.
Qed.

Lemma cancel_appointment_Ok appointment_id reason now a s :
  appointments s !! appointment_id = Some a →
  Appointment.status a ≠ CANCELLED →
  cancel_appointment appointment_id reason now s
  = (Ok tt,
     mk (AvailabilityService.set_slots
           (AvailabilityService.mark_first true
              (Appointment.provider_id a)
              (Dt.date_of (Appointment.scheduled_time a))
              (Dt.time_of (Appointment.scheduled_time a)))
           (availability_service s))
        (cache s)
        (<[appointment_id := cancelled reason now a]> (appointments s))).
Proof.
  intros Hfound Hstatus. run_method. rewrite Hfound.
  rewrite bool_decide_eq_false_2 by assumption.
  destruct s as [av ca ap]; cbn. unfold set_appointments; cbn.
  by rewrite !insert_insert_eq.
Qed.

(** C1. Sequential double-booking prevention, end to end.  In a state
    reached by complete calls where the slot of a natural key is
    available, the booking of [R1] succeeds with status [SCHEDULED];
    the booking of the same key by [R2] then fails, the slot being
    unavailable; cancelling the reservation of [R1] gives back the
    availability service as it was, so that the slot is found again by
    every search that found it; and the booking by [R2] then
    succeeds. *)
Theorem sequential_double_booking_prevention
    s r1 r2 id1 id2 id3 now1 now2 now3 now4 reason :
  reachable s →
  same_slot r1 r2 →
  AvailabilityService.first_available
    (AppointmentCreate.provider_id r1)
    (AppointmentCreate.scheduled_date r1)
    (AppointmentCreate.scheduled_time r1)
    (AvailabilityService.slots (availability_service s)) = true →
  lock_expiry_exists now1 → lock_expiry_exists now2 →
  lock_expiry_exists now4 →
  interval_exists r1 → interval_exists r2 →
  ∃ a1 s1 e s2 s3 a2 s4,
    create_appointment r1 id1 now1 s = (Ok a1, s1)
    ∧ Appointment.id a1 = id1
    ∧ Appointment.patient_id a1 = AppointmentCreate.patient_id r1
    ∧ Appointment.status a1 = SCHEDULED
    ∧ create_appointment r2 id2 now2 s1 = (Raise e, s2)
    ∧ error_kind e = Some SlotUnavailable
    ∧ cancel_appointment id1 reason now3 s2 = (Ok tt, s3)
    ∧ availability_service s3 = availability_service s
    ∧ (∀ search,
         (AvailabilityService.search_slots search (availability_service s3)).1
         = (AvailabilityService.search_slots search (availability_service s)).1)
    ∧ create_appointment r2 id3 now4 s3 = (Ok a2, s4)
    ∧ Appointment.patient_id a2 = AppointmentCreate.patient_id r2
    ∧ Appointment.status a2 = SCHEDULED.
Proof.
  intros Hreach Hsame Hav H1 H2 H4 Hr1 Hr2.
  pose proof (reachable_no_lock _ Hreach) as Hlocks.
  pose proof Hsame as (Hp & Hd & Ht).
  destruct (create_appointment_available r1 id1 now1 s Hlocks H1 Hr1 Hav)
    as (end1 & _ & Hbook1).
  set (a1 := new_appointment r1 id1 end1 now1) in *.
  set (s1 := mk _ _ _) in Hbook1.
  assert (Hbook2 : create_appointment r2 id2 now2 s1
                   = (Raise no_longer_available, s1)).
  { apply create_appointment_unavailable; [exact Hlocks|exact H2|].
    rewrite Hp, Hd, Ht. by apply first_available_mark_first. }
  assert (Hcancel : ∃ s3, cancel_appointment id1 reason now3 s1 = (Ok tt, s3)
                          ∧ availability_service s3 = availability_service s
                          ∧ cache s3 = cache s).
  { eexists. split; [|split].
    - apply (cancel_appointment_Ok _ _ _ a1); [apply lookup_insert_eq|done].
    - cbn. unfold AvailabilityService.set_slots. cbn.
      rewrite mark_first_restore by exact Hav.
      by destruct (availability_service s).
    - reflexivity. }
  destruct Hcancel as (s3 & Hcancel & Hav3 & Hcache3).
  destruct (create_appointment_available r2 id3 now4 s3) as (end2 & _ & Hbook3).
  { by rewrite Hcache3. }
  { exact H4. }
  { exact Hr2. }
  { by rewrite Hav3, Hp, Hd, Ht. }
  exists a1, s1, no_longer_available, s1, s3.
  eexists _, _. repeat split; try eassumption; try reflexivity.
  intros search. by rewrite Hav3.
Qed.

Lemma sequential_double_booking_prevention_witness :
  ∃ a1 s1 e s2 s3 a2 s4,
    create_appointment (request_at 10 "R1") "apt-1" (clock 9 0 0) fresh_service
    = (Ok a1, s1)
    ∧ Appointment.status a1 = SCHEDULED
    ∧ create_appointment (request_at 10 "R2") "apt-2" (clock 9 1 0) s1
      = (Raise e, s2)
    ∧ error_kind e = Some SlotUnavailable
    ∧ cancel_appointment "apt-1" None (clock 9 2 0) s2 = (Ok tt, s3)
    ∧ create_appointment (request_at 10 "R2") "apt-3" (clock 9 3 0) s3
      = (Ok a2, s4)
    ∧ Appointment.status a2 = SCHEDULED.
Proof.
  destruct (sequential_double_booking_prevention fresh_service
              (request_at 10 "R1") (request_at 10 "R2")
              "apt-1" "apt-2" "apt-3"
              (clock 9 0 0) (clock 9 1 0) (clock 9 2 0) (clock 9 3 0) None)
    as (a1 & s1 & e & s2 & s3 & a2 & s4 & H1 & _ & _ & Hs1 & H2 & He & H3
        & _ & _ & H4 & _ & Hs2).
  - exists fresh_service. split; [repeat split|apply rtc_refl].
  - repeat split.
  - vm_compute. reflexivity.
  - vm_compute. exact I.
  - vm_compute. exact I.
  - vm_compute. exact I.
  - vm_compute. exact I.
  - vm_compute. exact I.
  - exists a1, s1, e, s2, s3, a2, s4. repeat split; assumption.
Defined.

Lemma create_appointment_releases_lock_witness :
  let request := request_at 10 "R2" in
  let now := clock 9 1 0 in
  CacheService.acquire_lock (lock_key request) 30 now (cache booked_service)
  = (Ok true,
     CacheService.mk
       {[ lock_key request := CacheService.mk_lock now (clock 9 1 30) ]})
  ∧ create_appointment request "apt-2" now booked_service
    = (Raise no_longer_available, booked_service)
  ∧ CacheService.locks (cache booked_service) !! lock_key request = None
  ∧ appointments booked_service = appointments booked_service
  ∧ availability_service booked_service = availability_service booked_service.
Proof.
  intros request now.
  assert (H : CacheService.acquire_lock (lock_key request) 30 now
                (cache booked_service)
              = (Ok true,
                 CacheService.mk
                   {[ lock_key request
                      := CacheService.mk_lock now (clock 9 1 30) ]}))
    by (vm_compute; reflexivity).
  assert (E : create_appointment request "apt-2" now booked_service
              = (Raise no_longer_available, booked_service))
    by (vm_compute; reflexivity).
  pose proof (create_appointment_releases_lock request "apt-2" now
                booked_service _ H) as T.
  rewrite E in T. destruct T as (Hreleased & _ & Hatomic).
  destruct Hatomic as [Happ Hav]; [vm_compute; reflexivity|].
  repeat split; assumption.
Defined.

End Booking.

(** ** Rescheduling *)

Section Rescheduling.
Import AppointmentService.

(** The exits of [update_appointment], one by one. *)
Lemma update_appointment_cases appointment_id update now s :
  update_appointment appointment_id update now s
  = match appointments s !! appointment_id with
    | None => (Raise not_found, s)
    | Some a =>
        if bool_decide (Appointment.status a = CANCELLED)
        then (Raise (ValueError "Cannot update cancelled appointment"), s)
        else if reschedules update then
          if AvailabilityService.first_available (Appointment.provider_id a)
               (new_date update a) (new_time update a)
               (AvailabilityService.slots (availability_service s))
          then
            let a' :=
              edited update now
                (Appointment.set_scheduled_time
                   (Dt.combine (new_date update a) (new_time update a)) a) in
            (Ok a',
             mk (AvailabilityService.set_slots
                   (λ d, AvailabilityService.mark_first false
                           (Appointment.provider_id a)
                           (new_date update a) (new_time update a)
                           (AvailabilityService.mark_first true
                              (Appointment.provider_id a)
                              (Dt.date_of (Appointment.scheduled_time a))
                              (Dt.time_of (Appointment.scheduled_time a)) d))
                   (availability_service s))
                (cache s)
                (<[appointment_id := a']> (appointments s)))
          else (Raise new_slot_not_available, s)
        else
          (Ok (edited update now a),
           set_appointments (insert appointment_id (edited update now a)) s)
    end.
Proof.
  unfold update_appointment, assign, availability,
    AvailabilityService.is_slot_available,
    AvailabilityService.mark_slot_available,
    AvailabilityService.mark_slot_booked, reschedules, edited,
    new_date, new_time.
  run.
  destruct (appointments s !! appointment_id) as [a|]; [|reflexivity].
  destruct (bool_decide (Appointment.status a = CANCELLED)); [reflexivity|].
  destruct s as [[sl ho] ca ap].
  unfold set_appointments, set_availability_service,
    AvailabilityService.set_slots.
  cbn [availability_service cache appointments AvailabilityService.slots
       AvailabilityService.holds].
  destruct (_ || _); cbn [negb].
  - destruct (AvailabilityService.first_available _ _ _ _); cbn [negb];
      [|reflexivity].
    cbn [availability_service cache appointments AvailabilityService.slots
         AvailabilityService.holds].
    destruct (truthy (AppointmentUpdate.reason update)),
      (truthy (AppointmentUpdate.notes update));
      cbn [availability_service cache appointments];
      rewrite ?insert_insert_eq; reflexivity.
  - destruct (truthy (AppointmentUpdate.reason update)),
      (truthy (AppointmentUpdate.notes update));
      cbn [availability_service cache appointments];
      rewrite ?insert_insert_eq; reflexivity.
Qed.

(** What holds of the atomic failure: when the appointment exists and
    is not cancelled, and the request carries a new date or time for
    which [is_slot_available] answers [False] (the slot is missing or
    booked), [update_appointment] fails (the slot is unavailable) and
    the whole state of the service is as before: the source slot keeps
    its availability flag and the appointment all its fields. *)
Theorem update_appointment_unavailable_is_atomic appointment_id update now a s :
  appointments s !! appointment_id = Some a →
  Appointment.status a ≠ CANCELLED →
  reschedules update = true →
  AvailabilityService.first_available (Appointment.provider_id a)
    (new_date update a) (new_time update a)
    (AvailabilityService.slots (availability_service s)) = false →
  update_appointment appointment_id update now s
  = (Raise new_slot_not_available, s)
  ∧ error_kind new_slot_not_available = Some SlotUnavailable.
Proof.
  intros Hfound Hstatus Hres Hav.
  rewrite update_appointment_cases, Hfound, Hres, Hav.
  by rewrite bool_decide_eq_false_2.
Qed.

Lemma update_appointment_unavailable_is_atomic_witness :
  let to_11h := AppointmentUpdate.mk None (Some (Dt.mk_time 11 0 0 0)) None None in
  update_appointment "apt-1" to_11h (clock 9 10 0) both_booked_service
  = (Raise new_slot_not_available, both_booked_service).
Proof.
  intros to_11h.
  eapply (proj1 (update_appointment_unavailable_is_atomic
                   "apt-1" to_11h (clock 9 10 0) _ both_booked_service
                   _ _ _ _)).
  Unshelve.
  - exact (new_appointment (request_at 10 "R1") "apt-1"
             (Dt.mk_datetime 739320 (Dt.mk_time 10 30 0 0)) (clock 9 0 0)).
  - vm_compute. reflexivity.
  - vm_compute. discriminate.
  - vm_compute. reflexivity.
  - vm_compute. reflexivity.
Defined.

(** C5, at the scenario.  [apt-1] of [R1] is booked for 10:00 and [H1]
    holds the slot of 11:00 until 09:11.  At 09:02, the hold unexpired
    and the destination so not available to others, the reschedule of
    [apt-1] to 11:00 does not fail: it returns the appointment with the
    new time, frees the slot of 10:00 and books the slot of 11:00, which
    [H1] still holds. *)
Theorem reschedule_onto_held_slot_succeeds :
  let s := held_destination_service in
  appointments s !! "apt-1" = Some apt_1
  ∧ Appointment.status apt_1 = SCHEDULED
  ∧ dict_get "slot-0002" (AvailabilityService.slots (availability_service s))
    = Some (TimeSlot.set_held (Some "H1") (Some (clock 9 11 0))
              (slot_at "slot-0002" 11))
  ∧ Dt.gt (clock 9 11 0) (clock 9 2 0) = true
  ∧ ∃ a' s',
      update_appointment "apt-1" to_11h (clock 9 2 0) s = (Ok a', s')
      ∧ Appointment.scheduled_time a'
        = Dt.mk_datetime 739320 (Dt.mk_time 11 0 0 0)
      ∧ appointments s' !! "apt-1" = Some a'
      ∧ AvailabilityService.first_available "prov-1" 739320 (Dt.mk_time 10 0 0 0)
          (AvailabilityService.slots (availability_service s')) = true
      ∧ AvailabilityService.first_available "prov-1" 739320 (Dt.mk_time 11 0 0 0)
          (AvailabilityService.slots (availability_service s')) = false
      ∧ TimeSlot.held_by
          <$> dict_get "slot-0002"
                (AvailabilityService.slots (availability_service s'))
        = Some (Some "H1").
Proof.
  repeat split; try (vm_compute; reflexivity).
  eexists _, _. repeat split; vm_compute; reflexivity.
Qed.

Lemma edited_frame update now a :
  same_but_reason_notes_updated_at a (edited update now a).
Proof.
  unfold edited.
  destruct (truthy (AppointmentUpdate.reason update)),
    (truthy (AppointmentUpdate.notes update)); repeat split.
Qed.

Lemma not_reschedules reason notes :
  reschedules (AppointmentUpdate.mk None None reason notes) = false.
Proof. reflexivity. Qed.

(** C10. The frame of [update_appointment].  Whatever the request, the
    call changes the [end_time] and the [status] of no stored
    appointment, even when it rewrites [scheduled_time].  When the
    request carries neither a new date nor a new time, the availability
    service (every slot and its availability) and the lock table are
    unchanged, no appointment is created or removed, and every stored
    appointment keeps all its fields except, possibly, [reason], [notes]
    and [updated_at]. *)
Theorem update_appointment_frame appointment_id update now s :
  (let s' := (update_appointment appointment_id update now s).2 in
   ∀ id',
     Appointment.end_time <$> appointments s' !! id'
     = Appointment.end_time <$> appointments s !! id'
     ∧ Appointment.status <$> appointments s' !! id'
       = Appointment.status <$> appointments s !! id')
  ∧ (∀ reason notes,
       let unscheduled := AppointmentUpdate.mk None None reason notes in
       let s' := (update_appointment appointment_id unscheduled now s).2 in
       availability_service s' = availability_service s
       ∧ cache s' = cache s
       ∧ ∀ id',
           option_Forall2 same_but_reason_notes_updated_at
             (appointments s !! id') (appointments s' !! id')).
Proof.
  assert (Hrefl : ∀ o : option Appointment.t,
             option_Forall2 same_but_reason_notes_updated_at o o).
  { intros [a|]; constructor. repeat split. }
  split.
  - cbn zeta. intros id'. rewrite update_appointment_cases.
    destruct (appointments s !! appointment_id) as [a|] eqn:Hfound; [|done].
    destruct (bool_decide (Appointment.status a = CANCELLED)); [done|].
    destruct (reschedules update).
    + destruct (AvailabilityService.first_available _ _ _ _); [|done].
      cbn [snd appointments].
      destruct (decide (appointment_id = id')) as [<-|Hne].
      * rewrite lookup_insert_eq, Hfound.
        destruct (edited_frame update now
                    (Appointment.set_scheduled_time
                       (Dt.combine (new_date update a) (new_time update a)) a))
          as (_ & _ & _ & _ & _ & He & _ & Hs & _).
        split; cbn [fmap option_fmap option_map]; f_equal;
          [exact He|exact Hs].
      * by rewrite lookup_insert_ne.
    + cbn [snd appointments set_appointments].
      destruct (decide (appointment_id = id')) as [<-|Hne].
      * rewrite lookup_insert_eq, Hfound.
        destruct (edited_frame update now a)
          as (_ & _ & _ & _ & _ & He & _ & Hs & _).
        split; cbn [fmap option_fmap option_map]; f_equal;
          [exact He|exact Hs].
      * by rewrite lookup_insert_ne.
  - intros reason notes. cbn zeta. rewrite update_appointment_cases.
    rewrite not_reschedules.
    destruct (appointments s !! appointment_id) as [a|] eqn:Hfound;
      [|by repeat split].
    destruct (bool_decide (Appointment.status a = CANCELLED));
      [by repeat split|].
    cbn [snd]. destruct s as [av ca ap]. cbn in *.
    repeat split. intros id'.
    destruct (decide (appointment_id = id')) as [<-|Hne].
    + rewrite lookup_insert_eq, Hfound. constructor. apply edited_frame.
    + rewrite lookup_insert_ne by done. apply Hrefl.
Qed.

End Rescheduling.

(** ** Check-in and completion *)

Section CheckIn.
Import AppointmentService.

Lemma check_in_cases appointment_id now s :
  check_in appointment_id now s
  = match appointments s !! appointment_id with
    | None => (Raise not_found, s)
    | Some a =>
        (Ok tt, set_appointments (insert appointment_id (checked_in now a)) s)
    end.
Proof.
  unfold check_in, assign. run.
  destruct (appointments s !! appointment_id) as [a|]; [|reflexivity].
  destruct s as [av ca ap]. unfold set_appointments. cbn.
  by rewrite !insert_insert_eq.
Qed.

Lemma complete_cases appointment_id notes now s :
  complete appointment_id notes now s
  = match appointments s !! appointment_id with
    | None => (Raise not_found, s)
    | Some a =>
        (Ok tt,
         set_appointments (insert appointment_id (completed notes now a)) s)
    end.
Proof.
  unfold complete, assign, completed. run.
  destruct (appointments s !! appointment_id) as [a|]; [|reflexivity].
  destruct s as [av ca ap]. unfold set_appointments.
  destruct (truthy notes); cbn; by rewrite !insert_insert_eq.
Qed.

(** What holds of the guard: an unknown identifier is not found, and
    neither method touches the availability service or the lock table. *)
Lemma check_in_complete_not_found_and_frame appointment_id notes now s :
  (appointments s !! appointment_id = None →
   check_in appointment_id now s = (Raise not_found, s)
   ∧ complete appointment_id notes now s = (Raise not_found, s)
   ∧ error_kind not_found = Some NotFound)
  ∧ availability_service (check_in appointment_id now s).2
    = availability_service s
  ∧ availability_service (complete appointment_id notes now s).2
    = availability_service s.
Proof.
  rewrite check_in_cases, complete_cases.
  destruct (appointments s !! appointment_id); repeat split; done.
Qed.

(** C6, at a cancelled reservation.  [apt-1] is cancelled; [check_in]
    returns normally and sets its status to [CHECKED_IN], and [complete]
    returns normally and sets it to [COMPLETED]: neither method has the
    guard on [CANCELLED] that [update_appointment] and
    [cancel_appointment] have. *)
Theorem check_in_and_complete_accept_cancelled :
  Appointment.status <$> appointments cancelled_service !! "apt-1"
  = Some CANCELLED
  ∧ (let '(r, s') := check_in "apt-1" (clock 9 10 0) cancelled_service in
     r = Ok tt
     ∧ Appointment.status <$> appointments s' !! "apt-1" = Some CHECKED_IN
     ∧ Appointment.checked_in_at <$> appointments s' !! "apt-1"
       = Some (Some (clock 9 10 0)))
  ∧ (let '(r, s') := complete "apt-1" None (clock 9 10 0) cancelled_service in
     r = Ok tt
     ∧ Appointment.status <$> appointments s' !! "apt-1" = Some COMPLETED
     ∧ Appointment.completed_at <$> appointments s' !! "apt-1"
       = Some (Some (clock 9 10 0)))
  ∧ update_appointment "apt-1" (AppointmentUpdate.mk None None None None)
      (clock 9 10 0) cancelled_service
    = (Raise (ValueError "Cannot update cancelled appointment"),
       cancelled_service).
Proof. vm_compute. repeat split. Qed.

End CheckIn.

(** ** Holds *)

Section Holds.
Import AppointmentService.

Lemma first_available_set_held provider_id date time by_ until slot_id d :
  AvailabilityService.first_available provider_id date time
    (dict_update (TimeSlot.set_held by_ until) slot_id d)
  = AvailabilityService.first_available provider_id date time d.
Proof.
  induction d as [|[k slot] d IH]; [reflexivity|]. cbn.
  case_bool_decide; cbn; [reflexivity|]. by rewrite IH.
Qed.

(** A hold, and its release, change the availability of no slot key:
    [is_slot_available] answers after them as it did before. *)
Lemma hold_slot_keeps_availability
    slot_id patient_id duration_minutes hold_id now provider_id date time a :
  AvailabilityService.first_available provider_id date time
    (AvailabilityService.slots
       (AvailabilityService.hold_slot slot_id patient_id duration_minutes
          hold_id now a).2)
  = AvailabilityService.first_available provider_id date time
      (AvailabilityService.slots a)
  ∧ AvailabilityService.first_available provider_id date time
      (AvailabilityService.slots
         (AvailabilityService.release_hold slot_id patient_id a).2)
    = AvailabilityService.first_available provider_id date time
        (AvailabilityService.slots a).
Proof.
  unfold AvailabilityService.hold_slot, AvailabilityService.release_hold. run.
  split.
  - destruct (dict_get slot_id (AvailabilityService.slots a)) as [slot|];
      [|reflexivity].
    destruct (TimeSlot.available slot); cbn [negb]; [|reflexivity].
    destruct (Dt.add_minutes now duration_minutes); [|reflexivity].
    cbn. apply first_available_set_held.
  - destruct (dict_get slot_id (AvailabilityService.slots a)) as [slot|];
      [|reflexivity].
    case_bool_decide; [|reflexivity]. cbn. apply first_available_set_held.
Qed.

(** C4, at the scenario.  [H1] holds the slot of 10:00 until 09:10; at
    09:01, the hold unexpired, the booking of the same slot by [R2]
    succeeds. *)
Theorem hold_does_not_block_booking :
  hold_by_H1.1
  = Ok (SlotHold.mk "slot-0001" "H1" (clock 9 0 0) (clock 9 10 0) "active")
  ∧ dict_get "slot-0001"
      (AvailabilityService.slots (availability_service hold_by_H1.2))
    = Some (TimeSlot.set_held (Some "H1") (Some (clock 9 10 0))
              (slot_at "slot-0001" 10))
  ∧ Dt.gt (clock 9 10 0) (clock 9 1 0) = true
  ∧ ∃ a s',
      create_appointment (request_at 10 "R2") "apt-1" (clock 9 1 0) hold_by_H1.2
      = (Ok a, s')
      ∧ Appointment.patient_id a = "R2"
      ∧ Appointment.status a = SCHEDULED
      ∧ AvailabilityService.first_available "prov-1" 739320 (Dt.mk_time 10 0 0 0)
          (AvailabilityService.slots (availability_service s')) = false.
Proof.
  repeat split; try (vm_compute; reflexivity).
  eexists _, _. repeat split; vm_compute; reflexivity.
Qed.

(** C7, at the scenario.  While the hold of [H1] on the slot of 10:00 is
    unexpired, the hold request of [H2] for the same slot succeeds: the
    slot is then held by [H2], and [holds] has two records for the slot,
    both with status ["active"]. *)
Theorem second_hold_succeeds_on_held_slot :
  let '(r, s') :=
    availability
      (AvailabilityService.hold_slot "slot-0001" "H2" 10 "hold-2" (clock 9 1 0))
      hold_by_H1.2 in
  TimeSlot.held_by
    <$> dict_get "slot-0001"
          (AvailabilityService.slots (availability_service hold_by_H1.2))
  = Some (Some "H1")
  ∧ Dt.gt (clock 9 10 0) (clock 9 1 0) = true
  ∧ r = Ok (SlotHold.mk "slot-0001" "H2" (clock 9 1 0) (clock 9 11 0) "active")
  ∧ TimeSlot.held_by
      <$> dict_get "slot-0001" (AvailabilityService.slots (availability_service s'))
    = Some (Some "H2")
  ∧ AvailabilityService.holds (availability_service s') !! "hold-1"
    = Some (SlotHold.mk "slot-0001" "H1" (clock 9 0 0) (clock 9 10 0) "active")
  ∧ AvailabilityService.holds (availability_service s') !! "hold-2"
    = Some (SlotHold.mk "slot-0001" "H2" (clock 9 1 0) (clock 9 11 0) "active")
  ∧ length (active_holds "slot-0001" (availability_service s')) = 2%nat.
Proof. vm_compute. repeat split. Qed.

End Holds.

(** ** The stable sort *)

Section StableSortFacts.
Context {A K : Type} `{EqDecision K} (lt : A → A → bool) (key : A → K).
Hypothesis lt_asym : ∀ x y, lt x y = true → lt y x = false.
Hypothesis lt_key : ∀ x y, lt x y = true → key x ≠ key y.

Lemma insert_sorted_Permutation x l :
  Permutation (insert_sorted lt x l) (x :: l).
Proof.
  induction l as [|y l IH]; cbn; [reflexivity|].
  destruct (lt y x); [|reflexivity].
  rewrite IH. apply perm_swap.
Qed.

Lemma stable_sort_Permutation l : Permutation (stable_sort lt l) l.
Proof.
  induction l as [|x l IH]; cbn; [reflexivity|].
  rewrite insert_sorted_Permutation. by constructor.
Qed.

Lemma insert_sorted_HdRel x y l :
  not_after lt y x → HdRel (not_after lt) y l → HdRel (not_after lt) y (insert_sorted lt x l).
Proof.
  intros Hyx Hhd. destruct Hhd as [|z l Hyz]; cbn; [by constructor|].
  destruct (lt z x); by constructor.
Qed.

Lemma insert_sorted_Sorted x l :
  Sorted (not_after lt) l → Sorted (not_after lt) (insert_sorted lt x l).
Proof.
  induction 1 as [|y l Hsorted IH Hhd]; cbn; [by repeat constructor|].
  destruct (lt y x) eqn:Hyx.
  - constructor; [exact IH|].
    apply insert_sorted_HdRel; [|exact Hhd]. by apply lt_asym.
  - constructor; [by constructor|]. by constructor.
Qed.

Lemma stable_sort_Sorted l : Sorted (not_after lt) (stable_sort lt l).
Proof.
  induction l as [|x l IH]; cbn; [constructor|].
  by apply insert_sorted_Sorted.
Qed.

(** Stability: the elements of one key come out in the order in which
    they went in. *)
Lemma insert_sorted_stable k x l :
  List.filter (λ y, bool_decide (key y = k)) (insert_sorted lt x l)
  = List.filter (λ y, bool_decide (key y = k)) (x :: l).
Proof.
  induction l as [|y l IH]; cbn; [reflexivity|].
  destruct (lt y x) eqn:Hyx; [|reflexivity].
  cbn. rewrite IH. cbn.
  apply lt_key in Hyx.
  repeat case_bool_decide; congruence.
Qed.

Lemma stable_sort_stable k l :
  List.filter (λ y, bool_decide (key y = k)) (stable_sort lt l)
  = List.filter (λ y, bool_decide (key y = k)) l.
Proof.
  induction l as [|x l IH]; cbn; [reflexivity|].
  rewrite insert_sorted_stable. cbn. by rewrite IH.
Qed.

Lemma Sorted_take (R : A → A → Prop) n l : Sorted R l → Sorted R (take n l).
Proof.
  intros Hsorted. revert n.
  induction Hsorted as [|x l Hsorted IH Hhd]; intros [|n]; cbn;
    try constructor; [apply IH|].
  destruct Hhd, n; cbn; by constructor.
Qed.


(** The three properties above determine the output: a list that is
    sorted and has, key by key, the elements of [l] in the order of [l]
    is the stable sort of [l], whatever algorithm produced it. *)
Hypothesis lt_total : ∀ x y, lt x y = false → lt y x = false → key x = key y.
Hypothesis not_after_trans : ∀ x y z,
  not_after lt x y → not_after lt y z → not_after lt x z.

Lemma filter_key_head k x l l' :
  List.filter (λ y, bool_decide (key y = k)) l = x :: l' → In x l ∧ key x = k.
Proof.
  intros Heq.
  assert (Hin : In x (List.filter (λ y, bool_decide (key y = k)) l))
    by (rewrite Heq; by left).
  apply filter_In in Hin as [Hin Hk]. split; [exact Hin|].
  by apply bool_decide_eq_true in Hk.
Qed.

Lemma StronglySorted_same_keys_eq l1 l2 :
  StronglySorted (not_after lt) l1 → StronglySorted (not_after lt) l2 →
  (∀ k, List.filter (λ y, bool_decide (key y = k)) l1
        = List.filter (λ y, bool_decide (key y = k)) l2) →
  l1 = l2.
Proof.
  intros Hs1. revert l2.
  induction Hs1 as [|x t1 Hs1 IH Hx]; intros l2 Hs2 Hkeys.
  - destruct l2 as [|y t2]; [reflexivity|].
    specialize (Hkeys (key y)). cbn in Hkeys.
    by rewrite bool_decide_eq_true_2 in Hkeys.
  - destruct Hs2 as [|y t2 Hs2 Hy].
    { specialize (Hkeys (key x)). cbn in Hkeys.
      by rewrite bool_decide_eq_true_2 in Hkeys. }
    assert (Hxy : x = y).
    { destruct (decide (key x = key y)) as [Heq|Hne].
      - specialize (Hkeys (key x)). cbn in Hkeys.
        rewrite bool_decide_eq_true_2 in Hkeys by done.
        rewrite (bool_decide_eq_true_2 (key y = key x)) in Hkeys by done.
        by injection Hkeys.
      - exfalso. apply Hne, lt_total.
        + pose proof (Hkeys (key x)) as Hk. cbn in Hk.
          rewrite bool_decide_eq_true_2 in Hk by done.
          rewrite (bool_decide_eq_false_2 (key y = key x)) in Hk by done.
          symmetry in Hk. apply filter_key_head in Hk as [Hin _].
          rewrite Forall_forall in Hy. apply Hy, list_elem_of_In, Hin.
        + pose proof (Hkeys (key y)) as Hk. cbn in Hk.
          rewrite (bool_decide_eq_true_2 (key y = key y)) in Hk by done.
          rewrite (bool_decide_eq_false_2 (key x = key y)) in Hk by done.
          apply filter_key_head in Hk as [Hin _].
          rewrite Forall_forall in Hx. apply Hx, list_elem_of_In, Hin. }
    subst y. f_equal. apply IH; [exact Hs2|].
    intros k. specialize (Hkeys k). cbn in Hkeys.
    destruct (bool_decide (key x = k)); [by injection Hkeys|exact Hkeys].
Qed.

Lemma stable_sort_unique l l' :
  Sorted (not_after lt) l' →
  (∀ k, List.filter (λ y, bool_decide (key y = k)) l'
        = List.filter (λ y, bool_decide (key y = k)) l) →
  l' = stable_sort lt l.
Proof.
  intros Hsorted Hkeys.
  assert (Htrans : Transitive (not_after lt))
    by (intros x y z; apply not_after_trans).
  apply StronglySorted_same_keys_eq.
  - by apply Sorted_StronglySorted.
  - apply Sorted_StronglySorted; [exact Htrans|apply stable_sort_Sorted].
  - intros k. by rewrite stable_sort_stable.
Qed.

End StableSortFacts.

(** ** Search *)

Section Search.
Import AvailabilityService.

Lemma time_compare_refl t : Dt.time_compare t t = Eq.
Proof. unfold Dt.time_compare. by rewrite !Z.compare_refl. Qed.

Lemma time_compare_Lt_asym a b :
  Dt.time_compare a b = Lt → Dt.time_compare b a = Gt.
Proof.
  unfold Dt.time_compare.
  destruct (Z.compare_spec (Dt.hour a) (Dt.hour b)),
    (Z.compare_spec (Dt.hour b) (Dt.hour a)); try lia; try done.
  destruct (Z.compare_spec (Dt.minute a) (Dt.minute b)),
    (Z.compare_spec (Dt.minute b) (Dt.minute a)); try lia; try done.
  destruct (Z.compare_spec (Dt.second a) (Dt.second b)),
    (Z.compare_spec (Dt.second b) (Dt.second a)); try lia; try done.
  destruct (Z.compare_spec (Dt.microsecond a) (Dt.microsecond b)),
    (Z.compare_spec (Dt.microsecond b) (Dt.microsecond a)); try lia; done.
Qed.

Lemma key_lt_asym x y : key_lt x y = true → key_lt y x = false.
Proof.
  unfold key_lt. repeat case_bool_decide; try congruence.
  - destruct (Dt.time_compare _ _) eqn:Hxy; try discriminate.
    by rewrite (time_compare_Lt_asym _ _ Hxy).
  - intros Hlt%Z.ltb_lt. apply Z.ltb_ge. lia.
Qed.

Lemma key_lt_key x y : key_lt x y = true → sort_key x ≠ sort_key y.
Proof.
  unfold key_lt, sort_key. intros Hlt [= Hd Ht]. revert Hlt.
  rewrite bool_decide_eq_true_2 by exact Hd.
  by rewrite Ht, time_compare_refl.
Qed.

Ltac compare_cases :=
  repeat match goal with
         | H : context [?a ?= ?b] |- _ =>
             destruct (Z.compare_spec a b); try discriminate H; try lia
         | |- context [?a ?= ?b] =>
             destruct (Z.compare_spec a b); try lia
         end.

Lemma time_compare_Eq a b : Dt.time_compare a b = Eq → a = b.
Proof.
  destruct a, b. unfold Dt.time_compare. cbn. intros H.
  compare_cases. by subst.
Qed.

Lemma time_compare_Gt_Lt a b :
  Dt.time_compare a b = Gt → Dt.time_compare b a = Lt.
Proof.
  destruct a, b. unfold Dt.time_compare. cbn. intros H.
  compare_cases; reflexivity.
Qed.

Lemma time_compare_trans a b c :
  Dt.time_compare b a ≠ Lt → Dt.time_compare c b ≠ Lt →
  Dt.time_compare c a ≠ Lt.
Proof.
  destruct a, b, c. unfold Dt.time_compare. cbn. intros H1 H2.
  compare_cases; congruence.
Qed.

Lemma key_lt_total x y :
  key_lt x y = false → key_lt y x = false → sort_key x = sort_key y.
Proof.
  unfold key_lt, sort_key.
  repeat case_bool_decide; try congruence.
  - intros H1 H2.
    destruct (Dt.time_compare (TimeSlot.start_time x) (TimeSlot.start_time y))
      eqn:Hxy; try discriminate.
    + apply time_compare_Eq in Hxy. congruence.
    + apply time_compare_Gt_Lt in Hxy. by rewrite Hxy in H2.
  - intros H1%Z.ltb_ge H2%Z.ltb_ge. exfalso. lia.
Qed.

Lemma key_le_trans x y z : key_le x y → key_le y z → key_le x z.
Proof.
  unfold key_le, not_after, key_lt.
  repeat case_bool_decide; try lia;
    rewrite ?Z.ltb_ge, ?Z.ltb_lt; try lia; try congruence.
  intros Hyx Hzy.
  pose proof (time_compare_trans (TimeSlot.start_time x)
                (TimeSlot.start_time y) (TimeSlot.start_time z)) as Ht.
  destruct (Dt.time_compare (TimeSlot.start_time z) (TimeSlot.start_time x));
    try reflexivity.
  exfalso. apply Ht; [| |reflexivity]; intros Hlt; by rewrite Hlt in *.
Qed.

(** The order of the result does not depend on the sorting algorithm: a
    sorted list that keeps, key by key, the catalogue order of the
    matches is the list that [search_slots] sorts. *)
Lemma search_order_determined search a l' :
  Sorted key_le l' →
  (∀ k, List.filter (λ y, bool_decide (sort_key y = k)) l'
        = List.filter (λ y, bool_decide (sort_key y = k))
            (List.filter (matches search) (dict_values (slots a)))) →
  l' = stable_sort key_lt
         (List.filter (matches search) (dict_values (slots a))).
Proof.
  apply (stable_sort_unique key_lt sort_key).
  - apply key_lt_asym.
  - apply key_lt_key.
  - apply key_lt_total.
  - apply key_le_trans.
Qed.

(** The chain of [continue] tests is the negation of the matching
    predicate. *)
Lemma skipped_matches search slot :
  skipped search slot = negb (matches search slot).
Proof.
  unfold skipped, matches, matches_with, differs, present, passes, truthy,
    in_bucket.
  destruct search as [sp lo pr sd ed tod ty li]; cbn.
  rewrite !Z.ltb_antisym.
  destruct (TimeSlot.available slot); cbn; [|reflexivity].
  destruct (sd <=? TimeSlot.date slot); cbn; [|reflexivity].
  destruct (TimeSlot.date slot <=? ed); cbn; [|reflexivity].
  destruct pr as [pr|]; cbn;
    [destruct (bool_decide (pr = "")); cbn;
     [|destruct (bool_decide (TimeSlot.provider_id slot = pr)); cbn;
       [|reflexivity]]|];
  (destruct lo as [lo|]; cbn;
    [destruct (bool_decide (lo = "")); cbn;
     [|destruct (bool_decide (TimeSlot.location_id slot = lo)); cbn;
       [|reflexivity]]|]);
  (destruct ty as [ty|]; cbn;
    [destruct (bool_decide (ty = "")); cbn;
     [|destruct (bool_decide (ty ∈ TimeSlot.appointment_types slot)); cbn;
       [|reflexivity]]|]);
  (destruct tod as [tod|]; cbn; [|reflexivity]);
  (destruct (bool_decide (tod = "")); cbn; [reflexivity|]);
  repeat (case_bool_decide; subst; cbn; try discriminate);
  repeat match goal with
         | |- context [?x <=? ?y] => destruct (x <=? y); cbn
         end; reflexivity.
Qed.

Lemma search_loop_filter search values results :
  search_loop search values results
  = results ++ List.filter (matches search) values.
Proof.
  revert results. induction values as [|slot values IH]; intros results; cbn.
  - by rewrite app_nil_r.
  - rewrite skipped_matches. destruct (matches search slot); cbn.
    + by rewrite IH, <- app_assoc.
    + apply IH.
Qed.

(** For every limit, negative ones included: the slice of the sorted
    matches. *)
Lemma search_slots_slice search a :
  search_slots search a
  = (Ok (slice_to
           (stable_sort key_lt
              (List.filter (matches search) (dict_values (slots a))))
           (AvailabilitySearch.limit search)), a).
Proof. unfold search_slots. run. by rewrite search_loop_filter. Qed.

(** What holds of the search contract.  For a request whose limit is
    not negative, [search_slots] returns, without changing the service,
    the slots whose flag [available] is set, held or not, and that pass
    every filter that is present and not empty
    (date within [start_date, end_date], provider, location, type in the
    slot's types, time-of-day bucket), sorted ascending by
    (date, start time), slots of one key in catalogue order, cut to the
    first [limit]. *)
Theorem search_slots_contract search a :
  0 ≤ AvailabilitySearch.limit search →
  let found :=
    stable_sort key_lt
      (List.filter (matches search) (dict_values (slots a))) in
  search_slots search a = (Ok (search_contract matches search a), a)
  ∧ search_contract matches search a
    = take (Z.to_nat (AvailabilitySearch.limit search)) found
  ∧ Sorted key_le (search_contract matches search a)
  ∧ (∀ slot, slot ∈ search_contract matches search a →
             slot ∈ dict_values (slots a) ∧ matches search slot = true)
  ∧ Permutation found (List.filter (matches search) (dict_values (slots a)))
  ∧ (∀ k, List.filter (λ y, bool_decide (sort_key y = k)) found
          = List.filter (λ y, bool_decide (sort_key y = k))
              (List.filter (matches search) (dict_values (slots a)))).
Proof.
  intros Hlimit found.
  assert (Hperm : Permutation found
                    (List.filter (matches search) (dict_values (slots a))))
    by apply stable_sort_Permutation.
  split; [|split; [reflexivity|split; [|split; [|split]]]].
  - rewrite search_slots_slice. unfold slice_to, search_contract.
    by rewrite (proj2 (Z.leb_le _ _) Hlimit).
  - apply Sorted_take, (stable_sort_Sorted key_lt), key_lt_asym.
  - intros slot Hin. apply subseteq_take in Hin. fold found in Hin.
    rewrite Hperm in Hin. apply list_elem_of_In, filter_In in Hin as [Hin Hm].
    split; [by apply list_elem_of_In|exact Hm].
  - exact Hperm.
  - intros k. apply (stable_sort_stable key_lt sort_key), key_lt_key.
Qed.

Lemma search_slots_contract_witness :
  0 ≤ AvailabilitySearch.limit (search_march (Some "prov-1") 1)
  ∧ search_slots (search_march (Some "prov-1") 1)
      (AppointmentService.availability_service fresh_service)
    = (Ok [slot_at "slot-0001" 10],
       AppointmentService.availability_service fresh_service).
Proof.
  assert (H : 0 ≤ AvailabilitySearch.limit (search_march (Some "prov-1") 1))
    by (vm_compute; discriminate).
  split; [exact H|].
  exact (proj1 (search_slots_contract (search_march (Some "prov-1") 1)
                  (AppointmentService.availability_service fresh_service) H)).
Defined.

(** The contract as stated fails in two more ways.  With the limit [-1]
    the slice drops the last match instead of cutting to a length; and a
    filter given as the empty string is not applied, so that slots of
    [prov-1] are returned to a request for the provider [""]. *)
Lemma search_contract_as_stated_fails :
  let a := AppointmentService.availability_service fresh_service in
  ((search_slots (search_march None (-1)) a).1 = Ok [slot_at "slot-0001" 10]
   ∧ search_contract matches_as_stated (search_march None (-1)) a = []
   ∧ (search_slots (search_march None (-1)) a).1
     ≠ Ok (search_contract matches_as_stated (search_march None (-1)) a))
  ∧ ((search_slots (search_march (Some "") 20) a).1
     = Ok [slot_at "slot-0001" 10; slot_at "slot-0002" 11]
     ∧ search_contract matches_as_stated (search_march (Some "") 20) a = []
     ∧ (search_slots (search_march (Some "") 20) a).1
       ≠ Ok (search_contract matches_as_stated (search_march (Some "") 20) a)).
Proof. vm_compute. repeat split; discriminate. Qed.

(** A hold changes no search: the tests of the loop read none of
    [held_by] and [held_until]. *)
Lemma matches_set_held search by_ until slot :
  matches search (TimeSlot.set_held by_ until slot) = matches search slot.
Proof. reflexivity. Qed.

(** C8, at the scenario.  [H1] holds the slot of 10:00 until 09:10, so
    that the slot is not available to others; a search for the slots of
    [prov-1] in March returns it all the same, first of the two, with
    the hold of [H1] on it. *)
Theorem search_returns_held_slot :
  let a := AppointmentService.availability_service hold_by_H1.2 in
  let held :=
    TimeSlot.set_held (Some "H1") (Some (clock 9 10 0)) (slot_at "slot-0001" 10) in
  hold_by_H1.1
  = Ok (SlotHold.mk "slot-0001" "H1" (clock 9 0 0) (clock 9 10 0) "active")
  ∧ dict_get "slot-0001" (slots a) = Some held
  ∧ TimeSlot.held_by held = Some "H1"
  ∧ Dt.gt (clock 9 10 0) (clock 9 1 0) = true
  ∧ search_slots (search_march (Some "prov-1") 20) a
    = (Ok [held; slot_at "slot-0002" 11], a).
Proof. vm_compute. repeat split. Qed.

End Search.

(** ** The waitlist *)

Section Waitlist.
Import WaitlistService.

Lemma add_to_waitlist_cases request entry_id now w :
  add_to_waitlist request entry_id now w
  = let entry :=
      WaitlistEntry.mk entry_id
        (WaitlistRequest.patient_id request)
        (WaitlistRequest.provider_id request)
        (WaitlistRequest.location_id request)
        (WaitlistRequest.preferred_dates request)
        (WaitlistRequest.preferred_time_of_day request)
        (WaitlistRequest.appointment_type request)
        (WaitlistRequest.urgency request)
        "waiting"
        (Z.of_nat (length (existing (WaitlistRequest.provider_id request) w)) + 1)
        now None None in
    (Ok entry, set_entries (insert entry_id entry) w).
Proof. reflexivity. Qed.

(** One step keeps every stored entry, with its position. *)
Lemma waitlist_step_position w w' entry_id position :
  waitlist_step w w' →
  has_position w entry_id position → has_position w' entry_id position.
Proof.
  unfold has_position. intros Hstep Hpos. destruct Hstep as [request id now Hfresh|id|id now].
  - rewrite add_to_waitlist_cases. cbn.
    rewrite lookup_insert_ne; [exact Hpos|].
    intros ->. by rewrite Hfresh in Hpos.
  - unfold remove_from_waitlist. run.
    destruct (entries w !! id) as [entry|] eqn:Hfound; [|exact Hpos].
    cbn. destruct (decide (id = entry_id)) as [->|Hne].
    + rewrite lookup_insert_eq. by rewrite Hfound in Hpos.
    + by rewrite lookup_insert_ne.
  - unfold notify_patient. run.
    destruct (entries w !! id) as [entry|] eqn:Hfound; [|exact Hpos].
    cbn. destruct (decide (id = entry_id)) as [->|Hne].
    + rewrite lookup_insert_eq. by rewrite Hfound in Hpos.
    + by rewrite lookup_insert_ne.
Qed.

Lemma waitlist_steps_position w w' entry_id position :
  rtc waitlist_step w w' →
  has_position w entry_id position → has_position w' entry_id position.
Proof.
  induction 1 as [|w w1 w' Hstep _ IH]; [done|].
  intros Hpos. by apply IH, (waitlist_step_position w).
Qed.

(** C9. A join returns and stores an entry whose position is one more
    than the number of entries that, at the join, are waiting for the
    same provider; and whatever joins, leaves and notifications follow,
    every entry that is stored stays stored with the position it has. *)
Theorem waitlist_position_assigned_once request entry_id now w :
  let '(r, w1) := add_to_waitlist request entry_id now w in
  (∃ entry,
     r = Ok entry
     ∧ entries w1 !! entry_id = Some entry
     ∧ WaitlistEntry.position entry
       = 1 + Z.of_nat (length (existing (WaitlistRequest.provider_id request) w)))
  ∧ (∀ w' id position,
       rtc waitlist_step w1 w' →
       has_position w1 id position → has_position w' id position)
  ∧ (∀ id position,
       entries w !! entry_id = None →
       has_position w id position → has_position w1 id position).
Proof.
  rewrite add_to_waitlist_cases. cbn zeta. split; [|split].
  - eexists. split; [reflexivity|]. split; [apply lookup_insert_eq|].
    cbn. lia.
  - intros w' id position. apply waitlist_steps_position.
  - intros id position Hfresh.
    apply (waitlist_step_position w
             (add_to_waitlist request entry_id now w).2).
    by constructor.
Qed.

(** [B] joined second; [A] leaves and [C] joins: [B] keeps position 2
    (which [C] receives too, one entry being waiting when [C] joins). *)
Lemma waitlist_position_assigned_once_witness :
  let left := (remove_from_waitlist "wl-a" waitlist_AB).2 in
  let joined :=
    (add_to_waitlist (join_request "C" "prov-1") "wl-c" (clock 9 3 0) left).2 in
  has_position waitlist_AB "wl-b" 2
  ∧ has_position joined "wl-b" 2
  ∧ has_position joined "wl-a" 1
  ∧ has_position joined "wl-c" 2.
Proof.
  intros left joined.
  pose proof (waitlist_position_assigned_once (join_request "B" "prov-1")
                "wl-b" (clock 9 1 0) waitlist_A) as T.
  rewrite add_to_waitlist_cases in T. cbv zeta in T.
  destruct T as (_ & T & _).
  assert (Hsteps : rtc waitlist_step waitlist_AB joined).
  { eapply rtc_l; [apply (step_leave _ "wl-a")|].
    eapply rtc_l; [|apply rtc_refl].
    apply (step_join _ (join_request "C" "prov-1") "wl-c" (clock 9 3 0)).
    vm_compute. reflexivity. }
  assert (HB : has_position waitlist_AB "wl-b" 2) by (vm_compute; reflexivity).
  assert (HA : has_position waitlist_AB "wl-a" 1) by (vm_compute; reflexivity).
  split; [exact HB|]. split; [exact (T joined "wl-b" 2 Hsteps HB)|].
  split; [exact (T joined "wl-a" 1 Hsteps HA)|].
  vm_compute. reflexivity.
Defined.

End Waitlist.

(** * Further properties of the services *)

(** ** The cache dictionary *)

Section CacheDictionary.
Context {V : Type}.
Implicit Types (cache : gmap string (CacheService.Entry.t V)) (v : V).

(** A value set at [now] for [ttl] seconds is what [get] returns, the
    cache unchanged, until the [ttl] has elapsed; from then on [get]
    returns [None] and evicts the entry. *)
Theorem cache_set_get key v ttl now expires cache :
  Dt.add_seconds now ttl = Ok expires →
  let stored := <[key := CacheService.Entry.mk v expires]> cache in
  CacheService.set key v ttl now cache = (Ok tt, stored)
  ∧ (∀ now2,
       Dt.valid_time (Dt.time_of now2) →
       Dt.to_us now2 < Dt.to_us now + ttl * Dt.US_PER_SECOND →
       CacheService.get key now2 stored = (Ok (Some v), stored))
  ∧ (∀ now2,
       Dt.valid_time (Dt.time_of now2) →
       Dt.to_us now + ttl * Dt.US_PER_SECOND ≤ Dt.to_us now2 →
       CacheService.get key now2 stored = (Ok None, delete key cache)).
Proof.
  intros Hexp stored.
  destruct (add_seconds_Ok _ _ _ Hexp) as [[_ Hvalid] Hus].
  split; [|split].
  - unfold CacheService.set. run. by rewrite Hexp.
  - intros now2 Hnow2 Hbefore. unfold CacheService.get. run.
    unfold stored. rewrite lookup_insert_eq. cbn.
    rewrite gt_to_us by assumption.
    by rewrite (proj2 (Z.ltb_lt _ _)) by lia.
  - intros now2 Hnow2 Hafter. unfold CacheService.get. run.
    unfold stored. rewrite lookup_insert_eq. cbn.
    rewrite gt_to_us by assumption.
    rewrite (proj2 (Z.ltb_ge _ _)) by lia.
    by rewrite delete_insert_eq.
Qed.

(** [get] never raises and never returns a value whose expiry has
    passed; after a miss the key is absent; and every other key is as it
    was. *)
Theorem cache_get_sound key now cache :
  let '(r, cache') := CacheService.get key now cache in
  (∀ k, k ≠ key → cache' !! k = cache !! k)
  ∧ match r with
    | Ok (Some v) =>
        cache' = cache
        ∧ ∃ e, cache !! key = Some e
               ∧ CacheService.Entry.value e = v
               ∧ Dt.gt (CacheService.Entry.expires_at e) now = true
    | Ok None => cache' !! key = None
    | Raise _ => False
    end.
Proof.
  unfold CacheService.get. run.
  destruct (cache !! key) as [e|] eqn:Hkey; [|done].
  destruct (Dt.gt _ _) eqn:Hgt.
  - split; [done|]. split; [done|]. by exists e.
  - cbn. split; [|apply lookup_delete_eq].
    intros k Hk. by apply lookup_delete_ne.
Qed.

End CacheDictionary.

Lemma cache_set_get_witness :
  let cache : gmap string (CacheService.Entry.t nat) := ∅ in
  let stored := {[ "slots:prov-1" := CacheService.Entry.mk 6%nat (clock 9 5 0) ]} in
  Dt.add_seconds (clock 9 0 0) 300 = Ok (clock 9 5 0)
  ∧ CacheService.set "slots:prov-1" 6%nat 300 (clock 9 0 0) cache = (Ok tt, stored)
  ∧ CacheService.get "slots:prov-1" (clock 9 4 59) stored = (Ok (Some 6%nat), stored)
  ∧ CacheService.get "slots:prov-1" (clock 9 5 0) stored = (Ok None, ∅).
Proof.
  intros cache stored.
  assert (H : Dt.add_seconds (clock 9 0 0) 300 = Ok (clock 9 5 0))
    by (vm_compute; reflexivity).
  destruct (cache_set_get "slots:prov-1" 6%nat 300 (clock 9 0 0) (clock 9 5 0)
              cache H) as (Hset & Hhit & Hmiss).
  split; [exact H|]. split; [exact Hset|]. split.
  - apply (Hhit (clock 9 4 59)).
    + unfold Dt.valid_time. cbn. lia.
    + vm_compute. reflexivity.
  - apply (Hmiss (clock 9 5 0)).
    + unfold Dt.valid_time. cbn. lia.
    + vm_compute. discriminate.
Defined.

(** ** More on the lock table *)

Section LockTable.
Import CacheService.

(** [release_lock] asks neither who holds the lock nor whether it has
    expired: after it, whatever record was stored, the key can be
    acquired at once.  Releasing a key that has no record changes
    nothing. *)
Theorem release_lock_frees key ttl now expires c :
  Dt.add_seconds now ttl = Ok expires →
  acquire_lock key ttl now (release_lock key c).2
  = (Ok true, set_locks (insert key (mk_lock now expires)) c)
  ∧ (locks c !! key = None → release_lock key c = (Ok tt, c)).
Proof.
  intros Hexp. rewrite release_lock_delete. cbn [snd]. split.
  - rewrite (acquire_lock_reclaimable _ _ _ _ _ Hexp).
    unfold reclaimable, set_locks. cbn [locks].
    rewrite lookup_delete_eq. by rewrite insert_delete_eq.
  - intros Hnone. destruct c as [l]. unfold set_locks. cbn in *.
    by rewrite delete_id.
Qed.

(** [extend_lock] returns [False] and changes nothing when the key has
    no record.  When it has one, expired or not, the record keeps its
    [acquired_at], expires at [now + ttl], and until then keeps every
    acquire of the key out. *)
Theorem extend_lock_semantics key ttl now c :
  (locks c !! key = None → extend_lock key ttl now c = (Ok false, c))
  ∧ (∀ lock expires,
       locks c !! key = Some lock →
       Dt.add_seconds now ttl = Ok expires →
       let extended :=
         set_locks (insert key (mk_lock (acquired_at lock) expires)) c in
       extend_lock key ttl now c = (Ok true, extended)
       ∧ ∀ now2 ttl2,
           Dt.valid_time (Dt.time_of now2) →
           Dt.to_us now2 < Dt.to_us now + ttl * Dt.US_PER_SECOND →
           acquire_lock key ttl2 now2 extended = (Ok false, extended)).
Proof.
  split.
  - intros Hnone. unfold extend_lock. run. by rewrite Hnone.
  - intros lock expires Hlock Hexp extended.
    split; [unfold extend_lock; run; by rewrite Hlock, Hexp|].
    destruct (add_seconds_Ok _ _ _ Hexp) as [[_ Hvalid] Hus].
    intros now2 ttl2 Hnow2 Hbefore.
    apply (acquire_lock_held _ _ _ (mk_lock (acquired_at lock) expires)).
    + unfold extended, set_locks. cbn [locks]. apply lookup_insert_eq.
    + cbn [expires_at]. rewrite gt_to_us by assumption.
      apply Z.ltb_lt. lia.
Qed.

(** The three lock methods, called on a key, leave the record of every
    other key as it was, whatever their outcome. *)
Theorem lock_methods_frame key other ttl now c :
  other ≠ key →
  locks (acquire_lock key ttl now c).2 !! other = locks c !! other
  ∧ locks (release_lock key c).2 !! other = locks c !! other
  ∧ locks (extend_lock key ttl now c).2 !! other = locks c !! other.
Proof.
  intros Hne. split; [|split].
  - unfold acquire_lock, install. run.
    destruct (locks c !! key) as [lock|];
      [destruct (Dt.gt _ _); [reflexivity|]|];
      destruct (Dt.add_seconds now ttl); cbn;
      rewrite ?lookup_insert_ne, ?lookup_delete_ne by done; reflexivity.
  - rewrite release_lock_delete. cbn. by rewrite lookup_delete_ne.
  - unfold extend_lock. run.
    destruct (locks c !! key) as [lock|]; [|reflexivity].
    destruct (Dt.add_seconds now ttl); cbn;
      rewrite ?lookup_insert_ne by done; reflexivity.
Qed.

End LockTable.

Lemma release_lock_frees_witness :
  let key := "lock:slot:prov-1:2025-03-10:10:00:00" in
  let held := CacheService.mk
                {[ key := CacheService.mk_lock (clock 9 0 0) (clock 9 0 30) ]} in
  Dt.add_seconds (clock 9 0 1) 30 = Ok (clock 9 0 31)
  ∧ CacheService.acquire_lock key 30 (clock 9 0 1) held = (Ok false, held)
  ∧ CacheService.acquire_lock key 30 (clock 9 0 1)
      (CacheService.release_lock key held).2
    = (Ok true,
       CacheService.mk
         {[ key := CacheService.mk_lock (clock 9 0 1) (clock 9 0 31) ]}).
Proof.
  intros key held.
  assert (H : Dt.add_seconds (clock 9 0 1) 30 = Ok (clock 9 0 31))
    by (vm_compute; reflexivity).
  split; [exact H|]. split; [vm_compute; reflexivity|].
  exact (proj1 (release_lock_frees key 30 (clock 9 0 1) (clock 9 0 31) held H)).
Defined.

Lemma extend_lock_semantics_witness :
  let key := "lock:slot:prov-1:2025-03-10:10:00:00" in
  let stale := CacheService.mk_lock (clock 9 0 0) (clock 9 0 30) in
  let held := CacheService.mk {[ key := stale ]} in
  let extended :=
    CacheService.mk
      {[ key := CacheService.mk_lock (clock 9 0 0) (clock 9 10 30) ]} in
  Dt.gt (CacheService.expires_at stale) (clock 9 10 0) = false
  ∧ CacheService.extend_lock key 30 (clock 9 10 0) held = (Ok true, extended)
  ∧ CacheService.acquire_lock key 30 (clock 9 10 29) extended
    = (Ok false, extended).
Proof.
  intros key stale held extended.
  split; [vm_compute; reflexivity|].
  destruct (proj2 (extend_lock_semantics key 30 (clock 9 10 0) held)
              stale (clock 9 10 30)) as [Hext Hkeep].
  - vm_compute. reflexivity.
  - vm_compute. reflexivity.
  - split; [exact Hext|]. apply (Hkeep (clock 9 10 29) 30).
    + unfold Dt.valid_time. cbn. lia.
    + vm_compute. reflexivity.
Defined.

Lemma lock_methods_frame_witness :
  let c := CacheService.mk
             {[ "lock:a" := CacheService.mk_lock (clock 9 0 0) (clock 9 0 30) ]} in
  "lock:a" ≠ "lock:b"
  ∧ CacheService.locks (CacheService.acquire_lock "lock:b" 30 (clock 9 0 1) c).2
      !! "lock:a"
    = Some (CacheService.mk_lock (clock 9 0 0) (clock 9 0 30)).
Proof.
  intros c.
  assert (H : "lock:a" ≠ "lock:b") by discriminate.
  split; [exact H|].
  exact (proj1 (lock_methods_frame "lock:b" "lock:a" 30 (clock 9 0 1) c H)).
Defined.

(** ** The catalogue under the marking loops *)

Section Catalogue.
Import AvailabilityService.

Lemma at_key_inj p d t p' d' t' slot :
  at_key p d t slot = true → at_key p' d' t' slot = true →
  (p, d, t) = (p', d', t').
Proof.
  unfold at_key. rewrite !andb_true_iff, !bool_decide_eq_true.
  intros [[<- <-] <-] [[<- <-] <-]. reflexivity.
Qed.

Lemma first_available_has_slot p d t l :
  first_available p d t l = true → has_slot p d t l = true.
Proof.
  unfold has_slot. induction l as [|[k slot] l IH]; cbn; [done|].
  destruct (at_key p d t slot); cbn; [done|exact IH].
Qed.

Lemma has_slot_mark_first b p d t p' d' t' l :
  has_slot p d t (mark_first b p' d' t' l) = has_slot p d t l.
Proof.
  unfold has_slot. induction l as [|[k slot] l IH]; cbn; [done|].
  destruct (at_key p' d' t' slot); cbn; [done|by rewrite IH].
Qed.

(** After the loop the key answers as it was marked, if it has a slot. *)
Lemma first_available_mark_first_same b p d t l :
  has_slot p d t l = true →
  first_available p d t (mark_first b p d t l) = b.
Proof.
  unfold has_slot. induction l as [|[k slot] l IH]; cbn; [done|].
  destruct (at_key p d t slot) eqn:Hkey; cbn.
  - intros _. by rewrite at_key_set_available, Hkey.
  - intros Hl. by rewrite Hkey, IH.
Qed.

(** Every other key answers as before. *)
Lemma first_available_mark_first_other b p d t p' d' t' l :
  (p, d, t) ≠ (p', d', t') →
  first_available p d t (mark_first b p' d' t' l) = first_available p d t l.
Proof.
  intros Hne. induction l as [|[k slot] l IH]; cbn; [done|].
  destruct (at_key p' d' t' slot) eqn:Hkey'; cbn.
  - rewrite at_key_set_available.
    destruct (at_key p d t slot) eqn:Hkey; [|done].
    destruct Hne. by apply (at_key_inj _ _ _ _ _ _ slot).
  - by rewrite IH.
Qed.

Lemma mark_first_no_slot b p d t l :
  has_slot p d t l = false → mark_first b p d t l = l.
Proof.
  unfold has_slot. induction l as [|[k slot] l IH]; cbn; [done|].
  destruct (at_key p d t slot); cbn; [done|]. intros Hl. by rewrite IH.
Qed.

Lemma catalogue_identity_mark_first b p d t l :
  catalogue_identity (mark_first b p d t l) = catalogue_identity l.
Proof.
  unfold catalogue_identity.
  induction l as [|[k slot] l IH]; cbn; [done|].
  destruct (at_key p d t slot); cbn; [done|by rewrite IH].
Qed.

Lemma catalogue_identity_set_held by_ until slot_id l :
  catalogue_identity (dict_update (TimeSlot.set_held by_ until) slot_id l)
  = catalogue_identity l.
Proof.
  unfold catalogue_identity.
  induction l as [|[k slot] l IH]; cbn; [done|].
  case_bool_decide; cbn; [done|by rewrite IH].
Qed.

Lemma dict_get_update {V} (f : V → V) key (l : odict V) :
  dict_get key (dict_update f key l) = f <$> dict_get key l.
Proof.
  induction l as [|[k v] l IH]; cbn; [done|].
  case_bool_decide as Hk; cbn; rewrite ?bool_decide_eq_true_2 by done;
    [done|]. by rewrite bool_decide_eq_false_2.
Qed.

Lemma dict_update_update {V} (f g : V → V) key (l : odict V) :
  dict_update g key (dict_update f key l) = dict_update (g ∘ f) key l.
Proof.
  induction l as [|[k v] l IH]; cbn; [done|].
  case_bool_decide as Hk; cbn.
  - by rewrite bool_decide_eq_true_2.
  - by rewrite bool_decide_eq_false_2, IH.
Qed.

Lemma dict_update_id {V} (f : V → V) key v (l : odict V) :
  dict_get key l = Some v → f v = v → dict_update f key l = l.
Proof.
  induction l as [|[k w] l IH]; cbn; [done|].
  case_bool_decide as Hk.
  - intros [= ->] ->. done.
  - intros Hget Hf. by rewrite IH.
Qed.

End Catalogue.

(** ** More on booking *)

Section BookingMore.
Import AppointmentService.

Lemma set_cache_cache s : set_cache (cache s) s = s.
Proof. by destruct s. Qed.

(** While an unexpired lock record exists for the key of the request,
    [create_appointment] raises "Slot is currently being booked by
    another user" and the service is exactly as before: no lock, slot or
    appointment is touched. *)
Theorem create_appointment_contended request appointment_id now lock s :
  CacheService.locks (cache s) !! lock_key request = Some lock →
  Dt.gt (CacheService.expires_at lock) now = true →
  create_appointment request appointment_id now s = (Raise contended, s)
  ∧ error_kind contended = Some SlotContended.
Proof.
  intros Hlock Hgt. split; [|reflexivity].
  rewrite create_appointment_cases.
  rewrite (acquire_lock_held _ _ _ _ _ Hlock Hgt).
  by rewrite set_cache_cache.
Qed.

Lemma acquire_lock_stale key ttl now lock c :
  CacheService.locks c !! key = Some lock →
  Dt.gt (CacheService.expires_at lock) now = false →
  CacheService.acquire_lock key ttl now c
  = CacheService.acquire_lock key ttl now
      (CacheService.set_locks (delete key) c).
Proof.
  intros Hlock Hgt.
  unfold CacheService.acquire_lock, CacheService.set_locks. run.
  cbn [CacheService.locks]. by rewrite Hlock, Hgt, lookup_delete_eq.
Qed.

(** A lock record left behind whose expiry has passed does not count:
    the call behaves, result and final state, as on the service without
    the record. *)
Theorem create_appointment_reclaims_stale_lock
    request appointment_id now lock s :
  CacheService.locks (cache s) !! lock_key request = Some lock →
  Dt.gt (CacheService.expires_at lock) now = false →
  create_appointment request appointment_id now s
  = create_appointment request appointment_id now
      (set_cache (CacheService.set_locks (delete (lock_key request)) (cache s)) s).
Proof.
  intros Hlock Hgt. rewrite !create_appointment_cases.
  destruct s as [av ca ap]. cbn [cache set_cache availability_service appointments] in *.
  by rewrite (acquire_lock_stale _ _ _ _ _ Hlock Hgt).
Qed.

(** Whatever its outcome, a booking changes the answer of
    [is_slot_available] for no key other than its own, changes no
    appointment stored under another identifier and no hold. *)
Theorem create_appointment_frame request appointment_id now s key id' :
  key ≠ request_key request →
  id' ≠ appointment_id →
  let s' := (create_appointment request appointment_id now s).2 in
  available_at key s' = available_at key s
  ∧ appointments s' !! id' = appointments s !! id'
  ∧ AvailabilityService.holds (availability_service s')
    = AvailabilityService.holds (availability_service s).
Proof.
  intros Hkey Hid. destruct key as [[p d] t]. cbn zeta.
  rewrite create_appointment_cases. unfold available_at.
  destruct s as [av ca ap]. cbn [cache availability_service appointments].
  destruct (CacheService.acquire_lock _ _ _ _) as [[[|]|e] c];
    cbn; try (repeat split; reflexivity).
  destruct (AvailabilityService.first_available
              (AppointmentCreate.provider_id request) _ _ _); cbn;
    try (repeat split; reflexivity).
  destruct (Dt.add_minutes _ _); cbn; try (repeat split; reflexivity).
  split; [|split; [|done]].
  - by apply first_available_mark_first_other.
  - by rewrite lookup_insert_ne.
Qed.

End BookingMore.

Lemma create_appointment_contended_witness :
  let request := request_at 10 "R2" in
  let lock := CacheService.mk_lock (clock 9 0 0) (clock 9 0 30) in
  let busy :=
    AppointmentService.set_cache
      (CacheService.mk {[ AppointmentService.lock_key request := lock ]})
      fresh_service in
  AppointmentService.create_appointment request "apt-2" (clock 9 0 10) busy
  = (Raise contended, busy).
Proof.
  intros request lock busy.
  refine (proj1 (create_appointment_contended request "apt-2" (clock 9 0 10)
                   lock busy _ _)).
  - vm_compute. reflexivity.
  - vm_compute. reflexivity.
Defined.

Lemma create_appointment_reclaims_stale_lock_witness :
  let request := request_at 10 "R2" in
  let lock := CacheService.mk_lock (clock 9 0 0) (clock 9 0 30) in
  let stale :=
    AppointmentService.set_cache
      (CacheService.mk {[ AppointmentService.lock_key request := lock ]})
      fresh_service in
  Dt.gt (CacheService.expires_at lock) (clock 9 0 30) = false
  ∧ AppointmentService.create_appointment request "apt-2" (clock 9 0 30) stale
    = AppointmentService.create_appointment request "apt-2" (clock 9 0 30)
        fresh_service.
Proof.
  intros request lock stale.
  assert (H : Dt.gt (CacheService.expires_at lock) (clock 9 0 30) = false)
    by (vm_compute; reflexivity).
  split; [exact H|].
  refine (eq_trans (create_appointment_reclaims_stale_lock request "apt-2"
                      (clock 9 0 30) lock stale _ H) _).
  - vm_compute. reflexivity.
  - vm_compute. reflexivity.
Defined.

Lemma create_appointment_frame_witness :
  let s' := (AppointmentService.create_appointment (request_at 10 "R1")
               "apt-1" (clock 9 0 0) fresh_service).2 in
  available_at ("prov-1", 739320, Dt.mk_time 11 0 0 0) s' = true
  ∧ available_at ("prov-1", 739320, Dt.mk_time 10 0 0 0) s' = false.
Proof.
  intros s'.
  destruct (create_appointment_frame (request_at 10 "R1") "apt-1"
              (clock 9 0 0) fresh_service
              ("prov-1", 739320, Dt.mk_time 11 0 0 0) "apt-0")
    as (Hav & _ & _).
  - vm_compute. discriminate.
  - discriminate.
  - split; [|vm_compute; reflexivity].
    fold s' in Hav. rewrite Hav. vm_compute. reflexivity.
Defined.

(** ** Cancelling and rescheduling, further *)

Section CancelReschedule.
Import AppointmentService.

(** The exits of [cancel_appointment], one by one. *)
Lemma cancel_appointment_cases appointment_id reason now s :
  cancel_appointment appointment_id reason now s
  = match appointments s !! appointment_id with
    | None => (Raise not_found, s)
    | Some a =>
        if bool_decide (Appointment.status a = CANCELLED)
        then (Raise already_cancelled, s)
        else
          (Ok tt,
           mk (AvailabilityService.set_slots
                 (AvailabilityService.mark_first true
                    (Appointment.provider_id a)
                    (Dt.date_of (Appointment.scheduled_time a))
                    (Dt.time_of (Appointment.scheduled_time a)))
                 (availability_service s))
              (cache s)
              (<[appointment_id := cancelled reason now a]> (appointments s)))
    end.
Proof.
  destruct (appointments s !! appointment_id) as [a|] eqn:Hfound.
  - case_bool_decide as Hstatus.
    + unfold cancel_appointment. run. rewrite Hfound.
      by rewrite bool_decide_eq_true_2.
    + by apply cancel_appointment_Ok.
  - unfold cancel_appointment. run. by rewrite Hfound.
Qed.

(** The guard of [cancel_appointment] reads the stored status and
    nothing else.  On a stored reservation that is not cancelled the
    call returns and stores the status [CANCELLED] with the timestamp
    and the reason, and a cancellation that follows at once fails, the
    state invalid, and changes nothing; on one stored as cancelled it
    fails so.  The refusal does not last: [check_in] and [complete],
    which have no guard, overwrite the status, and after either the
    cancellation returns again, whatever the status was before. *)
Theorem cancel_appointment_guard appointment_id reason now a s :
  appointments s !! appointment_id = Some a →
  (Appointment.status a = CANCELLED →
   cancel_appointment appointment_id reason now s
   = (Raise already_cancelled, s))
  ∧ (Appointment.status a ≠ CANCELLED →
     let '(r, s1) := cancel_appointment appointment_id reason now s in
     r = Ok tt
     ∧ appointments s1 !! appointment_id = Some (cancelled reason now a)
     ∧ Appointment.status (cancelled reason now a) = CANCELLED
     ∧ Appointment.cancelled_at (cancelled reason now a) = Some now
     ∧ Appointment.cancellation_reason (cancelled reason now a) = reason
     ∧ (∀ reason2 now2,
          cancel_appointment appointment_id reason2 now2 s1
          = (Raise already_cancelled, s1)))
  ∧ (∀ now2 reason3 now3,
       let s2 := (check_in appointment_id now2 s).2 in
       let '(r, s3) := cancel_appointment appointment_id reason3 now3 s2 in
       r = Ok tt
       ∧ appointments s3 !! appointment_id
         = Some (cancelled reason3 now3 (checked_in now2 a)))
  ∧ (∀ notes now2 reason3 now3,
       let s2 := (complete appointment_id notes now2 s).2 in
       let '(r, s3) := cancel_appointment appointment_id reason3 now3 s2 in
       r = Ok tt
       ∧ appointments s3 !! appointment_id
         = Some (cancelled reason3 now3 (completed notes now2 a)))
  ∧ error_kind already_cancelled = Some InvalidState.
Proof.
  intros Hfound. split; [|split; [|split; [|split; [|reflexivity]]]].
  - intros Hstatus. rewrite cancel_appointment_cases, Hfound.
    by rewrite bool_decide_eq_true_2.
  - intros Hstatus. rewrite cancel_appointment_cases, Hfound.
    rewrite bool_decide_eq_false_2 by done.
    repeat split; [apply lookup_insert_eq|].
    intros reason2 now2. rewrite cancel_appointment_cases.
    cbn [appointments]. by rewrite lookup_insert_eq.
  - intros now2 reason3 now3. cbn zeta.
    rewrite check_in_cases, Hfound. cbn [snd].
    rewrite cancel_appointment_cases. unfold set_appointments.
    cbn [appointments]. rewrite lookup_insert_eq.
    rewrite bool_decide_eq_false_2 by discriminate.
    split; [reflexivity|]. cbn [appointments]. apply lookup_insert_eq.
  - intros notes now2 reason3 now3. cbn zeta.
    rewrite complete_cases, Hfound. cbn [snd].
    rewrite cancel_appointment_cases. unfold set_appointments.
    cbn [appointments]. rewrite lookup_insert_eq.
    rewrite bool_decide_eq_false_2
      by (unfold completed; destruct (truthy notes); discriminate).
    split; [reflexivity|]. cbn [appointments]. apply lookup_insert_eq.
Qed.

(** Cancelling frees the slot of the time the reservation has now (the
    time of its last reschedule): the key answers available afterwards
    if the catalogue has a slot for it, the catalogue is untouched if it
    has none, and every other key answers as before. *)
Theorem cancel_appointment_frees_slot appointment_id reason now a s :
  appointments s !! appointment_id = Some a →
  Appointment.status a ≠ CANCELLED →
  let s1 := (cancel_appointment appointment_id reason now s).2 in
  let slots := AvailabilityService.slots (availability_service s) in
  (has_slot (Appointment.provider_id a)
     (Dt.date_of (Appointment.scheduled_time a))
     (Dt.time_of (Appointment.scheduled_time a)) slots = true →
   available_at (appointment_key a) s1 = true)
  ∧ (has_slot (Appointment.provider_id a)
       (Dt.date_of (Appointment.scheduled_time a))
       (Dt.time_of (Appointment.scheduled_time a)) slots = false →
     availability_service s1 = availability_service s)
  ∧ (∀ key, key ≠ appointment_key a →
            available_at key s1 = available_at key s).
Proof.
  intros Hfound Hstatus. cbn zeta.
  rewrite cancel_appointment_cases, Hfound.
  rewrite bool_decide_eq_false_2 by done.
  unfold available_at, appointment_key. cbn. split; [|split].
  - apply first_available_mark_first_same.
  - intros Hnone. unfold AvailabilityService.set_slots.
    rewrite mark_first_no_slot by done.
    by destruct (availability_service s).
  - intros [[p d] t] Hne. cbn. by apply first_available_mark_first_other.
Qed.

(** A successful reschedule moves the booking.  The appointment is
    stored with the new time; the new key answers unavailable; the old
    key, if it differs and the catalogue has a slot for it, answers
    available; every third key answers as before. *)
Theorem update_appointment_moves_booking appointment_id update now a s :
  appointments s !! appointment_id = Some a →
  Appointment.status a ≠ CANCELLED →
  reschedules update = true →
  let destination :=
    (Appointment.provider_id a, new_date update a, new_time update a) in
  available_at destination s = true →
  let '(r, s') := update_appointment appointment_id update now s in
  (∃ a', r = Ok a'
         ∧ appointments s' !! appointment_id = Some a'
         ∧ Appointment.scheduled_time a'
           = Dt.combine (new_date update a) (new_time update a)
         ∧ appointment_key a' = destination)
  ∧ available_at destination s' = false
  ∧ (appointment_key a ≠ destination →
     has_slot (Appointment.provider_id a)
       (Dt.date_of (Appointment.scheduled_time a))
       (Dt.time_of (Appointment.scheduled_time a))
       (AvailabilityService.slots (availability_service s)) = true →
     available_at (appointment_key a) s' = true)
  ∧ (∀ key, key ≠ appointment_key a → key ≠ destination →
            available_at key s' = available_at key s).
Proof.
  intros Hfound Hstatus Hres destination Hav.
  rewrite update_appointment_cases, Hfound, Hres.
  rewrite bool_decide_eq_false_2 by done.
  unfold available_at in Hav. cbn in Hav. rewrite Hav. cbn zeta.
  destruct (edited_frame update now
              (Appointment.set_scheduled_time
                 (Dt.combine (new_date update a) (new_time update a)) a))
    as (_ & _ & Hp & _ & Ht & _).
  split; [|split; [|split]].
  - eexists. split; [reflexivity|]. split; [apply lookup_insert_eq|].
    split; [exact Ht|]. unfold appointment_key, destination.
    rewrite Ht, Hp. reflexivity.
  - unfold available_at, destination. cbn.
    apply first_available_mark_first_same.
    rewrite has_slot_mark_first. by apply first_available_has_slot.
  - intros Hne Hslot. unfold available_at, appointment_key. cbn.
    rewrite first_available_mark_first_other by exact Hne.
    by apply first_available_mark_first_same.
  - intros [[p d] t] Hold Hnew. unfold available_at. cbn.
    rewrite first_available_mark_first_other by exact Hnew.
    by apply first_available_mark_first_other.
Qed.

End CancelReschedule.

(** [apt-1] is cancelled at 09:05; a cancellation at 09:06 is refused;
    after a check-in at 09:07 the cancellation of 09:08 returns. *)
Lemma cancel_appointment_guard_witness :
  let s1 := (AppointmentService.cancel_appointment "apt-1" None (clock 9 5 0)
               booked_service).2 in
  let s2 := (AppointmentService.check_in "apt-1" (clock 9 7 0) s1).2 in
  AppointmentService.appointments booked_service !! "apt-1" = Some apt_1
  ∧ AppointmentService.cancel_appointment "apt-1" (Some "again") (clock 9 6 0) s1
    = (Raise already_cancelled, s1)
  ∧ (AppointmentService.cancel_appointment "apt-1" (Some "again") (clock 9 8 0)
       s2).1 = Ok tt.
Proof.
  intros s1 s2.
  assert (H : AppointmentService.appointments booked_service !! "apt-1"
              = Some apt_1) by (vm_compute; reflexivity).
  split; [exact H|].
  pose proof (cancel_appointment_guard "apt-1" None (clock 9 5 0) apt_1
                booked_service H) as (_ & T & _).
  assert (H1 : AppointmentService.appointments s1 !! "apt-1"
               = Some (cancelled None (clock 9 5 0) apt_1))
    by (vm_compute; reflexivity).
  pose proof (cancel_appointment_guard "apt-1" (Some "again") (clock 9 6 0)
                (cancelled None (clock 9 5 0) apt_1) s1 H1)
    as (Hrefused & _ & Hrevived & _).
  split; [apply Hrefused; reflexivity|].
  specialize (Hrevived (clock 9 7 0) (Some "again") (clock 9 8 0)).
  cbn zeta in Hrevived. fold s2 in Hrevived.
  destruct (AppointmentService.cancel_appointment "apt-1" (Some "again")
              (clock 9 8 0) s2) as [r s3].
  exact (proj1 Hrevived).
Defined.

Lemma cancel_appointment_frees_slot_witness :
  let s1 := (AppointmentService.cancel_appointment "apt-1" None (clock 9 5 0)
               booked_service).2 in
  available_at (appointment_key apt_1) booked_service = false
  ∧ available_at (appointment_key apt_1) s1 = true.
Proof.
  intros s1. split; [vm_compute; reflexivity|].
  refine (proj1 (cancel_appointment_frees_slot "apt-1" None (clock 9 5 0) apt_1
                   booked_service _ _) _).
  - vm_compute. reflexivity.
  - discriminate.
  - vm_compute. reflexivity.
Defined.

Lemma update_appointment_moves_booking_witness :
  let s' := (AppointmentService.update_appointment "apt-1" to_11h (clock 9 5 0)
               booked_service).2 in
  available_at ("prov-1", 739320, Dt.mk_time 11 0 0 0) s' = false
  ∧ available_at ("prov-1", 739320, Dt.mk_time 10 0 0 0) s' = true.
Proof.
  intros s'.
  pose proof (update_appointment_moves_booking "apt-1" to_11h (clock 9 5 0)
                apt_1 booked_service) as T.
  cbv zeta in T. fold s' in T.
  destruct (AppointmentService.update_appointment "apt-1" to_11h (clock 9 5 0)
              booked_service) as [r s2] eqn:E.
  destruct T as (_ & Hnew & Hold & _).
  - vm_compute. reflexivity.
  - discriminate.
  - vm_compute. reflexivity.
  - vm_compute. reflexivity.
  - split; [exact Hnew|]. apply Hold.
    + vm_compute. discriminate.
    + vm_compute. reflexivity.
Defined.

(** ** What every call keeps *)

Section Invariants.
Import AppointmentService.

Lemma dict_get_catalogue_identity key l :
  dict_get key (catalogue_identity l) = identity_of <$> dict_get key l.
Proof.
  unfold catalogue_identity.
  induction l as [|[k slot] l IH]; cbn; [done|].
  case_bool_decide; [done|exact IH].
Qed.

Lemma step_catalogue_identity s s' :
  step s s' →
  catalogue_identity (AvailabilityService.slots (availability_service s'))
  = catalogue_identity (AvailabilityService.slots (availability_service s)).
Proof.
  intros Hstep. destruct Hstep.
  - rewrite create_appointment_cases.
    destruct (CacheService.acquire_lock _ _ _ _) as [[[|]|e] c]; cbn;
      try reflexivity.
    destruct (AvailabilityService.first_available _ _ _ _); cbn;
      try reflexivity.
    destruct (Dt.add_minutes _ _); cbn; try reflexivity.
    apply catalogue_identity_mark_first.
  - rewrite update_appointment_cases.
    destruct (appointments s !! appointment_id) as [a|]; [|reflexivity].
    destruct (bool_decide _); [reflexivity|].
    destruct (reschedules update); [|reflexivity].
    destruct (AvailabilityService.first_available _ _ _ _); [|reflexivity].
    cbn. by rewrite !catalogue_identity_mark_first.
  - rewrite cancel_appointment_cases.
    destruct (appointments s !! appointment_id) as [a|]; [|reflexivity].
    destruct (bool_decide _); [reflexivity|].
    cbn. apply catalogue_identity_mark_first.
  - rewrite check_in_cases.
    by destruct (appointments s !! appointment_id).
  - rewrite complete_cases.
    by destruct (appointments s !! appointment_id).
  - unfold availability, AvailabilityService.hold_slot. run.
    destruct (dict_get slot_id _) as [slot|]; [|reflexivity].
    destruct (TimeSlot.available slot); cbn; [|reflexivity].
    destruct (Dt.add_minutes now duration_minutes); cbn; [|reflexivity].
    apply catalogue_identity_set_held.
  - unfold availability, AvailabilityService.release_hold. run.
    destruct (dict_get slot_id _) as [slot|]; [|reflexivity].
    case_bool_decide; cbn; [|reflexivity].
    apply catalogue_identity_set_held.
Qed.

(** No call adds, removes, reorders or re-keys a slot, or changes
    anything of a slot but [available], [held_by] and [held_until]:
    along every sequence of calls the catalogue keeps its identity. *)
Theorem catalogue_identity_preserved s s' :
  rtc step s s' →
  catalogue_identity (AvailabilityService.slots (availability_service s'))
  = catalogue_identity (AvailabilityService.slots (availability_service s)).
Proof.
  induction 1 as [|s s1 s' Hstep _ IH]; [reflexivity|].
  rewrite IH. by apply step_catalogue_identity.
Qed.

Lemma step_appointment_ids s s' :
  step s s' →
  (∀ k a, appointments s !! k = Some a → Appointment.id a = k) →
  ∀ k a, appointments s' !! k = Some a → Appointment.id a = k.
Proof.
  intros Hstep Hinv k a'. destruct Hstep.
  - rewrite create_appointment_cases.
    destruct (CacheService.acquire_lock _ _ _ _) as [[[|]|e] c]; cbn;
      try apply Hinv.
    destruct (AvailabilityService.first_available _ _ _ _); cbn;
      try apply Hinv.
    destruct (Dt.add_minutes _ _); cbn; try apply Hinv.
    destruct (decide (appointment_id = k)) as [->|Hne].
    + rewrite lookup_insert_eq. by intros [= <-].
    + rewrite lookup_insert_ne by done. apply Hinv.
  - rewrite update_appointment_cases.
    destruct (appointments s !! appointment_id) as [a|] eqn:Hfound;
      [|apply Hinv].
    destruct (bool_decide _); [apply Hinv|].
    destruct (reschedules update).
    + destruct (AvailabilityService.first_available _ _ _ _); [|apply Hinv].
      cbn. destruct (decide (appointment_id = k)) as [->|Hne].
      * rewrite lookup_insert_eq. intros [= <-].
        destruct (edited_frame update now
                    (Appointment.set_scheduled_time
                       (Dt.combine (new_date update a) (new_time update a)) a))
          as (Hid & _).
        rewrite Hid. cbn. by apply Hinv.
      * rewrite lookup_insert_ne by done. apply Hinv.
    + cbn. destruct (decide (appointment_id = k)) as [->|Hne].
      * rewrite lookup_insert_eq. intros [= <-].
        destruct (edited_frame update now a) as (Hid & _).
        rewrite Hid. by apply Hinv.
      * rewrite lookup_insert_ne by done. apply Hinv.
  - rewrite cancel_appointment_cases.
    destruct (appointments s !! appointment_id) as [a|] eqn:Hfound;
      [|apply Hinv].
    destruct (bool_decide _); [apply Hinv|].
    cbn. destruct (decide (appointment_id = k)) as [->|Hne].
    + rewrite lookup_insert_eq. intros [= <-]. cbn. by apply Hinv.
    + rewrite lookup_insert_ne by done. apply Hinv.
  - rewrite check_in_cases.
    destruct (appointments s !! appointment_id) as [a|] eqn:Hfound;
      [|apply Hinv].
    cbn. destruct (decide (appointment_id = k)) as [->|Hne].
    + rewrite lookup_insert_eq. intros [= <-]. cbn. by apply Hinv.
    + rewrite lookup_insert_ne by done. apply Hinv.
  - rewrite complete_cases.
    destruct (appointments s !! appointment_id) as [a|] eqn:Hfound;
      [|apply Hinv].
    cbn. destruct (decide (appointment_id = k)) as [->|Hne].
    + rewrite lookup_insert_eq. intros [= <-].
      unfold completed. destruct (truthy notes); cbn; by apply Hinv.
    + rewrite lookup_insert_ne by done. apply Hinv.
  - unfold availability. run. destruct (AvailabilityService.hold_slot _ _ _ _ _ _).
    apply Hinv.
  - unfold availability. run. destruct (AvailabilityService.release_hold _ _ _).
    apply Hinv.
Qed.

(** In every state reached by complete calls, an appointment is stored
    under its own identifier: [get_appointment(k)] returns [None] or an
    appointment whose [id] is [k]. *)
Theorem reachable_appointment_ids s k :
  reachable s →
  match (get_appointment k s).1 with
  | Ok (Some a) => Appointment.id a = k
  | Ok None => appointments s !! k = None
  | Raise _ => False
  end.
Proof.
  intros (s0 & (_ & Happ & _) & Hsteps).
  assert (Hinv : ∀ k a, appointments s !! k = Some a → Appointment.id a = k).
  { assert (H0 : ∀ k a, appointments s0 !! k = Some a → Appointment.id a = k)
      by (intros k' a; by rewrite Happ, lookup_empty).
    clear Happ. induction Hsteps as [|s s1 s' Hstep _ IH]; [exact H0|].
    apply IH. by apply (step_appointment_ids s). }
  unfold get_appointment. run.
  destruct (appointments s !! k) as [a|] eqn:Hk; [by apply Hinv|done].
Qed.

Lemma step_holds s s' :
  step s s' →
  AvailabilityService.holds (availability_service s')
  = AvailabilityService.holds (availability_service s)
  ∨ ∃ slot_id patient_id held_at expires hold_id,
      is_Some (dict_get slot_id
                 (AvailabilityService.slots (availability_service s)))
      ∧ AvailabilityService.holds (availability_service s')
        = <[hold_id := SlotHold.mk slot_id patient_id held_at expires "active"]>
            (AvailabilityService.holds (availability_service s)).
Proof.
  intros Hstep. destruct Hstep.
  - left. rewrite create_appointment_cases.
    destruct (CacheService.acquire_lock _ _ _ _) as [[[|]|e] c]; cbn;
      try reflexivity.
    destruct (AvailabilityService.first_available _ _ _ _); cbn;
      try reflexivity.
    by destruct (Dt.add_minutes _ _).
  - left. rewrite update_appointment_cases.
    destruct (appointments s !! appointment_id) as [a|]; [|reflexivity].
    destruct (bool_decide _); [reflexivity|].
    destruct (reschedules update); [|reflexivity].
    by destruct (AvailabilityService.first_available _ _ _ _).
  - left. rewrite cancel_appointment_cases.
    destruct (appointments s !! appointment_id) as [a|]; [|reflexivity].
    by destruct (bool_decide _).
  - left. rewrite check_in_cases. by destruct (appointments s !! appointment_id).
  - left. rewrite complete_cases. by destruct (appointments s !! appointment_id).
  - unfold availability, AvailabilityService.hold_slot. run.
    destruct (dict_get slot_id _) as [slot|] eqn:Hslot; [|by left].
    destruct (TimeSlot.available slot); cbn; [|by left].
    destruct (Dt.add_minutes now duration_minutes) as [expires|]; cbn;
      [|by left].
    right. exists slot_id, patient_id, now, expires, hold_id.
    split; [by rewrite Hslot|reflexivity].
  - left. unfold availability, AvailabilityService.release_hold. run.
    destruct (dict_get slot_id _) as [slot|]; [|reflexivity].
    by case_bool_decide.
Qed.

(** In every state reached by complete calls, each hold record has the
    status ["active"] (no call ever marks a hold released, expired or
    converted) and names a slot that the catalogue has. *)
Theorem reachable_holds_active s hold_id hold :
  reachable s →
  AvailabilityService.holds (availability_service s) !! hold_id = Some hold →
  SlotHold.status hold = "active"
  ∧ is_Some (dict_get (SlotHold.slot_id hold)
               (AvailabilityService.slots (availability_service s))).
Proof.
  intros (s0 & (_ & _ & Hholds) & Hsteps). revert hold_id hold.
  assert (H0 : ∀ hold_id hold,
             AvailabilityService.holds (availability_service s0) !! hold_id
             = Some hold →
             SlotHold.status hold = "active"
             ∧ is_Some (dict_get (SlotHold.slot_id hold)
                          (AvailabilityService.slots (availability_service s0))))
    by (intros h r; by rewrite Hholds, lookup_empty).
  clear Hholds. induction Hsteps as [|s s1 s' Hstep _ IH]; [exact H0|].
  apply IH. clear IH. intros h r Hr.
  assert (Hkeys : ∀ k,
             is_Some (dict_get k (AvailabilityService.slots (availability_service s)))
             → is_Some (dict_get k (AvailabilityService.slots (availability_service s1)))).
  { intros k Hk.
    apply (fmap_is_Some identity_of).
    rewrite <- dict_get_catalogue_identity, (step_catalogue_identity s s1 Hstep).
    rewrite dict_get_catalogue_identity. by apply fmap_is_Some. }
  destruct (step_holds s s1 Hstep)
    as [Heq|(slot_id & patient_id & held_at & expires & h' & Hslot & Heq)];
    rewrite Heq in Hr.
  - destruct (H0 h r Hr) as [Hactive Hin]. split; [exact Hactive|].
    by apply Hkeys.
  - destruct (decide (h' = h)) as [->|Hne].
    + rewrite lookup_insert_eq in Hr. injection Hr as <-.
      split; [reflexivity|]. by apply Hkeys.
    + rewrite lookup_insert_ne in Hr by done.
      destruct (H0 h r Hr) as [Hactive Hin]. split; [exact Hactive|].
      by apply Hkeys.
Qed.

End Invariants.

Lemma booked_service_reachable : reachable booked_service.
Proof.
  exists fresh_service. split; [repeat split|].
  eapply rtc_l; [|apply rtc_refl].
  apply (step_create fresh_service (request_at 10 "R1") "apt-1" (clock 9 0 0)).
Qed.

Lemma hold_by_H1_reachable : reachable hold_by_H1.2.
Proof.
  exists fresh_service. split; [repeat split|].
  eapply rtc_l; [|apply rtc_refl].
  apply (step_hold fresh_service "slot-0001" "H1" 10 "hold-1" (clock 9 0 0)).
Qed.

Lemma catalogue_identity_preserved_witness :
  catalogue_identity
    (AvailabilityService.slots
       (AppointmentService.availability_service both_booked_service))
  = [("slot-0001", slot_at "slot-0001" 10); ("slot-0002", slot_at "slot-0002" 11)].
Proof.
  refine (eq_trans (catalogue_identity_preserved fresh_service
                      both_booked_service _) _).
  - eapply rtc_l;
      [apply (step_create fresh_service (request_at 10 "R1") "apt-1"
                (clock 9 0 0))|].
    eapply rtc_l; [|apply rtc_refl].
    apply (step_create _ (request_at 11 "R2") "apt-2" (clock 9 1 0)).
  - vm_compute. reflexivity.
Defined.

Lemma reachable_appointment_ids_witness :
  Appointment.id apt_1 = "apt-1"
  ∧ (AppointmentService.get_appointment "apt-1" booked_service).1
    = Ok (Some apt_1).
Proof.
  pose proof (reachable_appointment_ids booked_service "apt-1"
                booked_service_reachable) as T.
  assert (E : (AppointmentService.get_appointment "apt-1" booked_service).1
              = Ok (Some apt_1)) by (vm_compute; reflexivity).
  rewrite E in T. split; [exact T|exact E].
Defined.

Lemma reachable_holds_active_witness :
  let hold := SlotHold.mk "slot-0001" "H1" (clock 9 0 0) (clock 9 10 0) "active" in
  AvailabilityService.holds (AppointmentService.availability_service hold_by_H1.2)
    !! "hold-1" = Some hold
  ∧ SlotHold.status hold = "active"
  ∧ is_Some (dict_get (SlotHold.slot_id hold)
               (AvailabilityService.slots
                  (AppointmentService.availability_service hold_by_H1.2))).
Proof.
  intros hold.
  assert (H : AvailabilityService.holds
                (AppointmentService.availability_service hold_by_H1.2)
                !! "hold-1" = Some hold) by (vm_compute; reflexivity).
  split; [exact H|].
  exact (reachable_holds_active hold_by_H1.2 "hold-1" hold
           hold_by_H1_reachable H).
Defined.

(** ** Holding and releasing *)

Section HoldRelease.
Import AvailabilityService.

(** Releasing undoes a hold on the slot, not in the table of holds.
    After [hold_slot] on a slot that nobody held, [release_hold] by the
    same patient gives back the catalogue as it was, the record of the
    hold staying in [holds] as it was written; [release_hold] by any
    other patient changes nothing. *)
Theorem hold_release_round_trip
    slot_id patient_id duration_minutes hold_id now slot expires a :
  dict_get slot_id (slots a) = Some slot →
  TimeSlot.available slot = true →
  TimeSlot.held_by slot = None →
  TimeSlot.held_until slot = None →
  Dt.add_minutes now duration_minutes = Ok expires →
  let hold := SlotHold.mk slot_id patient_id now expires "active" in
  let held := (hold_slot slot_id patient_id duration_minutes hold_id now a).2 in
  hold_slot slot_id patient_id duration_minutes hold_id now a
  = (Ok hold,
     mk (dict_update (TimeSlot.set_held (Some patient_id) (Some expires))
           slot_id (slots a))
        (<[hold_id := hold]> (holds a)))
  ∧ release_hold slot_id patient_id held
    = (Ok tt, mk (slots a) (<[hold_id := hold]> (holds a)))
  ∧ (∀ other, other ≠ patient_id →
              release_hold slot_id other held = (Ok tt, held)).
Proof.
  intros Hslot Hav Hby Huntil Hexp hold held.
  assert (Hheld : hold_slot slot_id patient_id duration_minutes hold_id now a
                  = (Ok hold,
                     mk (dict_update
                           (TimeSlot.set_held (Some patient_id) (Some expires))
                           slot_id (slots a))
                        (<[hold_id := hold]> (holds a)))).
  { unfold hold_slot. run. by rewrite Hslot, Hav, Hexp. }
  split; [exact Hheld|]. unfold held. rewrite Hheld. cbn [snd].
  split.
  - unfold release_hold. run. cbn [slots]. rewrite dict_get_update, Hslot.
    cbn. rewrite bool_decide_eq_true_2 by done.
    unfold set_slots. cbn. rewrite dict_update_update.
    f_equal. f_equal. apply (dict_update_id _ _ slot); [exact Hslot|].
    destruct slot. cbn in *. by subst.
  - intros other Hother. unfold release_hold. run. cbn [slots].
    rewrite dict_get_update, Hslot. cbn.
    rewrite bool_decide_eq_false_2; [reflexivity|]. congruence.
Qed.

End HoldRelease.

Lemma hold_release_round_trip_witness :
  let a := AppointmentService.availability_service fresh_service in
  let hold := SlotHold.mk "slot-0001" "H1" (clock 9 0 0) (clock 9 10 0) "active" in
  AvailabilityService.release_hold "slot-0001" "H1"
    (AvailabilityService.hold_slot "slot-0001" "H1" 10 "hold-1" (clock 9 0 0) a).2
  = (Ok tt, AvailabilityService.mk (AvailabilityService.slots a)
              {[ "hold-1" := hold ]}).
Proof.
  intros a hold.
  refine (proj1 (proj2 (hold_release_round_trip "slot-0001" "H1" 10 "hold-1"
                          (clock 9 0 0) (slot_at "slot-0001" 10) (clock 9 10 0)
                          a _ _ _ _ _))).
  - vm_compute. reflexivity.
  - reflexivity.
  - reflexivity.
  - reflexivity.
  - vm_compute. reflexivity.
Defined.

(** ** Searching, further *)

Section SearchMore.
Import AvailabilityService.

Lemma head_take_1 {A} (l : list A) : head (take 1 l) = head l.
Proof. by destruct l. Qed.

Lemma Sorted_head_least l slot :
  Sorted key_le l → head l = Some slot →
  ∀ other, other ∈ l → key_le slot other.
Proof.
  intros Hsorted Hhead other Hin.
  assert (Htrans : Transitive key_le) by (intros x y z; apply key_le_trans).
  apply Sorted_StronglySorted in Hsorted; [|exact Htrans].
  destruct Hsorted as [|x l Hl Hx]; [done|].
  injection Hhead as ->. apply elem_of_cons in Hin as [->|Hin].
  - unfold key_le, not_after.
    destruct (key_lt slot slot) eqn:Hlt; [|done].
    by rewrite (key_lt_asym _ _ Hlt) in Hlt.
  - rewrite Forall_forall in Hx. by apply Hx.
Qed.

(** [get_next_available] returns the earliest match.  The slot it
    returns is in the catalogue, available, dated within the thirty days
    from today, passes the filters given, and no slot that does so has a
    smaller (date, start time); it returns [None] exactly when no slot
    does so; and it changes nothing. *)
Theorem get_next_available_earliest
    provider_id specialty location_id appointment_type today end_date a :
  Dt.date_add_days today 30 = Ok end_date →
  let search :=
    next_search provider_id location_id appointment_type today end_date in
  let candidates := List.filter (matches search) (dict_values (slots a)) in
  end_date = today + 30
  ∧ match get_next_available provider_id specialty location_id
            appointment_type today a with
    | (Ok (Some slot), after) =>
        after = a
        ∧ slot ∈ candidates
        ∧ ∀ other, other ∈ candidates → key_le slot other
    | (Ok None, after) => after = a ∧ candidates = []
    | (Raise _, _) => False
    end
  ∧ ∀ other_specialty,
      get_next_available provider_id other_specialty location_id
        appointment_type today a
      = get_next_available provider_id specialty location_id
          appointment_type today a.
Proof.
  intros Hend search candidates.
  split; [|split; [|reflexivity]].
  { revert Hend. unfold Dt.date_add_days.
    change (Dt.days 30) with (@Ok Dt.timedelta 2592000000000).
    unfold Dt.date_add. change (2592000000000 / Dt.US_PER_DAY) with 30.
    destruct (_ && _); [by intros [= <-]|discriminate]. }
  unfold get_next_available. run. rewrite Hend.
  fold (next_search provider_id location_id appointment_type today end_date).
  fold search. rewrite search_slots_slice. cbn [fst snd].
  unfold slice_to. cbn [AvailabilitySearch.limit search next_search].
  replace (0 <=? 1) with true by reflexivity.
  change (Z.to_nat 1) with 1%nat. rewrite head_take_1. fold candidates.
  pose proof (stable_sort_Permutation key_lt candidates) as Hperm.
  pose proof (stable_sort_Sorted key_lt key_lt_asym candidates) as Hsorted.
  destruct (stable_sort key_lt candidates) as [|slot l] eqn:Hl; cbn [head].
  - split; [reflexivity|]. by apply Permutation_nil.
  - split; [reflexivity|]. split.
    + rewrite <- Hperm. apply elem_of_cons. by left.
    + intros other Hin. rewrite <- Hperm in Hin.
      by apply (Sorted_head_least (slot :: l)).
Qed.

(** Uniqueness of natural keys makes the first slot of a key the only
    one. *)
Lemma first_available_unique slot (d : odict TimeSlot.t) :
  NoDup (slot_key <$> dict_values d) →
  slot ∈ dict_values d →
  first_available (TimeSlot.provider_id slot) (TimeSlot.date slot)
    (TimeSlot.start_time slot) d
  = TimeSlot.available slot.
Proof.
  unfold dict_values.
  induction d as [|[k s0] d IH]; cbn; [by intros _ ?%elem_of_nil|].
  intros Hnodup Hin. apply NoDup_cons in Hnodup as [Hnotin Hnodup].
  apply elem_of_cons in Hin as [->|Hin].
  - unfold at_key. by rewrite !bool_decide_eq_true_2.
  - destruct (at_key _ _ _ s0) eqn:Hkey; [|by apply IH].
    exfalso. apply Hnotin.
    unfold at_key in Hkey.
    rewrite !andb_true_iff, !bool_decide_eq_true in Hkey.
    destruct Hkey as [[Hp Hd] Ht].
    apply list_elem_of_fmap. exists slot. split; [|exact Hin].
    unfold slot_key. by rewrite Hp, Hd, Ht.
Qed.

(** In a catalogue with one slot per natural key, whatever a search
    returns can be booked: [is_slot_available] answers [True] for the
    key of every slot in the result, whatever the filters and the
    limit. *)
Theorem search_result_is_bookable search a slot results :
  NoDup (slot_key <$> dict_values (slots a)) →
  (search_slots search a).1 = Ok results →
  slot ∈ results →
  (is_slot_available (TimeSlot.provider_id slot) (TimeSlot.date slot)
     (TimeSlot.start_time slot) a).1 = Ok true.
Proof.
  intros Hnodup Hsearch Hin. rewrite search_slots_slice in Hsearch.
  injection Hsearch as <-.
  assert (Hmatch : slot ∈ List.filter (matches search) (dict_values (slots a))).
  { rewrite <- (stable_sort_Permutation key_lt).
    unfold slice_to in Hin. destruct (0 <=? _);
      by apply subseteq_take in Hin. }
  apply list_elem_of_In, filter_In in Hmatch as [Hvalue Hm].
  apply list_elem_of_In in Hvalue.
  unfold is_slot_available. run. f_equal.
  rewrite first_available_unique by done.
  unfold matches, matches_with in Hm.
  rewrite !andb_true_iff in Hm. tauto.
Qed.

End SearchMore.

Lemma fresh_catalogue_keys :
  NoDup (slot_key <$> dict_values
           (AvailabilityService.slots
              (AppointmentService.availability_service fresh_service))).
Proof. apply (bool_decide_unpack _). vm_compute. exact I. Qed.

Lemma get_next_available_earliest_witness :
  let a := AppointmentService.availability_service booked_service in
  Dt.date_add_days 739311 30 = Ok 739341
  ∧ 739341 = 739311 + 30
  ∧ AvailabilityService.get_next_available (Some "prov-1") None None None 739311 a
    = (Ok (Some (slot_at "slot-0002" 11)), a).
Proof.
  intros a.
  assert (H : Dt.date_add_days 739311 30 = Ok 739341) by (vm_compute; reflexivity).
  split; [exact H|]. split; [|vm_compute; reflexivity].
  exact (proj1 (get_next_available_earliest (Some "prov-1") None None None
                  739311 739341 a H)).
Defined.

Lemma search_result_is_bookable_witness :
  let a := AppointmentService.availability_service fresh_service in
  (AvailabilityService.search_slots (search_march None 1) a).1
  = Ok [slot_at "slot-0001" 10]
  ∧ (AvailabilityService.is_slot_available "prov-1" 739320 (Dt.mk_time 10 0 0 0)
       a).1 = Ok true.
Proof.
  intros a.
  assert (H : (AvailabilityService.search_slots (search_march None 1) a).1
              = Ok [slot_at "slot-0001" 10]) by (vm_compute; reflexivity).
  split; [exact H|].
  refine (search_result_is_bookable (search_march None 1) a
            (slot_at "slot-0001" 10) _ fresh_catalogue_keys H _).
  apply elem_of_cons. by left.
Defined.

(** ** The calendar *)

Section Calendar.
Import AvailabilityService.

Lemma days_in_month_bounds year month :
  1 ≤ month ≤ 12 → 28 ≤ Dt.days_in_month year month ≤ 31.
Proof.
  intros Hmonth. unfold Dt.days_in_month.
  assert (Hcases : month = 1 ∨ month = 2 ∨ month = 3 ∨ month = 4 ∨ month = 5
                   ∨ month = 6 ∨ month = 7 ∨ month = 8 ∨ month = 9
                   ∨ month = 10 ∨ month = 11 ∨ month = 12) by lia.
  destruct (Dt.is_leap year);
    destruct Hcases as [->|[->|[->|[->|[->|[->|[->|[->|[->|[->|[->| ->]]]]]]]]]]];
    vm_compute; split; discriminate.
Qed.

Lemma fits_int_small n : -10000 ≤ n ≤ 10000 → Dt.fits_int n = true.
Proof.
  intros Hn. unfold Dt.fits_int, Dt.INT_MIN, Dt.INT_MAX.
  apply andb_true_iff. split; apply Z.leb_le; lia.
Qed.

Lemma mk_date_Ok year month day :
  1 ≤ year ≤ 9999 → 1 ≤ month ≤ 12 → 1 ≤ day ≤ Dt.days_in_month year month →
  Dt.mk_date year month day = Ok (Dt.ymd2ord year month day).
Proof.
  intros Hy Hm Hd. pose proof (days_in_month_bounds year month Hm) as Hdays.
  unfold Dt.mk_date. rewrite !fits_int_small by lia. cbn [andb negb].
  rewrite !(proj2 (andb_true_iff _ _)); [reflexivity|..];
    split; apply Z.leb_le; lia.
Qed.

Lemma calendar_loop_map provider_id year month days calendar_days a :
  1 ≤ year ≤ 9999 → 1 ≤ month ≤ 12 →
  (∀ day, day ∈ days → 1 ≤ day ≤ Dt.days_in_month year month) →
  calendar_loop provider_id year month days calendar_days a
  = (Ok (calendar_days
         ++ (calendar_day provider_id year month (dict_values (slots a)) <$> days)),
     a).
Proof.
  intros Hy Hm. revert calendar_days.
  induction days as [|day days IH]; intros calendar_days Hdays; cbn.
  - by rewrite app_nil_r.
  - run. rewrite mk_date_Ok; [|done|done|apply Hdays; by left].
    rewrite IH; [|intros d Hd; apply Hdays; by right].
    by rewrite <- app_assoc.
Qed.

(** The comprehension of the calendar counts what the search for the
    provider and the day matches. *)
Lemma day_slots_matches provider_id day limit values :
  provider_id ≠ "" →
  day_slots provider_id day values
  = List.filter (matches (day_search provider_id day limit)) values.
Proof.
  intros Hne. unfold day_slots. apply filter_ext. intros slot.
  unfold matches, matches_with, day_search, present, truthy, passes. cbn.
  rewrite (bool_decide_eq_false_2 (provider_id = "")) by done. cbn.
  rewrite !andb_true_r.
  destruct (TimeSlot.available slot); cbn;
    [|by rewrite andb_false_r].
  rewrite andb_true_r.
  destruct (bool_decide (TimeSlot.provider_id slot = provider_id)); cbn;
    [|by rewrite andb_false_r].
  rewrite andb_true_r.
  case_bool_decide as Hd.
  - rewrite Hd. symmetry. apply andb_true_iff. split; apply Z.leb_le; lia.
  - symmetry. apply andb_false_iff.
    destruct (Z.leb_spec day (TimeSlot.date slot)); [|by left].
    right. apply Z.leb_gt. lia.
Qed.

(** For a month 1..12 of a year 1..9999, [get_calendar] changes nothing
    and returns one entry per day of the month, in order, on consecutive
    dates; the count of a day is the number of slots that a search for
    the provider on that day matches, so that such a search returns as
    many slots as the count, or as the limit if that is smaller; and
    [has_availability] says whether the count is positive. *)
Theorem get_calendar_counts provider_id month year a :
  1 ≤ month ≤ 12 →
  1 ≤ year ≤ 9999 →
  let values := dict_values (slots a) in
  let num_days := Dt.days_in_month year month in
  get_calendar provider_id month year a
  = (Ok (calendar_day provider_id year month values <$> seqZ 1 num_days), a)
  ∧ 28 ≤ num_days ≤ 31
  ∧ ∀ day,
      let entry := calendar_day provider_id year month values day in
      CalendarDay.date entry = Dt.ymd2ord year month 1 + (day - 1)
      ∧ CalendarDay.has_availability entry
        = (0 <? CalendarDay.available_slots entry)
      ∧ (provider_id ≠ "" →
         ∀ limit results,
           0 ≤ limit →
           (search_slots (day_search provider_id (CalendarDay.date entry) limit)
              a).1 = Ok results →
           Z.of_nat (length results)
           = Z.min limit (CalendarDay.available_slots entry)).
Proof.
  intros Hm Hy values num_days.
  pose proof (days_in_month_bounds year month Hm) as Hbounds.
  split; [|split; [exact Hbounds|]].
  - unfold get_calendar, Dt.monthrange_days. run.
    rewrite (proj2 (andb_true_iff _ _)) by (split; apply Z.leb_le; lia).
    cbn [negb]. rewrite calendar_loop_map; [reflexivity|done|done|].
    intros day Hday%elem_of_seqZ. lia.
  - intros day entry. split; [|split; [reflexivity|]].
    + unfold entry, calendar_day, Dt.ymd2ord. cbn. lia.
    + intros Hne limit results Hlimit Hsearch.
      rewrite search_slots_slice in Hsearch. injection Hsearch as <-.
      unfold slice_to. cbn [AvailabilitySearch.limit day_search].
      rewrite (proj2 (Z.leb_le _ _) Hlimit).
      rewrite length_take, (Permutation_length (stable_sort_Permutation _ _)).
      unfold entry, calendar_day. cbn [CalendarDay.available_slots CalendarDay.date].
      rewrite (day_slots_matches _ _ limit) by done. fold values. lia.
Qed.

(** The errors of [get_calendar]; none changes the service.  A month
    outside 1..12 raises a [ValueError] (the message of
    [calendar.monthrange]), whatever the year.  With the month in range,
    a year outside 1..9999 raises at the first day, from the date
    constructor: a [ValueError] when the year fits a C [int], an
    [OverflowError] when it does not. *)
Theorem get_calendar_errors provider_id month year a :
  (¬ 1 ≤ month ≤ 12 →
   get_calendar provider_id month year a
   = (Raise (ValueError ("bad month number " +:+ pretty month
                         +:+ "; must be 1-12")), a))
  ∧ (1 ≤ month ≤ 12 → ¬ 1 ≤ year ≤ 9999 →
     - 2 ^ 31 ≤ year ≤ 2 ^ 31 - 1 →
     get_calendar provider_id month year a
     = (Raise (ValueError ("year " +:+ pretty year +:+ " is out of range")), a))
  ∧ (1 ≤ month ≤ 12 → ¬ - 2 ^ 31 ≤ year ≤ 2 ^ 31 - 1 →
     get_calendar provider_id month year a = (Raise OverflowError, a)).
Proof.
  split; [|split].
  - intros Hm. unfold get_calendar, Dt.monthrange_days. run.
    rewrite (proj2 (andb_false_iff _ _)); [reflexivity|].
    destruct (Z.leb_spec 1 month); [right; apply Z.leb_gt; lia|by left].
  - intros Hm Hy Hint. unfold get_calendar, Dt.monthrange_days. run.
    rewrite (proj2 (andb_true_iff _ _)) by (split; apply Z.leb_le; lia).
    cbn [negb].
    pose proof (days_in_month_bounds year month Hm) as Hbounds.
    rewrite seqZ_cons by lia. cbn [calendar_loop]. run. unfold Dt.mk_date.
    rewrite (fits_int_small month), (fits_int_small 1) by lia.
    replace (Dt.fits_int year) with true
      by (symmetry; unfold Dt.fits_int, Dt.INT_MIN, Dt.INT_MAX;
          apply andb_true_iff; split; apply Z.leb_le; lia).
    cbn [andb negb].
    rewrite (proj2 (andb_false_iff (1 <=? year) (year <=? 9999)));
      [reflexivity|].
    destruct (Z.leb_spec 1 year); [right; apply Z.leb_gt; lia|by left].
  - intros Hm Hint. unfold get_calendar, Dt.monthrange_days. run.
    rewrite (proj2 (andb_true_iff _ _)) by (split; apply Z.leb_le; lia).
    cbn [negb].
    pose proof (days_in_month_bounds year month Hm) as Hbounds.
    rewrite seqZ_cons by lia. cbn [calendar_loop]. run. unfold Dt.mk_date.
    replace (Dt.fits_int year) with false; [reflexivity|].
    symmetry. unfold Dt.fits_int, Dt.INT_MIN, Dt.INT_MAX.
    apply andb_false_iff.
    destruct (Z.leb_spec (- 2 ^ 31) year); [right; apply Z.leb_gt; lia|by left].
Qed.

End Calendar.

Lemma get_calendar_counts_witness :
  let a := AppointmentService.availability_service booked_service in
  (1 ≤ 3 ≤ 12 ∧ 1 ≤ 2025 ≤ 9999)
  ∧ (AvailabilityService.get_calendar "prov-1" 3 2025 a).2 = a
  ∧ (AvailabilityService.get_calendar "prov-1" 3 2025 a).1
    = Ok (calendar_day "prov-1" 2025 3
            (dict_values (AvailabilityService.slots a)) <$> seqZ 1 31)
  ∧ calendar_day "prov-1" 2025 3 (dict_values (AvailabilityService.slots a)) 10
    = CalendarDay.mk 739320 1 true.
Proof.
  intros a.
  assert (Hm : 1 ≤ 3 ≤ 12) by lia. assert (Hy : 1 ≤ 2025 ≤ 9999) by lia.
  split; [by split|].
  pose proof (proj1 (get_calendar_counts "prov-1" 3 2025 a Hm Hy)) as T.
  rewrite T. split; [reflexivity|]. split; [reflexivity|].
  vm_compute. reflexivity.
Defined.

(** ** The waitlist, further *)

Section WaitlistMore.
Import WaitlistService.

Lemma existing_insert_fresh provider_id entry_id entry (m : gmap string WaitlistEntry.t) :
  m !! entry_id = None →
  existing provider_id (mk (<[entry_id := entry]> m))
  ≡ₚ (if waiting_for provider_id entry then [entry] else [])
     ++ existing provider_id (mk m).
Proof.
  intros Hfresh. unfold existing. cbn [entries].
  rewrite (map_to_list_insert _ _ _ Hfresh), fmap_cons. cbn [snd].
  rewrite filter_cons. by destruct (decide (waiting_for provider_id entry = true))
    as [->| ->%not_true_is_false].
Qed.

Lemma existing_replace provider_id entry_id old entry (m : gmap string WaitlistEntry.t) :
  m !! entry_id = Some old →
  (if waiting_for provider_id old then [old] else [])
  ++ existing provider_id (mk (<[entry_id := entry]> m))
  ≡ₚ (if waiting_for provider_id entry then [entry] else [])
     ++ existing provider_id (mk m).
Proof.
  intros Hold.
  rewrite <- (insert_delete_eq m entry_id entry).
  rewrite <- (insert_id m entry_id old Hold) at 2.
  rewrite <- (insert_delete_eq m entry_id old).
  rewrite !existing_insert_fresh by apply lookup_delete_eq.
  rewrite !app_assoc. f_equiv. apply Permutation_app_comm.
Qed.

(** A join with an unused identifier adds one to the count of its own
    provider and nothing to the count of any other. *)
Lemma waiting_count_join provider_id request entry_id now w :
  entries w !! entry_id = None →
  waiting_count provider_id (add_to_waitlist request entry_id now w).2
  = waiting_count provider_id w
    + (if bool_decide (WaitlistRequest.provider_id request = provider_id)
       then 1 else 0).
Proof.
  intros Hfresh. rewrite add_to_waitlist_cases. cbn zeta. cbn [snd].
  unfold waiting_count, set_entries. destruct w as [m]. cbn [entries] in *.
  rewrite (existing_insert_fresh _ _ _ _ Hfresh).
  unfold waiting_for at 1. cbn [WaitlistEntry.provider_id WaitlistEntry.status].
  rewrite (bool_decide_eq_true_2 ("waiting" = "waiting")) by done.
  rewrite andb_true_r. case_bool_decide; cbn [length app]; lia.
Qed.

(** Positions go up one by one for a provider while nobody leaves or is
    notified: two joins for the provider, with any joins for other
    providers in between, receive consecutive positions. *)
Theorem waitlist_consecutive_positions
    provider_id r1 r2 id1 id2 now1 now2 w w' :
  WaitlistRequest.provider_id r1 = provider_id →
  WaitlistRequest.provider_id r2 = provider_id →
  entries w !! id1 = None →
  rtc (join_for_another provider_id) (add_to_waitlist r1 id1 now1 w).2 w' →
  entries w' !! id2 = None →
  ∃ e1 e2,
    (add_to_waitlist r1 id1 now1 w).1 = Ok e1
    ∧ (add_to_waitlist r2 id2 now2 w').1 = Ok e2
    ∧ WaitlistEntry.position e1 = waiting_count provider_id w + 1
    ∧ WaitlistEntry.position e2 = WaitlistEntry.position e1 + 1.
Proof.
  intros Hp1 Hp2 Hfresh1 Hothers Hfresh2.
  assert (Hcount : waiting_count provider_id w'
                   = waiting_count provider_id w + 1).
  { transitivity (waiting_count provider_id (add_to_waitlist r1 id1 now1 w).2).
    - clear Hfresh2. induction Hothers as [|w1 w2 w3 Hstep _ IH]; [reflexivity|].
      rewrite IH. destruct Hstep as [request entry_id now Hne Hfresh].
      rewrite waiting_count_join by done.
      rewrite bool_decide_eq_false_2 by done. lia.
    - rewrite waiting_count_join by done.
      by rewrite bool_decide_eq_true_2. }
  rewrite !add_to_waitlist_cases. cbn zeta. eexists _, _.
  split; [reflexivity|]. split; [reflexivity|].
  cbn [WaitlistEntry.position]. rewrite Hp1, Hp2.
  fold (waiting_count provider_id w). fold (waiting_count provider_id w').
  lia.
Qed.

(** The exits of [remove_from_waitlist]. *)
Lemma remove_from_waitlist_cases entry_id w :
  remove_from_waitlist entry_id w
  = match entries w !! entry_id with
    | None => (Raise entry_not_found, w)
    | Some entry =>
        (Ok tt,
         set_entries (insert entry_id (WaitlistEntry.set_status "removed" entry)) w)
    end.
Proof.
  unfold remove_from_waitlist. run. by destruct (entries w !! entry_id).
Qed.

Lemma add_to_waitlist_lookup request entry_id now w :
  entries (add_to_waitlist request entry_id now w).2 !! entry_id
  = Some (WaitlistEntry.mk entry_id
            (WaitlistRequest.patient_id request)
            (WaitlistRequest.provider_id request)
            (WaitlistRequest.location_id request)
            (WaitlistRequest.preferred_dates request)
            (WaitlistRequest.preferred_time_of_day request)
            (WaitlistRequest.appointment_type request)
            (WaitlistRequest.urgency request)
            "waiting"
            (waiting_count (WaitlistRequest.provider_id request) w + 1)
            now None None).
Proof. rewrite add_to_waitlist_cases. cbn. apply lookup_insert_eq. Qed.

Lemma add_to_waitlist_lookup_ne request entry_id now w other :
  other ≠ entry_id →
  entries (add_to_waitlist request entry_id now w).2 !! other
  = entries w !! other.
Proof. intros Hne. rewrite add_to_waitlist_cases. cbn. by apply lookup_insert_ne. Qed.

Lemma remove_from_waitlist_lookup_ne entry_id w other :
  other ≠ entry_id →
  entries (remove_from_waitlist entry_id w).2 !! other = entries w !! other.
Proof.
  intros Hne. rewrite remove_from_waitlist_cases.
  destruct (entries w !! entry_id); cbn; [by apply lookup_insert_ne|done].
Qed.

(** Leaving takes the entry out of the count of its provider, and the
    next join reuses the position: when an entry waiting for a provider
    leaves after another has joined, the next join for the provider
    receives the position that the last one holds, and both are
    waiting. *)
Theorem waitlist_position_reused
    provider_id r1 r2 id0 id1 id2 now1 now2 e0 w :
  WaitlistRequest.provider_id r1 = provider_id →
  WaitlistRequest.provider_id r2 = provider_id →
  entries w !! id0 = Some e0 →
  waiting_for provider_id e0 = true →
  entries w !! id1 = None →
  entries w !! id2 = None →
  id1 ≠ id2 →
  let w1 := (add_to_waitlist r1 id1 now1 w).2 in
  let w2 := (remove_from_waitlist id0 w1).2 in
  let w3 := (add_to_waitlist r2 id2 now2 w2).2 in
  ∃ e1 e2,
    entries w3 !! id1 = Some e1 ∧ entries w3 !! id2 = Some e2
    ∧ waiting_for provider_id e1 = true ∧ waiting_for provider_id e2 = true
    ∧ WaitlistEntry.position e2 = WaitlistEntry.position e1
    ∧ waiting_count provider_id w2 = waiting_count provider_id w.
Proof.
  intros Hp1 Hp2 H0 Hwaiting Hfresh1 Hfresh2 Hne w1 w2 w3.
  assert (Hne0 : id1 ≠ id0) by (intros ->; by rewrite H0 in Hfresh1).
  assert (Hne2 : id2 ≠ id0) by (intros ->; by rewrite H0 in Hfresh2).
  assert (Hc1 : waiting_count provider_id w1 = waiting_count provider_id w + 1).
  { unfold w1. rewrite waiting_count_join by done.
    by rewrite bool_decide_eq_true_2. }
  assert (H01 : entries w1 !! id0 = Some e0).
  { unfold w1. by rewrite add_to_waitlist_lookup_ne. }
  assert (Hc2 : waiting_count provider_id w2 + 1 = waiting_count provider_id w1).
  { unfold w2. rewrite remove_from_waitlist_cases, H01. cbn [snd].
    unfold waiting_count, set_entries. destruct w1 as [m]. cbn [entries] in *.
    pose proof (existing_replace provider_id id0 e0
                  (WaitlistEntry.set_status "removed" e0) m H01) as Hperm.
    apply Permutation_length in Hperm. rewrite !length_app in Hperm.
    rewrite Hwaiting in Hperm.
    replace (waiting_for provider_id (WaitlistEntry.set_status "removed" e0))
      with false in Hperm.
    - cbn in Hperm. lia.
    - unfold waiting_for. cbn. by rewrite andb_false_r. }
  eexists _, _. split; [|split; [apply add_to_waitlist_lookup|]].
  - unfold w3, w2, w1.
    rewrite add_to_waitlist_lookup_ne, remove_from_waitlist_lookup_ne by done.
    apply add_to_waitlist_lookup.
  - unfold waiting_for. cbn [WaitlistEntry.provider_id WaitlistEntry.status
                             WaitlistEntry.position].
    rewrite Hp1, Hp2. rewrite !bool_decide_eq_true_2 by done.
    split; [done|]. split; [done|]. split; lia.
Qed.

End WaitlistMore.

Section WaitlistStatus.
Import WaitlistService.

Lemma waitlist_consecutive_positions_witness :
  let r1 := join_request "A" "prov-1" in
  let r2 := join_request "B" "prov-1" in
  let w1 := (add_to_waitlist r1 "wl-a" (clock 9 0 0) empty_waitlist).2 in
  let w' := (add_to_waitlist (join_request "X" "prov-2") "wl-x" (clock 9 0 30) w1).2 in
  ∃ e1 e2,
    (add_to_waitlist r1 "wl-a" (clock 9 0 0) empty_waitlist).1 = Ok e1
    ∧ (add_to_waitlist r2 "wl-b" (clock 9 1 0) w').1 = Ok e2
    ∧ WaitlistEntry.position e1 = waiting_count "prov-1" empty_waitlist + 1
    ∧ WaitlistEntry.position e2 = WaitlistEntry.position e1 + 1.
Proof.
  intros r1 r2 w1 w'.
  apply (waitlist_consecutive_positions "prov-1" r1 r2 "wl-a" "wl-b"
           (clock 9 0 0) (clock 9 1 0) empty_waitlist w').
  - reflexivity.
  - reflexivity.
  - vm_compute. reflexivity.
  - eapply rtc_l; [|apply rtc_refl].
    apply (join_another "prov-1" w1 (join_request "X" "prov-2") "wl-x" (clock 9 0 30)).
    + discriminate.
    + vm_compute. reflexivity.
  - vm_compute. reflexivity.
Defined.

Lemma waitlist_position_reused_witness :
  let r1 := join_request "B" "prov-1" in
  let r2 := join_request "C" "prov-1" in
  let w1 := (add_to_waitlist r1 "wl-b" (clock 9 1 0) waitlist_A).2 in
  let w2 := (remove_from_waitlist "wl-a" w1).2 in
  let w3 := (add_to_waitlist r2 "wl-c" (clock 9 3 0) w2).2 in
  ∃ e1 e2,
    entries w3 !! "wl-b" = Some e1 ∧ entries w3 !! "wl-c" = Some e2
    ∧ waiting_for "prov-1" e1 = true ∧ waiting_for "prov-1" e2 = true
    ∧ WaitlistEntry.position e2 = WaitlistEntry.position e1
    ∧ waiting_count "prov-1" w2 = waiting_count "prov-1" waitlist_A.
Proof.
  refine (waitlist_position_reused "prov-1" (join_request "B" "prov-1")
            (join_request "C" "prov-1") "wl-a" "wl-b" "wl-c"
            (clock 9 1 0) (clock 9 3 0)
            (WaitlistEntry.mk "wl-a" "A" "prov-1" None [] None "follow_up"
               "normal" "waiting" 1 (clock 9 0 0) None None)
            waitlist_A _ _ _ _ _ _ _);
    first [discriminate | vm_compute; reflexivity].
Defined.

(** The exits of [notify_patient]. *)
Lemma notify_patient_cases entry_id now w :
  notify_patient entry_id now w
  = match entries w !! entry_id with
    | None => (Raise entry_not_found, w)
    | Some entry =>
        (Ok (entry_id, "notified",
             Dt.str_date (Dt.date_of now) +:+ "T" +:+ Dt.str_time (Dt.time_of now)),
         set_entries
           (insert entry_id
              (WaitlistEntry.set_notified_at (Some now)
                 (WaitlistEntry.set_status "notified" entry))) w)
    end.
Proof.
  unfold notify_patient. run. by destruct (entries w !! entry_id).
Qed.

Lemma waiting_count_replace provider_id entry_id old entry w :
  entries w !! entry_id = Some old →
  waiting_for provider_id entry = false →
  waiting_count provider_id (set_entries (insert entry_id entry) w)
  = waiting_count provider_id w
    - (if waiting_for provider_id old then 1 else 0).
Proof.
  intros Hold Hout. unfold waiting_count, set_entries.
  destruct w as [m]. cbn [entries] in *.
  pose proof (existing_replace provider_id entry_id old entry m Hold) as Hperm.
  apply Permutation_length in Hperm. rewrite !length_app, Hout in Hperm.
  destruct (waiting_for provider_id old); cbn [length] in Hperm; lia.
Qed.

(** Leaving and being notified have the same effect on the count of a
    provider: the entry stops counting if it was waiting for the
    provider, whatever its status was; an identifier without an entry
    is refused and the waitlist is unchanged. *)
Theorem waitlist_leave_and_notify_count provider_id entry_id now w :
  (entries w !! entry_id = None →
   remove_from_waitlist entry_id w = (Raise entry_not_found, w)
   ∧ notify_patient entry_id now w = (Raise entry_not_found, w))
  ∧ (∀ entry, entries w !! entry_id = Some entry →
     let gone := if waiting_for provider_id entry then 1 else 0 in
     (remove_from_waitlist entry_id w).1 = Ok tt
     ∧ waiting_count provider_id (remove_from_waitlist entry_id w).2
       = waiting_count provider_id w - gone
     ∧ waiting_count provider_id (notify_patient entry_id now w).2
       = waiting_count provider_id w - gone
     ∧ (WaitlistEntry.status <$> entries (notify_patient entry_id now w).2 !! entry_id)
       = Some "notified"
     ∧ (notify_patient entry_id now w).1
       = Ok (entry_id, "notified",
             Dt.str_date (Dt.date_of now) +:+ "T" +:+ Dt.str_time (Dt.time_of now))).
Proof.
  rewrite remove_from_waitlist_cases, notify_patient_cases. split.
  - by intros ->.
  - intros entry Hentry. rewrite Hentry. cbn zeta. cbn [fst snd].
    split; [reflexivity|].
    split.
    { apply waiting_count_replace; [done|].
      unfold waiting_for. cbn. by rewrite andb_false_r. }
    split.
    { apply waiting_count_replace; [done|].
      unfold waiting_for. cbn. by rewrite andb_false_r. }
    split; [|reflexivity].
    unfold set_entries. cbn [entries]. by rewrite lookup_insert_eq.
Qed.

End WaitlistStatus.

(** ** The availability of a provider, grouped by date *)

Section Grouping.
Import ProviderService.

Lemma dict_get_set {V} key (v : V) (d : odict V) :
  dict_get key (dict_set key v d) = Some v.
Proof.
  induction d as [|[k w] d IH]; cbn.
  - by rewrite bool_decide_eq_true_2.
  - case_bool_decide as Hk; cbn.
    + by rewrite bool_decide_eq_true_2.
    + by rewrite bool_decide_eq_false_2.
Qed.

Lemma dict_get_set_ne {V} key other (v : V) (d : odict V) :
  key ≠ other → dict_get key (dict_set other v d) = dict_get key d.
Proof.
  intros Hne. induction d as [|[k w] d IH]; cbn.
  - by rewrite bool_decide_eq_false_2.
  - case_bool_decide as Hk; cbn.
    + subst k. by rewrite !bool_decide_eq_false_2.
    + by rewrite IH.
Qed.

Lemma dict_get_update_ne {V} (f : V → V) key other (d : odict V) :
  key ≠ other → dict_get key (dict_update f other d) = dict_get key d.
Proof.
  intros Hne. induction d as [|[k w] d IH]; cbn; [done|].
  case_bool_decide as Hk; cbn.
  - subst k. by rewrite !bool_decide_eq_false_2.
  - by rewrite IH.
Qed.

Lemma dict_update_keys {V} (f : V → V) key (d : odict V) :
  (dict_update f key d).*1 = d.*1.
Proof.
  induction d as [|[k w] d IH]; cbn; [done|].
  case_bool_decide; cbn; [done|by rewrite IH].
Qed.

Lemma dict_set_absent {V} key (v : V) (d : odict V) :
  dict_get key d = None → dict_set key v d = d ++ [(key, v)].
Proof.
  induction d as [|[k w] d IH]; cbn; [done|].
  case_bool_decide; [done|]. intros Hget. by rewrite IH.
Qed.

Lemma dict_get_None {V} key (d : odict V) :
  dict_get key d = None → key ∉ d.*1.
Proof.
  induction d as [|[k w] d IH]; cbn.
  - intros _. apply not_elem_of_nil.
  - case_bool_decide as Hk; [done|]. intros Hget.
    apply not_elem_of_cons. split; [congruence|by apply IH].
Qed.

Lemma dict_update_append {V} key (x : V) (d : odict (list V)) :
  is_Some (dict_get key d) →
  concat (dict_values (dict_update (λ l, l ++ [x]) key d))
  ≡ₚ concat (dict_values d) ++ [x].
Proof.
  unfold dict_values. induction d as [|[k w] d IH]; cbn.
  - by intros [? ?].
  - case_bool_decide as Hk; cbn.
    + intros _. rewrite <- !app_assoc. f_equiv. apply Permutation_app_comm.
    + intros Hsome. by rewrite IH, app_assoc.
Qed.

(** The membership test of the loop, and the list that the slot is
    appended to. *)
Lemma group_loop_cons slot rest by_date :
  let date_str := Dt.str_date (TimeSlot.date slot) in
  ∃ by_date',
    group_loop (slot :: rest) by_date = group_loop rest by_date'
    ∧ dict_get date_str by_date'
      = Some (default [] (dict_get date_str by_date) ++ [slot])
    ∧ (∀ other, other ≠ date_str →
         dict_get other by_date' = dict_get other by_date)
    ∧ (NoDup by_date.*1 → NoDup by_date'.*1)
    ∧ concat (dict_values by_date') ≡ₚ concat (dict_values by_date) ++ [slot].
Proof.
  intros date_str. eexists. split; [reflexivity|]. fold date_str.
  destruct (dict_get date_str by_date) as [l|] eqn:Hget.
  - rewrite bool_decide_eq_true_2 by done.
    split; [by rewrite dict_get_update, Hget|].
    split; [intros other Hne; by apply dict_get_update_ne|].
    split; [by rewrite dict_update_keys|].
    apply dict_update_append. by rewrite Hget.
  - rewrite bool_decide_eq_false_2 by (by intros [? ?]).
    split; [by rewrite dict_get_update, dict_get_set|].
    split.
    { intros other Hne.
      by rewrite dict_get_update_ne, dict_get_set_ne. }
    split.
    { intros Hnodup. rewrite dict_update_keys, dict_set_absent by done.
      rewrite fmap_app. cbn. apply NoDup_app. split; [done|].
      split; [|apply NoDup_singleton].
      intros k Hk ->%list_elem_of_singleton.
      by apply (dict_get_None _ _ Hget). }
    rewrite dict_update_append by (by rewrite dict_get_set).
    f_equiv. rewrite dict_set_absent by done.
    unfold dict_values. rewrite fmap_app, concat_app. cbn.
    by rewrite !app_nil_r.
Qed.

Lemma slots_of_day_cons date_str slot rest :
  slots_of_day date_str (slot :: rest)
  = if decide (Dt.str_date (TimeSlot.date slot) = date_str)
    then slot :: slots_of_day date_str rest
    else slots_of_day date_str rest.
Proof. unfold slots_of_day. by rewrite filter_cons. Qed.

Lemma group_loop_spec slots by_date :
  let grouped := group_loop slots by_date in
  (∀ date_str,
     dict_get date_str grouped
     = match dict_get date_str by_date, slots_of_day date_str slots with
       | Some l, g => Some (l ++ g)
       | None, [] => None
       | None, g => Some g
       end)
  ∧ (NoDup by_date.*1 → NoDup grouped.*1)
  ∧ concat (dict_values grouped) ≡ₚ concat (dict_values by_date) ++ slots.
Proof.
  revert by_date. induction slots as [|slot rest IH]; intros by_date.
  - cbn. split; [|split; [done|by rewrite app_nil_r]].
    intros date_str. destruct (dict_get date_str by_date); [|done].
    by rewrite app_nil_r.
  - destruct (group_loop_cons slot rest by_date)
      as (by_date' & -> & Hsame & Hother & Hnodup & Hconcat).
    destruct (IH by_date') as (IHget & IHnodup & IHconcat).
    split; [|split].
    + intros date_str. rewrite IHget, slots_of_day_cons.
      destruct (decide (Dt.str_date (TimeSlot.date slot) = date_str)) as [Heq|Hne].
      * rewrite <- Heq, Hsame.
        destruct (dict_get (Dt.str_date (TimeSlot.date slot)) by_date); cbn;
          [by rewrite <- app_assoc|done].
      * rewrite Hother by done.
        by destruct (dict_get date_str by_date).
    + intros H. by apply IHnodup, Hnodup.
    + rewrite IHconcat, Hconcat, <- app_assoc. done.
Qed.

(** [get_availability] returns the slots that [search_slots] finds for
    the provider between the two dates, at most 100, grouped by the
    printed date: one key per date that has a slot found, each slot
    under the key of its date, a group in the order of the search; no
    slot found is lost or repeated, and the service is unchanged.  An
    empty [provider_id] does not filter: [matches] skips the filter. *)
Theorem get_availability_groups
    provider_id start_date end_date appointment_type s :
  let found :=
    search_contract matches
      (provider_search provider_id start_date end_date appointment_type)
      (availability_service s) in
  ∃ by_date,
    get_availability provider_id start_date end_date appointment_type s
    = (Ok (mk_availability provider_id (Dt.str_date start_date)
             (Dt.str_date end_date) by_date), s)
    ∧ NoDup by_date.*1
    ∧ (∀ date_str,
         dict_get date_str by_date
         = match slots_of_day date_str found with
           | [] => None
           | group => Some group
           end)
    ∧ concat (dict_values by_date) ≡ₚ found
    ∧ Z.of_nat (length found) ≤ 100.
Proof.
  intros found. exists (group_loop found []).
  destruct (group_loop_spec found []) as (Hget & Hnodup & Hconcat).
  split; [|split; [|split; [|split]]].
  - unfold get_availability. run.
    fold (provider_search provider_id start_date end_date appointment_type).
    rewrite search_slots_slice.
    by destruct s.
  - apply Hnodup. cbn. apply NoDup_nil_2.
  - intros date_str. by rewrite Hget.
  - by rewrite Hconcat.
  - unfold found, search_contract. rewrite length_take. cbn. lia.
Qed.

End Grouping.

(** ** The sample catalogue of the constructor *)

Section SampleCatalogue.
Import AvailabilityService.

Lemma for_each_app {S A} (l1 l2 : list A) (body : A → M S unit) s :
  for_each (l1 ++ l2) body s
  = match for_each l1 body s with
    | (Ok _, s') => for_each l2 body s'
    | (Raise e, s') => (Raise e, s')
    end.
Proof.
  revert s. induction l1 as [|x l1 IH]; intros s; cbn; [done|].
  unfold bind. destruct (body x s) as [[[]|e] s']; [apply IH|done].
Qed.

Lemma date_add_days_Ok today day_offset :
  0 ≤ day_offset ≤ 13 → 1 ≤ today + day_offset ≤ Dt.MAXORDINAL →
  Dt.date_add_days today day_offset = Ok (today + day_offset).
Proof.
  intros Hoff Hrange.
  unfold Dt.date_add_days, Dt.days, Dt.mk_timedelta, Dt.date_add.
  rewrite Z.div_mul by done.
  rewrite (proj2 (Z.leb_le _ _)) by (unfold Dt.MAX_DELTA_DAYS; lia).
  rewrite (proj2 (Z.leb_le _ _)) by (unfold Dt.MAX_DELTA_DAYS; lia).
  cbn [andb]. rewrite Z.div_mul by done.
  rewrite (proj2 (Z.leb_le _ _)) by lia.
  by rewrite (proj2 (Z.leb_le _ _)) by lia.
Qed.

(** The loop over the hours inserts the items of the day. *)
Lemma hours_loop slot_ids provider slot_date s :
  for_each sample_hours (λ hour,
    let* slot_id := uuid_slot_id slot_ids in
    modify (λ s : t * nat,
      (set_slots
         (dict_set slot_id (sample_slot provider slot_date hour slot_id))
         s.1, s.2))) s
  = (Ok tt,
     foldl (insert_item slot_ids) s
       ((λ hour, (provider, slot_date, hour)) <$> sample_hours)).
Proof. destruct s as [a n]. reflexivity. Qed.

Lemma days_loop slot_ids provider today day_offsets s :
  (∀ day_offset, day_offset ∈ day_offsets →
     0 ≤ day_offset ≤ 13 ∧ 1 ≤ today + day_offset ≤ Dt.MAXORDINAL) →
  for_each day_offsets (λ day_offset,
    let* slot_date := call (Dt.date_add_days today day_offset) in
    if Dt.weekday slot_date <? 5 then
      for_each sample_hours (λ hour,
        let* slot_id := uuid_slot_id slot_ids in
        modify (λ s : t * nat,
          (set_slots
             (dict_set slot_id (sample_slot provider slot_date hour slot_id))
             s.1, s.2)))
    else ret tt) s
  = (Ok tt,
     foldl (insert_item slot_ids) s (provider_plan today day_offsets provider)).
Proof.
  revert s. induction day_offsets as [|day_offset rest IH]; intros s Hrange;
    [reflexivity|].
  cbn [for_each]. unfold bind at 1, bind at 1, call at 1.
  destruct (Hrange day_offset) as [Hoff Hdate]; [left|].
  rewrite date_add_days_Ok by done.
  unfold provider_plan. cbn [fmap list_fmap concat]. rewrite foldl_app.
  fold (provider_plan today rest provider).
  unfold day_plan at 1.
  destruct (Dt.weekday (today + day_offset) <? 5).
  - rewrite hours_loop. apply IH. intros d Hd. apply Hrange. by right.
  - unfold ret at 1. cbn [foldl]. apply IH. intros d Hd. apply Hrange. by right.
Qed.

Lemma generate_sample_slots_plan today slot_ids s :
  1 ≤ today → today + 13 ≤ Dt.MAXORDINAL →
  generate_sample_slots today slot_ids s
  = (Ok tt, foldl (insert_item slot_ids) s (sample_plan today)).
Proof.
  intros Hlo Hhi.
  assert (Hrange : ∀ day_offset, day_offset ∈ seqZ 0 14 →
            0 ≤ day_offset ≤ 13 ∧ 1 ≤ today + day_offset ≤ Dt.MAXORDINAL).
  { intros d Hd%elem_of_seqZ. lia. }
  unfold generate_sample_slots, sample_plan.
  generalize sample_providers. intros providers. revert s.
  induction providers as [|provider rest IH]; intros s; [reflexivity|].
  cbn [for_each fmap list_fmap concat]. unfold bind at 1.
  rewrite (days_loop slot_ids provider today (seqZ 0 14) s Hrange).
  by rewrite IH, foldl_app.
Qed.

Lemma dict_get_absent {V} key (d : odict V) :
  key ∉ d.*1 → dict_get key d = None.
Proof.
  induction d as [|[k w] d IH]; cbn; [done|].
  intros [Hne Hnotin]%not_elem_of_cons.
  rewrite bool_decide_eq_false_2 by done. by apply IH.
Qed.

(** With identifiers that are new, every insertion appends. *)
Lemma insert_fresh slot_ids plan a n :
  (∀ i j, (n ≤ i < n + length plan)%nat → (n ≤ j < n + length plan)%nat →
          slot_ids i = slot_ids j → i = j) →
  (∀ i, (n ≤ i < n + length plan)%nat → slot_ids i ∉ (slots a).*1) →
  foldl (insert_item slot_ids) (a, n) plan
  = (mk (slots a ++ tagged slot_ids n plan) (holds a), (n + length plan)%nat).
Proof.
  revert a n. induction plan as [|item rest IH]; intros a n Hinj Hnew.
  - cbn. rewrite app_nil_r, Nat.add_0_r. by destruct a.
  - cbn [foldl length tagged]. unfold insert_item at 2. cbn [fst snd].
    unfold set_slots.
    rewrite (dict_set_absent (V := TimeSlot.t))
      by (apply dict_get_absent, Hnew; cbn [length]; lia).
    rewrite IH; cbn [slots holds].
    + rewrite <- app_assoc. cbn [app]. f_equal. cbn [length]. lia.
    + intros i j Hi Hj. apply Hinj; cbn [length]; lia.
    + intros i Hi. rewrite fmap_app. cbn [fmap list_fmap fst].
      rewrite not_elem_of_app. split.
      * apply Hnew. cbn [length]. lia.
      * rewrite list_elem_of_singleton. intros Heq.
        apply Hinj in Heq; cbn [length]; lia.
Qed.

Lemma tagged_length slot_ids n plan :
  length (tagged slot_ids n plan) = length plan.
Proof. revert n. induction plan as [|item rest IH]; intros n; cbn; [done|by rewrite IH]. Qed.

Lemma tagged_keys slot_ids n plan :
  slot_key <$> dict_values (tagged slot_ids n plan) = item_key <$> plan.
Proof.
  unfold dict_values. revert n.
  induction plan as [|[[[[[pid pname] lid] lname] d] h] rest IH]; intros n;
    cbn; [done|]. f_equal. apply IH.
Qed.

Lemma tagged_elem slot_ids n plan k slot :
  (k, slot) ∈ tagged slot_ids n plan →
  ∃ item, item ∈ plan ∧ slot = sample_slot item.1.1 item.1.2 item.2 k.
Proof.
  revert n. induction plan as [|item rest IH]; intros n; cbn.
  - by intros ?%elem_of_nil.
  - intros [[= -> ->]|Hin]%elem_of_cons.
    + exists item. split; [left|done].
    + destruct (IH _ Hin) as (item' & Hin' & ->).
      exists item'. split; [by right|done].
Qed.

Lemma tagged_covers slot_ids n plan item :
  item ∈ plan →
  ∃ k, (k, sample_slot item.1.1 item.1.2 item.2 k) ∈ tagged slot_ids n plan.
Proof.
  revert n. induction plan as [|item' rest IH]; intros n.
  - by intros ?%elem_of_nil.
  - intros [->|Hin]%elem_of_cons; cbn.
    + eexists. left.
    + destruct (IH (S n) Hin) as [k Hk]. exists k. by right.
Qed.

Lemma elem_of_concat {A} (x : A) (ls : list (list A)) :
  x ∈ concat ls ↔ ∃ l, x ∈ l ∧ l ∈ ls.
Proof.
  induction ls as [|l ls IH]; cbn.
  - split; [by intros ?%elem_of_nil|by intros (l & _ & ?%elem_of_nil)].
  - rewrite elem_of_app, IH. split.
    + intros [Hin|(l' & Hin & Hl')]; [exists l; split; [done|left]|].
      exists l'. split; [done|by right].
    + intros (l' & Hin & [->|Hl']%elem_of_cons); [by left|].
      right. by exists l'.
Qed.

(** The items of the plan: the weekdays of the fortnight from [today],
    at the six hours, for the two providers. *)
Lemma sample_plan_elem today provider slot_date hour :
  (provider, slot_date, hour) ∈ sample_plan today
  ↔ provider ∈ sample_providers
    ∧ (∃ day_offset, 0 ≤ day_offset < 14 ∧ slot_date = today + day_offset)
    ∧ Dt.weekday slot_date < 5
    ∧ hour ∈ sample_hours.
Proof.
  unfold sample_plan, provider_plan.
  rewrite elem_of_concat. split.
  - intros (l & Hin & (p & -> & Hp)%list_elem_of_fmap).
    apply elem_of_concat in Hin as (l' & Hin & (off & -> & Hoff)%list_elem_of_fmap).
    unfold day_plan in Hin.
    destruct (Dt.weekday (today + off) <? 5) eqn:Hwd; [|by apply elem_of_nil in Hin].
    apply list_elem_of_fmap in Hin as (h & [= -> -> ->] & Hh).
    apply elem_of_seqZ in Hoff. apply Z.ltb_lt in Hwd.
    split; [done|]. split; [exists off; split; [lia|done]|]. done.
  - intros (Hp & (off & Hoff & ->) & Hwd & Hh).
    exists (concat (day_plan provider today <$> seqZ 0 14)). split.
    + apply elem_of_concat. exists (day_plan provider today off). split.
      * unfold day_plan. rewrite (proj2 (Z.ltb_lt _ _) Hwd).
        apply list_elem_of_fmap. by exists hour.
      * apply list_elem_of_fmap. exists off. split; [done|].
        apply elem_of_seqZ. lia.
    + apply list_elem_of_fmap. by exists provider.
Qed.

Lemma weekday_mod today day_offset :
  Dt.weekday (today + day_offset) = Dt.weekday (today mod 7 + day_offset).
Proof.
  unfold Dt.weekday.
  rewrite <- !Z.add_assoc. by rewrite Zplus_mod_idemp_l.
Qed.

Lemma fmap_concat {A B} (f : A → B) (ls : list (list A)) :
  f <$> concat ls = concat ((λ l : list A, f <$> l) <$> ls).
Proof. induction ls as [|l ls IH]; cbn; [done|]. by rewrite fmap_app, IH. Qed.

(** The keys of the plan are those of a closed list, moved by [today]. *)
Lemma sample_plan_keys today :
  item_key <$> sample_plan today = shift_key today <$> offsets_plan (today mod 7).
Proof.
  unfold sample_plan, offsets_plan, provider_plan.
  rewrite !fmap_concat, <- !list_fmap_compose. f_equal.
  apply list_fmap_ext. intros _ [[[pid pname] lid] lname] _. cbn [compose fst].
  rewrite !fmap_concat, <- !list_fmap_compose. f_equal.
  apply list_fmap_ext. intros _ off _. cbn [compose].
  unfold day_plan, day_offsets_plan. rewrite <- weekday_mod.
  by destruct (Dt.weekday (today + off) <? 5).
Qed.

Lemma shift_key_inj today : Inj (=) (=) (shift_key today).
Proof.
  intros [[p1 o1] h1] [[p2 o2] h2]. unfold shift_key. cbn.
  intros [= -> Ho ->]. f_equal. f_equal. lia.
Qed.

Lemma offsets_plan_facts today :
  length (offsets_plan (today mod 7)) = 120%nat
  ∧ NoDup (offsets_plan (today mod 7)).
Proof.
  pose proof (Z.mod_pos_bound today 7 eq_refl) as Hr.
  assert (Hcases : today mod 7 = 0 ∨ today mod 7 = 1 ∨ today mod 7 = 2
                   ∨ today mod 7 = 3 ∨ today mod 7 = 4 ∨ today mod 7 = 5
                   ∨ today mod 7 = 6) by lia.
  destruct Hcases as [-> | [-> | [-> | [-> | [-> | [-> | ->]]]]]];
    (split; [vm_compute; reflexivity|]);
    refine (bool_decide_unpack _ _); vm_compute; exact I.
Qed.

Lemma slot_keys_step s s' :
  step s s' →
  slot_key <$> dict_values (slots (AppointmentService.availability_service s'))
  = slot_key <$> dict_values (slots (AppointmentService.availability_service s)).
Proof.
  intros Hstep. apply step_catalogue_identity in Hstep.
  revert Hstep.
  generalize (slots (AppointmentService.availability_service s')).
  generalize (slots (AppointmentService.availability_service s)).
  unfold catalogue_identity, dict_values.
  intros d d' Heq.
  assert (Hkeys : ∀ l : odict TimeSlot.t,
            slot_key <$> l.*2
            = (λ kv, slot_key kv.2) <$> ((λ kv, (kv.1, identity_of kv.2)) <$> l)).
  { intros l. rewrite <- !list_fmap_compose. apply list_fmap_ext.
    by intros _ [k []] _. }
  by rewrite !Hkeys, Heq.
Qed.

(** A new service, built on a day [today] that is at least thirteen
    days before the last day of the calendar, with identifiers that are
    all different: its catalogue has 120 slots, one per natural key;
    every slot is available and not held, stored under its own
    identifier, on a weekday of the fortnight that starts [today], at
    one of the six hours; and every provider has a slot on every such
    weekday at every such hour.  The natural keys stay the same, so one
    per slot, whatever is called on a service that uses it. *)
Theorem sample_catalogue today slot_ids :
  1 ≤ today → today + 13 ≤ Dt.MAXORDINAL →
  NoDup (slot_ids <$> seq 0 120) →
  ∃ a, init today slot_ids = Ok a
    ∧ holds a = ∅
    ∧ length (slots a) = 120%nat
    ∧ NoDup (slot_key <$> dict_values (slots a))
    ∧ (∀ k slot, (k, slot) ∈ slots a →
         TimeSlot.id slot = k
         ∧ TimeSlot.available slot = true
         ∧ TimeSlot.held_by slot = None
         ∧ Dt.weekday (TimeSlot.date slot) < 5
         ∧ today ≤ TimeSlot.date slot ≤ today + 13
         ∧ ∃ provider hour,
             provider ∈ sample_providers ∧ hour ∈ sample_hours
             ∧ slot = sample_slot provider (TimeSlot.date slot) hour k)
    ∧ (∀ provider day_offset hour,
         provider ∈ sample_providers → 0 ≤ day_offset < 14 →
         Dt.weekday (today + day_offset) < 5 → hour ∈ sample_hours →
         ∃ k, (k, sample_slot provider (today + day_offset) hour k) ∈ slots a)
    ∧ (∀ s s', AppointmentService.availability_service s = a → rtc step s s' →
         NoDup (slot_key <$> dict_values
                  (slots (AppointmentService.availability_service s')))).
Proof.
  intros Hlo Hhi Hnodup.
  destruct (offsets_plan_facts today) as [Hlen Hoffsets].
  assert (Hplan : length (sample_plan today) = 120%nat).
  { rewrite <- Hlen, <- (length_fmap item_key), sample_plan_keys.
    apply length_fmap. }
  assert (Hkeys : NoDup (item_key <$> sample_plan today)).
  { rewrite sample_plan_keys.
    apply NoDup_fmap_2_strong; [|exact Hoffsets].
    intros x y _ _. apply shift_key_inj. }
  exists (mk (tagged slot_ids 0 (sample_plan today)) ∅).
  assert (Hinit : init today slot_ids
                  = Ok (mk (tagged slot_ids 0 (sample_plan today)) ∅)).
  { unfold init. rewrite generate_sample_slots_plan by done.
    rewrite insert_fresh; [done| |].
    - rewrite Hplan. intros i j Hi Hj Heq.
      apply (proj1 (NoDup_alt _) Hnodup i j (slot_ids i)).
      + rewrite list_lookup_fmap, lookup_seq_lt by lia. done.
      + rewrite list_lookup_fmap, lookup_seq_lt by lia. cbn. by rewrite Heq.
    - intros i _. cbn. apply not_elem_of_nil. }
  split; [exact Hinit|]. split; [reflexivity|]. cbn [slots].
  split; [by rewrite tagged_length|].
  assert (Hunique : NoDup (slot_key <$> dict_values
                             (tagged slot_ids 0 (sample_plan today))))
    by (by rewrite tagged_keys).
  split; [exact Hunique|]. split; [|split].
  - intros k slot Hin.
    apply tagged_elem in Hin as ([[provider d] h] & Hitem & ->).
    cbn [fst snd].
    apply sample_plan_elem in Hitem as (Hp & (off & Hoff & ->) & Hwd & Hh).
    destruct provider as [[[pid pname] lid] lname]. cbn.
    repeat split; try done; try lia.
    exists (pid, pname, lid, lname), h. done.
  - intros provider off h Hp Hoff Hwd Hh.
    apply (tagged_covers slot_ids 0 (sample_plan today) (provider, today + off, h)).
    apply sample_plan_elem. split; [done|].
    split; [by exists off|done].
  - intros s s' Ha Hsteps.
    assert (Heq : slot_key <$> dict_values
                    (slots (AppointmentService.availability_service s'))
                  = slot_key <$> dict_values
                      (slots (AppointmentService.availability_service s))).
    { clear Ha. induction Hsteps as [|s1 s2 s3 Hstep _ IH]; [done|].
      rewrite IH. by apply slot_keys_step. }
    rewrite Heq, Ha. exact Hunique.
Qed.

End SampleCatalogue.

Lemma sample_catalogue_witness :
  let slot_ids := λ n : nat, "slot-" +:+ pretty n in
  (1 ≤ 739311 ∧ 739311 + 13 ≤ Dt.MAXORDINAL
   ∧ NoDup (slot_ids <$> seq 0 120))
  ∧ ∃ a, AvailabilityService.init 739311 slot_ids = Ok a
      ∧ length (AvailabilityService.slots a) = 120%nat
      ∧ NoDup (slot_key <$> dict_values (AvailabilityService.slots a)).
Proof.
  intros slot_ids.
  assert (Hlo : 1 ≤ 739311) by lia.
  assert (Hhi : 739311 + 13 ≤ Dt.MAXORDINAL) by (vm_compute; discriminate).
  assert (Hids : NoDup (slot_ids <$> seq 0 120))
    by (refine (bool_decide_unpack _ _); vm_compute; exact I).
  split; [by repeat split|].
  destruct (sample_catalogue 739311 slot_ids Hlo Hhi Hids)
    as (a & Hinit & _ & Hlen & Hkeys & _).
  exists a. by repeat split.
Defined.
